(** * SCIM 2.0 provisioning endpoints of open-webui: a shallow embedding

    The development follows the Python sources

      - [backend/open_webui/utils/scim_utils.py]      (resource mapper),
      - [backend/open_webui/utils/scim_exceptions.py] (error taxonomy),
      - [backend/open_webui/routers/scim_users.py]    (User endpoints),
      - [backend/open_webui/routers/scim_groups.py]   (Group endpoints),
      - [backend/open_webui/routers/scim_schemas.py]  (schema introspection).

    Handlers are functions in a state-and-exception monad over the
    persistence layer; Python dictionaries are [gmap]s, Python sets are
    [gset]s, and the built-in string methods the handlers call are given
    executable definitions in [Module Py]. *)

From Stdlib Require Import ZArith Ascii String List Lia DecimalString DecimalPos.
From stdpp Require Import base gmap strings list fin_maps.

Local Open Scope Z_scope.
Set Warnings "-register-all".

(** ** Python built-ins used by the handlers *)

Module Py.

(** The double-quote character. *)
Definition dquote : ascii := ascii_of_nat 34.

(** [s] between two double quotes. *)
Definition quoted (s : string) : string :=
  String dquote (String.append s (String dquote EmptyString)).

(** [str.lower()] on the ASCII range; every other byte is kept. The
    constants the handlers compare a lowered string with hold no letter
    that a character outside ASCII lowers to. *)
Definition lower_ascii (c : ascii) : ascii :=
  let n := nat_of_ascii c in
  if (Nat.leb 65 n && Nat.leb n 90)%bool then ascii_of_nat (n + 32) else c.

Fixpoint lower (s : string) : string :=
  match s with
  | EmptyString => EmptyString
  | String c s' => String (lower_ascii c) (lower s')
  end.

(** [s.split(sep)] for a one-character separator: every occurrence
    cuts, empty pieces are kept, and the result is never empty. *)
Fixpoint split (sep : ascii) (s : string) : list string :=
  match s with
  | EmptyString => [EmptyString]
  | String c s' =>
      if Ascii.eqb c sep then EmptyString :: split sep s'
      else match split sep s' with
           | h :: t => String c h :: t
           | [] => [String c EmptyString]
           end
  end.

(** [s.split(sep, 1)]: cut at the first occurrence only. *)
Fixpoint split1 (sep : ascii) (s : string) : list string :=
  match s with
  | EmptyString => [EmptyString]
  | String c s' =>
      if Ascii.eqb c sep then [EmptyString; s']
      else match split1 sep s' with
           | h :: t => String c h :: t
           | [] => [String c EmptyString]
           end
  end.

Fixpoint lstrip (ch : ascii) (s : string) : string :=
  match s with
  | EmptyString => EmptyString
  | String c s' => if Ascii.eqb c ch then lstrip ch s' else s
  end.

Fixpoint rstrip (ch : ascii) (s : string) : string :=
  match s with
  | EmptyString => EmptyString
  | String c s' =>
      match rstrip ch s' with
      | EmptyString => if Ascii.eqb c ch then EmptyString else String c EmptyString
      | r => String c r
      end
  end.

(** [s.strip(ch)] for a one-character set. *)
Definition strip (ch : ascii) (s : string) : string := rstrip ch (lstrip ch s).

(** [s.startswith(p)]. *)
Definition startswith (p s : string) : bool := String.prefix p s.

(** Truth value of a [str]: the empty string is falsy. *)
Definition truthy (s : string) : bool :=
  match s with EmptyString => false | _ => true end.

(** Truth value of an [Optional[str]]. *)
Definition otruthy (o : option string) : bool :=
  match o with Some s => truthy s | None => false end.

(** Slice bound normalisation of [l[a:b]]: a negative bound counts
    from the end, and every bound is clamped to [0, len]. *)
Definition clamp (len i : Z) : Z :=
  if i <? 0 then Z.max (i + len) 0 else Z.min i len.

(** [l[a:b]] with unit step. *)
Definition slice {A} (l : list A) (a b : Z) : list A :=
  let len := Z.of_nat (length l) in
  let lo := clamp len a in
  let hi := clamp len b in
  firstn (Z.to_nat (hi - lo)) (skipn (Z.to_nat lo) l).

(** JSON values as [json.loads] delivers them to a field typed [Any]. *)
Inductive value :=
| VNone
| VBool (b : bool)
| VInt (z : Z)
| VStr (s : string)
| VList (l : list value)
| VDict (d : list (string * value)).

(** [isinstance(v, bool)], [isinstance(v, str)], [isinstance(v, list)],
    [isinstance(v, dict)]. *)
Definition is_bool (v : value) : bool := match v with VBool _ => true | _ => false end.
Definition is_str (v : value) : bool := match v with VStr _ => true | _ => false end.
Definition is_list (v : value) : bool := match v with VList _ => true | _ => false end.
Definition is_dict (v : value) : bool := match v with VDict _ => true | _ => false end.

(** Truth value of an arbitrary JSON value. *)
Definition vtruthy (v : value) : bool :=
  match v with
  | VNone => false
  | VBool b => b
  | VInt z => negb (z =? 0)
  | VStr s => truthy s
  | VList l => match l with [] => false | _ => true end
  | VDict d => match d with [] => false | _ => true end
  end.

(** [k in d] and [d[k]] on a JSON object (the last binding of a
    repeated key wins, as in [json.loads]). *)
Fixpoint dict_get (k : string) (d : list (string * value)) : option value :=
  match d with
  | [] => None
  | (k', v) :: d' =>
      match dict_get k d' with
      | Some w => Some w
      | None => if String.eqb k k' then Some v else None
      end
  end.

(** Characters of a string as one-character strings ([for c in s]). *)
Fixpoint chars (s : string) : list string :=
  match s with
  | EmptyString => []
  | String c s' => String c EmptyString :: chars s'
  end.

(** Keys of a JSON object in iteration order, each key once. *)
Fixpoint keys (d : list (string * value)) : list string :=
  match d with
  | [] => []
  | (k, _) :: d' => k :: List.filter (fun k' => negb (String.eqb k k')) (keys d')
  end.

(** [for x in v]: [None] when [v] is not iterable ([TypeError]). *)
Definition iterate (v : value) : option (list value) :=
  match v with
  | VList l => Some l
  | VStr s => Some (map VStr (chars s))
  | VDict d => Some (map VStr (keys d))
  | VNone | VBool _ | VInt _ => None
  end.

(** [str(z)] for an [int]. *)
Definition str_of_Z (z : Z) : string := NilEmpty.string_of_int (Z.to_int z).

Fixpoint join (sep : string) (l : list string) : string :=
  match l with
  | [] => EmptyString
  | [x] => x
  | x :: l' => String.append x (String.append sep (join sep l'))
  end.

Definition quote (s : string) : string :=
  String.append "'" (String.append s "'").

(** [repr(v)]; strings are quoted the way Python quotes a string that
    holds no quote, backslash or control character. *)
Fixpoint repr (v : value) : string :=
  match v with
  | VNone => "None"
  | VBool true => "True"
  | VBool false => "False"
  | VInt z => str_of_Z z
  | VStr s => quote s
  | VList l => String.append "[" (String.append (join ", " (map repr l)) "]")
  | VDict d =>
      String.append "{"
        (String.append
           (join ", " (map (fun kv => String.append (quote (fst kv))
                                        (String.append ": " (repr (snd kv)))) d))
           "}")
  end.

(** [str(v)]: a string is itself, anything else prints as its [repr].
    The result is Python's for a string, null, a boolean and an integer;
    for a list or an object it is Python's as long as the strings inside
    hold no quote, backslash or control character. *)
Definition str (v : value) : string :=
  match v with
  | VStr s => s
  | _ => repr v
  end.

End Py.

(** ** Error taxonomy ([scim_exceptions.py])

    Every SCIM exception is an [HTTPException] carrying a status code and
    a [scim_type]; the constructors below fix both as the class
    definitions do (the [detail] text is not modelled). *)

Module Exc.

Record SCIMException := mkExc { status_code : Z; scim_type : string }.

Definition SCIMBadRequestError : SCIMException := mkExc 400 "invalidValue".
Definition SCIMUnauthorizedError : SCIMException := mkExc 401 "unauthorized".
Definition SCIMForbiddenError : SCIMException := mkExc 403 "forbidden".
Definition SCIMNotFoundError : SCIMException := mkExc 404 "notFound".
Definition SCIMConflictError : SCIMException := mkExc 409 "uniqueness".
Definition SCIMPreconditionFailedError : SCIMException := mkExc 412 "preconditionFailed".
Definition SCIMInternalServerError : SCIMException := mkExc 500 "internalServerError".
Definition SCIMNotImplementedError : SCIMException := mkExc 501 "notImplemented".

(** An exception no handler catches (a Python [TypeError]): the
    framework answers 500 without a SCIM type. *)
Definition UncaughtTypeError : SCIMException := mkExc 500 EmptyString.

(** Two more exceptions no handler catches, answered the same way: the
    [NameError] of a global name that the module never binds, and the
    [AttributeError] of a method that the object does not have. *)
Definition UncaughtNameError : SCIMException := mkExc 500 EmptyString.
Definition UncaughtAttributeError : SCIMException := mkExc 500 EmptyString.

(** An error that is none of the SCIM exceptions: it carries no SCIM
    type. *)
Definition uncaught (e : SCIMException) : bool := String.eqb (scim_type e) EmptyString.

End Exc.
Export Exc.

(** ** Records of the persistence layer and of the wire ([models/scim_schemas.py]) *)

Module Model.

(** A [datetime]: an instant (seconds since the epoch) and an optional
    zone offset; [tzinfo = None] is a naive datetime. *)
Record datetime := mkDatetime { instant : Z; tzinfo : option Z }.

Definition utc : Z := 0.

(** What a [created_at] / [updated_at] attribute may hold at run time:
    [None], an [int] or [float] timestamp (whole seconds here), a
    [datetime], or a value of some other type. *)
Inductive timestamp :=
| TsNone
| TsNumber (secs : Z)
| TsDatetime (d : datetime)
| TsOther.

Record UserModel := mkUser {
  u_id : string;
  u_email : string;
  u_name : string;
  u_role : string;
  u_created_at : timestamp;
  u_updated_at : timestamp
}.

Record GroupModel := mkGroup {
  g_id : string;
  g_name : string;
  g_user_ids : list string;
  g_created_at : timestamp;
  g_updated_at : timestamp
}.

Definition USER_SCHEMA_URN : string := "urn:ietf:params:scim:schemas:core:2.0:User".
Definition GROUP_SCHEMA_URN : string := "urn:ietf:params:scim:schemas:core:2.0:Group".
Definition LIST_RESPONSE_URN : string := "urn:ietf:params:scim:api:messages:2.0:ListResponse".
Definition PATCH_OP_URN : string := "urn:ietf:params:scim:api:messages:2.0:PatchOp".
Definition ERROR_URN : string := "urn:ietf:params:scim:api:messages:2.0:Error".

(** [HttpUrl(text, scheme=...)]. *)
Record HttpUrl := mkUrl { url : string; scheme : string }.

Record SCIMMeta := mkMeta {
  resourceType : string;
  created : option datetime;
  lastModified : option datetime;
  location : option HttpUrl;
  version : option string
}.

Record SCIMName := mkName {
  formatted : option string;
  familyName : option string;
  givenName : option string
}.

Record SCIMEmail := mkEmail {
  email_value : option string;
  email_type : option string;
  email_primary : option bool
}.

Record SCIMGroupMember := mkMember {
  member_value : string;
  member_ref : option HttpUrl;
  member_type : option string;
  member_display : option string
}.

(** [SCIMGroupMember(value=..., display=..., ref=..., type=...)]. The
    field [ref] is declared with the alias [$ref] and the class does not
    allow population by field name, so the keyword [ref] names no field:
    the URL passed under it is dropped and [ref] keeps its default,
    [None]. *)
Definition SCIMGroupMember_init (value : string) (display : option string)
    (ref_keyword : option HttpUrl) (type : option string) : SCIMGroupMember :=
  mkMember value None type display.

Record SCIMUser := mkSCIMUser {
  user_schemas : list string;
  user_id : string;
  user_externalId : option string;
  userName : string;
  user_name : option SCIMName;
  user_displayName : option string;
  active : option bool;
  password : option string;
  emails : option (list SCIMEmail);
  user_groups : option (list SCIMGroupMember);
  user_meta : SCIMMeta
}.

Record SCIMGroup := mkSCIMGroup {
  group_schemas : list string;
  group_id : string;
  group_externalId : option string;
  displayName : string;
  members : option (list SCIMGroupMember);
  group_meta : SCIMMeta
}.

(** [Union[SCIMUser, SCIMGroup]]. *)
Inductive Resource :=
| RUser (u : SCIMUser)
| RGroup (g : SCIMGroup).

Definition is_SCIMUser (r : Resource) : bool :=
  match r with RUser _ => true | RGroup _ => false end.

Definition is_SCIMGroup (r : Resource) : bool :=
  match r with RGroup _ => true | RUser _ => false end.

Record SCIMListResponse := mkList {
  list_schemas : list string;
  totalResults : Z;
  startIndex : Z;
  itemsPerPage : Z;
  Resources : list Resource
}.

Record SCIMPatchOp := mkOp {
  op : string;
  path : option string;
  value : Py.value
}.

Record SCIMPatchRequest := mkPatch {
  patch_schemas : list string;
  Operations : list SCIMPatchOp
}.

(** A value stored under a key of an update dictionary. *)
Inductive dbval :=
| DStr (s : string)
| DIds (l : list string).

End Model.
Export Model.

(** ** The persistence layer and the handler monad *)

Module Db.

(** A mutating call on the persistence layer, as the handlers issue it. *)
Inductive StoreCall :=
| InsertNewAuth (id email name role : string)
| UpdateUserById (id : string) (fields : gmap string string)
| UpdateGroupById (id : string) (fields : gmap string dbval).

(** The stored users and groups, and the log of mutating calls received
    so far (most recent last). *)
Record Store := mkStore {
  users : list UserModel;
  groups : list GroupModel;
  clock : Z;
  calls : list StoreCall
}.

(** A handler runs against the store and either raises or returns. *)
Definition Handler (A : Type) : Type := Store -> Store * (SCIMException + A).

Definition ret {A} (a : A) : Handler A := fun st => (st, inr a).

Definition raise {A} (e : SCIMException) : Handler A := fun st => (st, inl e).

Definition bind {A B} (m : Handler A) (k : A -> Handler B) : Handler B :=
  fun st =>
    match m st with
    | (st', inl e) => (st', inl e)
    | (st', inr a) => k a st'
    end.

(** [try: m except Exception: raise e]. *)
Definition rethrow {A} (m : Handler A) (e : SCIMException) : Handler A :=
  fun st =>
    match m st with
    | (st', inl _) => (st', inl e)
    | r => r
    end.

(** A view of what a handler returned, errors passing through. *)
Definition seen {A B} (f : A -> B) (r : SCIMException + A) : SCIMException + B :=
  match r with
  | inl e => inl e
  | inr a => inr (f a)
  end.

Definition log (c : StoreCall) (st : Store) : Store :=
  mkStore (users st) (groups st) (clock st) (calls st ++ [c]).

End Db.
Export Db.

#[global] Instance handler_ret : MRet Handler := @Db.ret.
#[global] Instance handler_bind : MBind Handler := fun A B k m => Db.bind m k.

(** [obj.model_dump(exclude_none=True)] on a wire model. The model
    classes are written against the pydantic release whose [HttpUrl]
    takes [scheme=] and whose [Config] has
    [allow_population_by_field_name]; the [BaseModel] of that release
    has no [model_dump] method, so the attribute lookup raises
    [AttributeError], which no handler catches. (Under the release that
    has [model_dump], the [HttpUrl(..., scheme=...)] that builds the
    representation raises [TypeError] one statement earlier: the same
    uncaught failure at the same place of the handler.) *)
Definition model_dump {A} (obj : A) : Handler A := raise UncaughtAttributeError.

(** Modelled from the spec: the user store behind [models/users.py]
    ([findUserById], [findUserByEmail], [listUsers], [updateUser],
    [listUsersByIds] of the store contract). *)
Module Users.

Definition get_user_by_id (id : string) : Handler (option UserModel) :=
  fun st => (st, inr (find (fun u => String.eqb (u_id u) id) (users st))).

Definition get_user_by_email (email : string) : Handler (option UserModel) :=
  fun st => (st, inr (find (fun u => String.eqb (u_email u) email) (users st))).

Definition get_users (role : option string) : Handler (list UserModel) :=
  fun st =>
    (st, inr match role with
             | None => users st
             | Some r => List.filter (fun u => String.eqb (u_role u) r) (users st)
             end).

Definition get_users_by_user_ids (ids : list string) : Handler (list UserModel) :=
  fun st => (st, inr (List.filter (fun u => existsb (String.eqb (u_id u)) ids) (users st))).

Definition apply_fields (fields : gmap string string) (u : UserModel) : UserModel :=
  mkUser (u_id u)
         (default (u_email u) (fields !! "email"%string))
         (default (u_name u) (fields !! "name"%string))
         (default (u_role u) (fields !! "role"%string))
         (u_created_at u) (u_updated_at u).

Definition update_user_by_id (id : string) (fields : gmap string string)
  : Handler (option UserModel) :=
  fun st =>
    let st1 := log (UpdateUserById id fields) st in
    match find (fun u => String.eqb (u_id u) id) (users st) with
    | None => (st1, inr None)
    | Some u =>
        let u' := apply_fields fields u in
        (mkStore (map (fun v => if String.eqb (u_id v) id then apply_fields fields v else v)
                      (users st1))
                 (groups st1) (clock st1) (calls st1),
         inr (Some u'))
    end.

End Users.

(** Modelled from the spec: the credential store behind
    [models/auths.py] ([createUser] of the store contract); creation is
    refused when the id or the email is taken, the store enforcing
    uniqueness. *)
Module Auths.

Definition insert_new_auth (id email name role : string) : Handler (option UserModel) :=
  fun st =>
    let st1 := log (InsertNewAuth id email name role) st in
    if existsb (fun u => (String.eqb (u_id u) id || String.eqb (u_email u) email)%bool) (users st)
    then (st1, inr None)
    else
      let u := mkUser id email name role (TsNumber (clock st)) (TsNumber (clock st)) in
      (mkStore (users st1 ++ [u]) (groups st1) (clock st1) (calls st1), inr (Some u)).

End Auths.

(** Modelled from the spec: the group store behind [models/groups.py]
    ([findGroupById], [listGroups], [updateGroup] of the store
    contract). The handlers never read a group's description, and the
    group record here does not keep one: a description that a handler
    writes shows in the dictionary of the call ([calls]), not in the
    record. *)
Module Groups.

Definition get_group_by_id (id : string) : Handler (option GroupModel) :=
  fun st => (st, inr (find (fun g => String.eqb (g_id g) id) (groups st))).

Definition get_groups : Handler (list GroupModel) :=
  fun st => (st, inr (groups st)).

Definition apply_fields (fields : gmap string dbval) (g : GroupModel) : GroupModel :=
  mkGroup (g_id g)
          (match fields !! "name"%string with Some (DStr s) => s | _ => g_name g end)
          (match fields !! "user_ids"%string with Some (DIds l) => l | _ => g_user_ids g end)
          (g_created_at g) (g_updated_at g).

Definition update_group_by_id (id : string) (fields : gmap string dbval)
  : Handler (option GroupModel) :=
  fun st =>
    let st1 := log (UpdateGroupById id fields) st in
    match find (fun g => String.eqb (g_id g) id) (groups st) with
    | None => (st1, inr None)
    | Some g =>
        let g' := apply_fields fields g in
        (mkStore (users st1)
                 (map (fun h => if String.eqb (g_id h) id then apply_fields fields h else h)
                      (groups st1))
                 (clock st1) (calls st1),
         inr (Some g'))
    end.

End Groups.

(** ** Resource mapper ([utils/scim_utils.py]) *)

Module ScimUtils.

(** [HttpUrl(text, scheme="http") if base_url.startswith("http:")
     else HttpUrl(text, scheme="https")]. *)
Definition make_url (base_url text : string) : HttpUrl :=
  if Py.startswith "http:" base_url then mkUrl text "http" else mkUrl text "https".

(** The conversion of a creation time: a number goes through
    [datetime.fromtimestamp(_, tz=utc)], a naive datetime is given the
    UTC zone, an aware one is kept, anything else leaves [None]. *)
Definition convert_created (t : timestamp) : option datetime :=
  match t with
  | TsNone => None
  | TsNumber secs => Some (mkDatetime secs (Some utc))
  | TsDatetime d =>
      Some (match tzinfo d with
            | None => mkDatetime (instant d) (Some utc)
            | Some _ => d
            end)
  | TsOther => None
  end.

(** The conversion of a modification time. The [elif created_dt] arm is
    the last arm of the chain that sits under
    [if updated_at is not None]. *)
Definition convert_last_modified (t : timestamp) (created_dt : option datetime)
  : option datetime :=
  match t with
  | TsNone => None
  | TsNumber secs => Some (mkDatetime secs (Some utc))
  | TsDatetime d =>
      Some (match tzinfo d with
            | None => mkDatetime (instant d) (Some utc)
            | Some _ => d
            end)
  | TsOther =>
      match created_dt with
      | Some c => Some c
      | None => None
      end
  end.

Definition user_to_scim_user (user : UserModel) (base_url : string) : SCIMUser :=
  let name_parts := Py.split1 " " (u_name user) in
  let given_name :=
    if Py.truthy (u_name user) then nth_error name_parts 0 else None in
  let family_name :=
    if Py.truthy (u_name user)
    then (if Nat.ltb 1 (length name_parts) then nth_error name_parts 1 else None)
    else None in
  let created_dt := convert_created (u_created_at user) in
  let last_modified_dt := convert_last_modified (u_updated_at user) created_dt in
  mkSCIMUser
    [USER_SCHEMA_URN]
    (u_id user)
    None
    (u_email user)
    (Some (mkName (Some (u_name user)) family_name given_name))
    (Some (u_name user))
    (Some (negb (String.eqb (u_role user) "pending")))
    None
    (Some [mkEmail (Some (u_email user)) (Some "work"%string) (Some true)])
    (Some [])
    (mkMeta "User" created_dt last_modified_dt
            (Some (make_url base_url
                     (String.append base_url (String.append "/Users/" (u_id user)))))
            None).

(** [scim_user.name and scim_user.name.<field>] as a truth value, and
    the field read once that test has passed. *)
Definition has_name_field (f : SCIMName -> option string) (n : option SCIMName) : bool :=
  match n with
  | Some nm => Py.otruthy (f nm)
  | None => false
  end.

Definition get_name_field (f : SCIMName -> option string) (n : option SCIMName) : string :=
  match n with
  | Some nm => default EmptyString (f nm)
  | None => EmptyString
  end.

(** The [if]/[elif] chain that opens [scim_user_to_db_dict]. *)
Definition resolve_name (scim_user : SCIMUser) : string :=
  let nm := user_name scim_user in
  if has_name_field formatted nm then get_name_field formatted nm
  else if Py.otruthy (user_displayName scim_user)
  then default EmptyString (user_displayName scim_user)
  else if (has_name_field givenName nm && has_name_field familyName nm)%bool
  then String.append (get_name_field givenName nm)
         (String.append " " (get_name_field familyName nm))
  else if has_name_field givenName nm then get_name_field givenName nm
  else userName scim_user.

Definition scim_user_to_db_dict (scim_user : SCIMUser) : gmap string string :=
  let db_dict : gmap string string :=
    <["role"%string := if default false (active scim_user) then "user"%string else "pending"%string]>
      (<["name"%string := resolve_name scim_user]>
         (<["email"%string := userName scim_user]> ∅)) in
  let db_dict :=
    if Py.truthy (user_id scim_user)
    then <["id"%string := user_id scim_user]> db_dict else db_dict in
  if Py.otruthy (user_externalId scim_user)
  then <["external_id"%string := default EmptyString (user_externalId scim_user)]> db_dict
  else db_dict.

(** [member_map = {user.id: user for user in members_users}]: a later
    user with the same id replaces an earlier one. *)
Definition member_map (members_users : list UserModel) : gmap string UserModel :=
  fold_left (fun m u => <[u_id u := u]> m) members_users ∅.

Definition group_to_scim_group (group : GroupModel) (members_users : list UserModel)
    (base_url : string) : SCIMGroup :=
  let mm := member_map members_users in
  let scim_members :=
    map (fun uid =>
           let display_name :=
             match mm !! uid with
             | Some user_model => u_email user_model
             | None => uid
             end in
           SCIMGroupMember_init uid
             (Some display_name)
             (Some (make_url base_url
                      (String.append base_url (String.append "/Users/" uid))))
             (Some "User"%string))
        (g_user_ids group) in
  let created_dt := convert_created (g_created_at group) in
  let last_modified_dt := convert_last_modified (g_updated_at group) created_dt in
  mkSCIMGroup
    [GROUP_SCHEMA_URN]
    (g_id group)
    None
    (g_name group)
    (Some scim_members)
    (mkMeta "Group" created_dt last_modified_dt
            (Some (make_url base_url
                     (String.append base_url (String.append "/Groups/" (g_id group)))))
            None).

End ScimUtils.
Export ScimUtils.

(** Iteration of a handler over a list, threading a loop state
    (the [for op in ...Operations] loops). *)
Fixpoint for_each {A S} (step : S -> A -> Handler S) (l : list A) (s : S) : Handler S :=
  match l with
  | [] => mret s
  | a :: l' => s' ← step s a; for_each step l' s'
  end.

(** [op.path and op.path.lower() == p]. *)
Definition path_is (p : string) (o : option string) : bool :=
  match o with
  | Some s => (Py.truthy s && String.eqb (Py.lower s) p)%bool
  | None => false
  end.

(** Truth value of a Python dictionary or set: non-empty. *)
Definition nonempty `{Countable K} {V} (m : gmap K V) : bool :=
  negb (bool_decide (m = ∅)).

(** The filter parsing of [GET /Users] and [GET /Groups], which differ
    in the attribute name only: [None] when no filter is given,
    otherwise the value to look for. *)
Definition parse_filter (attr : string) (filter : option string)
  : SCIMException + option string :=
  match filter with
  | None => inr None
  | Some f =>
      if Py.truthy f then
        let parts := Py.split " " f in
        if (Nat.eqb (length parts) 3
            && String.eqb (Py.lower (nth 0 parts EmptyString)) attr
            && String.eqb (Py.lower (nth 1 parts EmptyString)) "eq")%bool
        then inr (Some (Py.strip Py.dquote (nth 2 parts EmptyString)))
        else inl SCIMNotImplementedError
      else inr None
  end.

Definition lift {A} (r : SCIMException + A) : Handler A :=
  match r with
  | inl e => raise e
  | inr a => mret a
  end.

(** ** User endpoints ([routers/scim_users.py]) *)

Module ScimUsers.

(** The global name [LIST_RESPONSE_URN] as [routers/scim_users.py] sees
    it. The module imports [SCIMUser], [SCIMListResponse],
    [SCIMPatchRequest] and [USER_SCHEMA_URN] from [models.scim_schemas]
    and never binds [LIST_RESPONSE_URN] ([routers/scim_groups.py] does
    import it), so evaluating the name raises [NameError]. *)
Definition LIST_RESPONSE_URN_here : Handler string := raise UncaughtNameError.

Definition get_users (base_scim_url : string) (startIndex count : Z)
    (filter sortBy sortOrder attributes excludedAttributes : option string)
  : Handler SCIMListResponse :=
  if (Py.otruthy sortBy || Py.otruthy sortOrder)%bool then raise SCIMNotImplementedError
  else if (Py.otruthy attributes || Py.otruthy excludedAttributes)%bool
  then raise SCIMNotImplementedError
  else
    filter_email ← lift (parse_filter "username" filter);
    all_db_users ← Users.get_users None;
    let user_models :=
      if Py.otruthy filter_email
      then List.filter (fun u => String.eqb (u_email u) (default EmptyString filter_email))
             all_db_users
      else all_db_users in
    let total_results := Z.of_nat (length user_models) in
    let start_index_0_based := startIndex - 1 in
    let end_index_0_based := start_index_0_based + count in
    let paginated_user_models :=
      Py.slice user_models start_index_0_based end_index_0_based in
    let scim_user_resources :=
      map (fun user_model => RUser (user_to_scim_user user_model base_scim_url))
          paginated_user_models in
    list_response_urn ← LIST_RESPONSE_URN_here;
    mret (mkList [list_response_urn]
                 total_results
                 startIndex
                 (Z.of_nat (length scim_user_resources))
                 (List.filter is_SCIMUser scim_user_resources)).

(** [POST /Users]. [fresh_uuid] stands for the [uuid.uuid4()] drawn when
    the payload carries no id; the password and its hash do not reach
    the user record and are left out. The body of the answer is
    [final_scim_user.model_dump(exclude_none=True)]. *)
Definition create_user (base_scim_url : string) (fresh_uuid : string)
    (scim_user_payload : SCIMUser) : Handler SCIMUser :=
  if negb (Py.truthy (userName scim_user_payload)) then raise SCIMBadRequestError
  else
    existing_user ← Users.get_user_by_email (userName scim_user_payload);
    match existing_user with
    | Some _ => raise SCIMConflictError
    | None =>
        let user_data_for_db := scim_user_to_db_dict scim_user_payload in
        let new_id :=
          if Py.truthy (user_id scim_user_payload)
          then user_id scim_user_payload else fresh_uuid in
        let user_data_for_db := <["id"%string := new_id]> user_data_for_db in
        _ ← rethrow
              (created_auth_user ←
                 Auths.insert_new_auth
                   new_id
                   (default EmptyString (user_data_for_db !! "email"%string))
                   (default EmptyString (user_data_for_db !! "name"%string))
                   (default "user"%string (user_data_for_db !! "role"%string));
               match created_auth_user with
               | None => raise SCIMInternalServerError
               | Some _ => mret tt
               end)
              SCIMInternalServerError;
        new_user_model ← Users.get_user_by_id new_id;
        match new_user_model with
        | None => raise SCIMInternalServerError
        | Some m =>
            let final_scim_user := user_to_scim_user m base_scim_url in
            content ← model_dump final_scim_user;
            mret content
        end
    end.

(** One turn of the loop of [patch_user]. *)
Definition patch_user_op (user_id : string) (user_model : UserModel)
    (db_updates : gmap string string) (o : SCIMPatchOp)
  : Handler (gmap string string) :=
  if String.eqb (Py.lower (op o)) "replace" then
    if path_is "active" (path o) then
      match value o with
      | Py.VBool b =>
          mret (<["role"%string := if b then "user"%string else "pending"%string]> db_updates)
      | _ => raise SCIMBadRequestError
      end
    else if path_is "username" (path o) then
      match value o with
      | Py.VStr v =>
          if negb (String.eqb v (u_email user_model)) then
            existing_user ← Users.get_user_by_email v;
            match existing_user with
            | Some e =>
                if negb (String.eqb (u_id e) user_id) then raise SCIMConflictError
                else mret (<["email"%string := v]> db_updates)
            | None => mret (<["email"%string := v]> db_updates)
            end
          else mret db_updates
      | _ => raise SCIMBadRequestError
      end
    else raise SCIMNotImplementedError
  else raise SCIMNotImplementedError.

Definition patch_user (base_scim_url : string) (patch_request_payload : SCIMPatchRequest)
    (user_id : string) : Handler SCIMUser :=
  user_model ← Users.get_user_by_id user_id;
  match user_model with
  | None => raise SCIMNotFoundError
  | Some user_model =>
      db_updates ← for_each (patch_user_op user_id user_model)
                            (Operations patch_request_payload) ∅;
      _ ← (if nonempty db_updates then
             updated_model ← Users.update_user_by_id user_id db_updates;
             match updated_model with
             | None => raise SCIMInternalServerError
             | Some _ => mret tt
             end
           else mret tt);
      final_user_model ← Users.get_user_by_id user_id;
      match final_user_model with
      | None => raise SCIMInternalServerError
      | Some m => mret (user_to_scim_user m base_scim_url)
      end
  end.

End ScimUsers.

(** ** Group endpoints ([routers/scim_groups.py]) *)

Module ScimGroups.

Definition get_groups (base_scim_url : string) (startIndex count : Z)
    (filter sortBy sortOrder attributes excludedAttributes : option string)
  : Handler SCIMListResponse :=
  if (Py.otruthy sortBy || Py.otruthy sortOrder)%bool then raise SCIMNotImplementedError
  else if (Py.otruthy attributes || Py.otruthy excludedAttributes)%bool
  then raise SCIMNotImplementedError
  else
    filter_display_name ← lift (parse_filter "displayname" filter);
    all_db_groups ← Groups.get_groups;
    let group_models :=
      if Py.otruthy filter_display_name
      then List.filter
             (fun g => String.eqb (g_name g) (default EmptyString filter_display_name))
             all_db_groups
      else all_db_groups in
    let total_results := Z.of_nat (length group_models) in
    let start_index_0_based := startIndex - 1 in
    let end_index_0_based := start_index_0_based + count in
    let paginated_group_models :=
      Py.slice group_models start_index_0_based end_index_0_based in
    scim_group_resources ←
      for_each (fun acc group_model =>
                  member_user_models ← Users.get_users_by_user_ids (g_user_ids group_model);
                  mret (acc ++ [RGroup (group_to_scim_group group_model member_user_models
                                          base_scim_url)]))
               paginated_group_models [];
    mret (mkList [LIST_RESPONSE_URN]
                 total_results
                 startIndex
                 (Z.of_nat (length scim_group_resources))
                 (List.filter is_SCIMGroup scim_group_resources)).

(** The loop state of [patch_group]. *)
Record PatchState := mkPS {
  db_updates : gmap string dbval;
  current_user_ids : gset string;
  members_changed : bool
}.

(** [current_user_ids.add(member_obj["value"])] for one element of the
    value list. Stored member ids are strings ([user_ids] of the group
    record), and the id set holds strings. A [value] that is a list or
    an object is unhashable: [set.add] raises a [TypeError] that nothing
    catches. A [value] that is null, a boolean or a number is hashable:
    the source adds it, goes on to the write and fails afterwards, when
    the member is built from it; that run is not followed, it is cut
    here at the same uncaught failure. What is stated about the store
    after a failed request is stated for SCIM errors only. *)
Definition add_member (bad : SCIMException) (ids : gset string) (member_obj : Py.value)
  : Handler (gset string) :=
  match member_obj with
  | Py.VDict d =>
      match Py.dict_get "value" d with
      | Some (Py.VStr uid) => mret ({[uid]} ∪ ids)
      | Some _ => raise UncaughtTypeError
      | None => raise bad
      end
  | _ => raise bad
  end.

(** [for member_obj in op.value]. *)
Definition add_members (bad : SCIMException) (v : Py.value) (ids : gset string)
  : Handler (gset string) :=
  match Py.iterate v with
  | Some l => for_each (add_member bad) l ids
  | None => raise UncaughtTypeError
  end.

(** The second piece of [op.path] split at the double quotes, [None]
    on [IndexError]. *)
Definition quoted_id (p : string) : option string := nth_error (Py.split Py.dquote p) 1.

(** One turn of the loop of [patch_group]. *)
Definition patch_group_op (group_id : string) (group_model : GroupModel)
    (s : PatchState) (o : SCIMPatchOp) : Handler PatchState :=
  let opl := Py.lower (op o) in
  if String.eqb opl "replace" then
    if path_is "displayname" (path o) then
      let new_name := Py.str (value o) in
      if negb (String.eqb new_name (g_name group_model)) then
        all_groups ← Groups.get_groups;
        if existsb (fun g => (String.eqb (g_name g) new_name
                              && negb (String.eqb (g_id g) group_id))%bool) all_groups
        then raise SCIMConflictError
        else mret (mkPS (<["name"%string := DStr new_name]> (db_updates s))
                        (current_user_ids s) (members_changed s))
      else mret s
    else if path_is "members" (path o) then
      ids ← (if Py.vtruthy (value o)
             then add_members SCIMBadRequestError (value o) ∅
             else mret ∅);
      mret (mkPS (db_updates s) ids true)
    else raise SCIMNotImplementedError
  else if String.eqb opl "add" then
    if path_is "members" (path o) then
      if (negb (Py.vtruthy (value o)) || negb (Py.is_list (value o)))%bool
      then raise SCIMBadRequestError
      else
        ids ← add_members SCIMBadRequestError (value o) (current_user_ids s);
        mret (mkPS (db_updates s) ids true)
    else raise SCIMNotImplementedError
  else if String.eqb opl "remove" then
    match path o with
    | Some p =>
        if (Py.truthy p && Py.startswith "members[value eq" p)%bool then
          match quoted_id p with
          | Some user_id_to_remove =>
              if bool_decide (user_id_to_remove ∈ current_user_ids s)
              then mret (mkPS (db_updates s)
                              (current_user_ids s ∖ {[user_id_to_remove]}) true)
              else mret s
          | None => raise SCIMBadRequestError
          end
        else raise SCIMNotImplementedError
    | None => raise SCIMNotImplementedError
    end
  else raise SCIMNotImplementedError.

Definition patch_group (base_scim_url : string) (patch_request_payload : SCIMPatchRequest)
    (group_id : string) : Handler SCIMGroup :=
  group_model ← Groups.get_group_by_id group_id;
  match group_model with
  | None => raise SCIMNotFoundError
  | Some group_model =>
      s ← for_each (patch_group_op group_id group_model)
                   (Operations patch_request_payload)
                   (mkPS ∅ (list_to_set (g_user_ids group_model)) false);
      let db_updates :=
        if members_changed s
        then <["user_ids"%string := DIds (elements (current_user_ids s))]> (db_updates s)
        else db_updates s in
      _ ← (if nonempty db_updates then
             updated_model ← Groups.update_group_by_id group_id db_updates;
             match updated_model with
             | None => raise SCIMInternalServerError
             | Some _ => mret tt
             end
           else mret tt);
      final_group_model ← Groups.get_group_by_id group_id;
      match final_group_model with
      | None => raise SCIMInternalServerError
      | Some g =>
          member_user_models ← Users.get_users_by_user_ids (g_user_ids g);
          mret (group_to_scim_group g member_user_models base_scim_url)
      end
  end.

End ScimGroups.

(** ** Schema introspection ([routers/scim_schemas.py]) *)

Module ScimSchemas.

Definition SCHEMA_SCHEMA_URN : string := "urn:ietf:params:scim:schemas:core:2.0:Schema".

Inductive SCIMSchemaAttribute := mkAttr {
  attr_name : string;
  attr_type : string;
  multiValued : bool;
  description : option string;
  required : bool;
  caseExact : bool;
  mutability : string;
  returned : string;
  uniqueness : string;
  subAttributes : option (list SCIMSchemaAttribute);
  referenceTypes : option (list string)
}.

Record SCIMSchemaMeta := mkSchemaMeta {
  schema_resourceType : string;
  schema_location : HttpUrl
}.

Record SCIMSchemaDefinition := mkSchema {
  schemas : list string;
  schema_id : string;
  schema_name : string;
  schema_description : option string;
  attributes : list SCIMSchemaAttribute;
  schema_meta : SCIMSchemaMeta
}.

Record SCIMListResponseForSchemas := mkSchemaList {
  schema_list_schemas : list string;
  schema_totalResults : Z;
  schema_startIndex : Z;
  schema_itemsPerPage : Z;
  schema_Resources : list SCIMSchemaDefinition
}.

(** The two Pydantic classes a schema is derived from. *)
Inductive ModelCls := SCIMUserCls | SCIMGroupCls.

(** The two module-level caches, and the log of schema derivations run
    so far (one entry, the schema URN, per run of
    [pydantic_schema_to_scim_schema]). *)
Record Caches := mkCaches {
  _USER_SCIM_SCHEMA_CACHE : option SCIMSchemaDefinition;
  _GROUP_SCIM_SCHEMA_CACHE : option SCIMSchemaDefinition;
  derivations : list string
}.

(** The log agrees with the caches: no schema was derived twice, and a
    schema whose cache is still empty was never derived. *)
Definition consistent (c : Caches) : Prop :=
  NoDup (derivations c)
  /\ (_USER_SCIM_SCHEMA_CACHE c = None -> USER_SCHEMA_URN ∉ derivations c)
  /\ (_GROUP_SCIM_SCHEMA_CACHE c = None -> GROUP_SCHEMA_URN ∉ derivations c).

(** The caches of a process that has served no request yet. *)
Definition at_start : Caches := mkCaches None None [].

Definition schema_location_of (base_scim_url schema_urn : string) : HttpUrl :=
  make_url base_scim_url
    (String.append base_scim_url (String.append "/Schemas/" schema_urn)).

Definition set_location (d : SCIMSchemaDefinition) (l : HttpUrl) : SCIMSchemaDefinition :=
  mkSchema (schemas d) (schema_id d) (schema_name d) (schema_description d) (attributes d)
           (mkSchemaMeta (schema_resourceType (schema_meta d)) l).

Section Derivation.

(** [convert_properties_to_scim_attributes] applied to the JSON schema
    Pydantic generates for a model class ([model_json_schema], a library
    call): the attribute list depends on the class alone. *)
Variable scim_attributes_of : ModelCls -> list SCIMSchemaAttribute.

Definition pydantic_schema_to_scim_schema (pydantic_model_cls : ModelCls)
    (schema_urn name description base_scim_url : string) : SCIMSchemaDefinition :=
  mkSchema [SCHEMA_SCHEMA_URN] schema_urn name (Some description)
           (scim_attributes_of pydantic_model_cls)
           (mkSchemaMeta "Schema" (schema_location_of base_scim_url schema_urn)).

Definition get_schema_by_id (base_scim_url schema_id : string) (c : Caches)
  : Caches * (SCIMException + SCIMSchemaDefinition) :=
  if String.eqb schema_id USER_SCHEMA_URN then
    let '(cached, log) :=
      match _USER_SCIM_SCHEMA_CACHE c with
      | None =>
          (pydantic_schema_to_scim_schema SCIMUserCls USER_SCHEMA_URN "User"
             "SCIM User Schema" base_scim_url,
           derivations c ++ [USER_SCHEMA_URN])
      | Some d => (d, derivations c)
      end in
    let cached := set_location cached (schema_location_of base_scim_url USER_SCHEMA_URN) in
    (mkCaches (Some cached) (_GROUP_SCIM_SCHEMA_CACHE c) log, inr cached)
  else if String.eqb schema_id GROUP_SCHEMA_URN then
    let '(cached, log) :=
      match _GROUP_SCIM_SCHEMA_CACHE c with
      | None =>
          (pydantic_schema_to_scim_schema SCIMGroupCls GROUP_SCHEMA_URN "Group"
             "SCIM Group Schema" base_scim_url,
           derivations c ++ [GROUP_SCHEMA_URN])
      | Some d => (d, derivations c)
      end in
    let cached := set_location cached (schema_location_of base_scim_url GROUP_SCHEMA_URN) in
    (mkCaches (_USER_SCIM_SCHEMA_CACHE c) (Some cached) log, inr cached)
  else (c, inl SCIMNotFoundError).

Definition get_schemas (base_scim_url : string) (c : Caches)
  : Caches * (SCIMException + SCIMListResponseForSchemas) :=
  let '(user_schema, log) :=
    match _USER_SCIM_SCHEMA_CACHE c with
    | None =>
        (pydantic_schema_to_scim_schema SCIMUserCls USER_SCHEMA_URN "User"
           "SCIM User Schema" base_scim_url,
         derivations c ++ [USER_SCHEMA_URN])
    | Some d => (d, derivations c)
    end in
  let user_schema :=
    set_location user_schema (schema_location_of base_scim_url USER_SCHEMA_URN) in
  let '(group_schema, log) :=
    match _GROUP_SCIM_SCHEMA_CACHE c with
    | None =>
        (pydantic_schema_to_scim_schema SCIMGroupCls GROUP_SCHEMA_URN "Group"
           "SCIM Group Schema" base_scim_url,
         log ++ [GROUP_SCHEMA_URN])
    | Some d => (d, log)
    end in
  let group_schema :=
    set_location group_schema (schema_location_of base_scim_url GROUP_SCHEMA_URN) in
  let resources := [user_schema; group_schema] in
  (mkCaches (Some user_schema) (Some group_schema) log,
   inr (mkSchemaList [LIST_RESPONSE_URN]
          (Z.of_nat (length resources)) 1 (Z.of_nat (length resources)) resources)).

(** A request on the schema router: the list endpoint or a lookup by id,
    each with the base URL of its caller. *)
Inductive Request :=
| ListSchemas (base_scim_url : string)
| SchemaById (base_scim_url schema_id : string).

(** The caches after a request. *)
Definition after (r : Request) (c : Caches) : Caches :=
  match r with
  | ListSchemas b => fst (get_schemas b c)
  | SchemaById b id => fst (get_schema_by_id b id c)
  end.

(** The caches after a sequence of requests, oldest first. *)
Definition after_all (rs : list Request) (c : Caches) : Caches :=
  fold_left (fun c r => after r c) rs c.

(** A sequence of [GET /Schemas/{schema_id}] requests for one id, one
    per base URL, in order; the answers are collected. *)
Fixpoint serve (schema_id : string) (base_urls : list string) (c : Caches)
  : Caches * list (SCIMException + SCIMSchemaDefinition) :=
  match base_urls with
  | [] => (c, [])
  | b :: rest =>
      let '(c1, r) := get_schema_by_id b schema_id c in
      let '(c2, rs) := serve schema_id rest c1 in
      (c2, r :: rs)
  end.

End Derivation.

End ScimSchemas.

(** ** Sample records

    The mock users and groups of [test_scim_users_router.py] and
    [test_scim_groups_router.py], with fixed ids in place of the random
    UUIDs the tests draw. *)

Module Fixtures.

Definition base_url : string := "http://testserver/scim/v2".

Definition mock_user1 : UserModel :=
  mkUser "user-1" "user1@example.com" "User One" "user"
         (TsNumber 1670000000) (TsNumber 1670000000).

Definition mock_user2 : UserModel :=
  mkUser "user-2" "user2@example.com" "User Two" "pending"
         (TsNumber 1670000000) (TsNumber 1670000000).

Definition mock_admin_user : UserModel :=
  mkUser "admin-1" "admin@example.com" "Admin User" "admin"
         (TsNumber 1670000000) (TsNumber 1670000000).

Definition mock_group1 : GroupModel :=
  mkGroup "group-1" "Group One" ["user-1"%string]
          (TsNumber 1670000000) (TsNumber 1670000000).

Definition mock_group2 : GroupModel :=
  mkGroup "group-2" "Group Two" ["user-1"%string; "user-2"%string]
          (TsNumber 1670000000) (TsNumber 1670000000).

Definition store0 : Store :=
  mkStore [mock_user1; mock_user2; mock_admin_user] [mock_group1; mock_group2] 1670000100 [].

(** A user and a group that were never modified: [updated_at] is
    [None], [created_at] is set. *)
Definition user_never_modified : UserModel :=
  mkUser "user-3" "user3@example.com" "User Three" "user" (TsNumber 1670000000) TsNone.

Definition group_never_modified : GroupModel :=
  mkGroup "group-3" "Group Three" [] (TsNumber 1670000000) TsNone.

(** A wire user that carries a family name and nothing else to name it. *)
Definition payload_family_only : SCIMUser :=
  mkSCIMUser [USER_SCHEMA_URN] "user-4" None "jsmith@example.com"
             (Some (mkName None (Some "Smith"%string) None))
             None (Some true) None None None
             (mkMeta "User" None None None None).

(** The filter of [test_get_groups_filter_displayname]:
    displayName eq "Group One", the name between double quotes. *)
Definition filter_group_one : string :=
  String.append "displayName eq " (Py.quoted "Group One").

(** [{"op": "replace", "path": "active", "value": true}] as the only
    operation of a PATCH request. *)
Definition patch_activate : SCIMPatchRequest :=
  mkPatch [PATCH_OP_URN] [mkOp "replace" (Some "active"%string) (Py.VBool true)].

(** A PATCH request that renames a group and adds a member to it. *)
Definition patch_rename_and_add : SCIMPatchRequest :=
  mkPatch [PATCH_OP_URN]
    [mkOp "replace" (Some "displayName"%string) (Py.VStr "Engineering");
     mkOp "add" (Some "members"%string)
          (Py.VList [Py.VDict [("value"%string, Py.VStr "user-2")]])].


(** The payload of [test_create_user_conflict]: the user name is the
    e-mail of [mock_user1]. *)
Definition payload_conflict : SCIMUser :=
  mkSCIMUser [USER_SCHEMA_URN] EmptyString None "user1@example.com"
             (Some (mkName (Some "User One"%string) None None))
             None (Some true) None None None
             (mkMeta "User" None None None None).

(** The sample store after PATCH [replace userName] with the empty
    string on [mock_user1], which leaves the user with an empty e-mail. *)
Definition store_blank_email : Store :=
  fst (ScimUsers.patch_user base_url
         (mkPatch [PATCH_OP_URN]
            [mkOp "replace" (Some "userName"%string) (Py.VStr EmptyString)])
         "user-1" store0).

(** A create payload whose user name is the empty string. *)
Definition payload_blank : SCIMUser :=
  mkSCIMUser [USER_SCHEMA_URN] EmptyString None EmptyString None None (Some true) None None None
             (mkMeta "User" None None None None).

(** The store the router tests mock: two users, two groups. *)
Definition store_of_tests : Store :=
  mkStore [mock_user1; mock_user2] [mock_group1; mock_group2] 1670000100 [].

End Fixtures.

(** ** The rest of the resource mapper ([utils/scim_utils.py]) *)

Module ScimUtilsRest.

(** The parts of [request] that [get_scim_base_url] reads:
    [request.url.scheme], [request.url.netloc], [request.app.root_path]. *)
Record HttpRequest := mkRequest {
  url_scheme : string;
  url_netloc : string;
  root_path : string
}.

(** The last character of a string, if any. *)
Fixpoint last_char (s : string) : option ascii :=
  match s with
  | EmptyString => None
  | String c EmptyString => Some c
  | String _ s' => last_char s'
  end.

(** [s.endswith(c)] for a one-character [c]. *)
Definition endswith_char (c : ascii) (s : string) : bool :=
  match last_char s with
  | Some d => Ascii.eqb d c
  | None => false
  end.

Definition get_scim_base_url (request : HttpRequest) : string :=
  let base_path :=
    if endswith_char "/" (root_path request) then root_path request
    else String.append (root_path request) "/" in
  String.append (url_scheme request)
    (String.append "://"
       (String.append (url_netloc request) (String.append base_path "scim/v2"))).

Definition scim_group_to_db_dict (scim_group : SCIMGroup) : gmap string dbval :=
  let db_dict : gmap string dbval :=
    <["description"%string := DStr EmptyString]>
      (<["user_ids"%string :=
           DIds match members scim_group with
                | Some (m :: ms) => map member_value (m :: ms)
                | _ => []
                end]>
         (<["name"%string := DStr (displayName scim_group)]> ∅)) in
  let db_dict :=
    if Py.truthy (group_id scim_group)
    then <["id"%string := DStr (group_id scim_group)]> db_dict else db_dict in
  if Py.otruthy (group_externalId scim_group)
  then <["external_id"%string := DStr (default EmptyString (group_externalId scim_group))]>
         db_dict
  else db_dict.

End ScimUtilsRest.

(** Modelled from the spec: the credential write behind
    [Auths.update_user_password_by_id] ([models/auths.py]). The secret
    is no part of the user record, so the users and groups are as
    before (the write is not entered in [calls] either); the answer
    tells whether the user exists. *)
Module Credentials.

Definition update_user_password_by_id (id : string) : Handler bool :=
  fun st => (st, inr (existsb (fun u => String.eqb (u_id u) id) (users st))).

End Credentials.

(** ** The rest of the User endpoints ([routers/scim_users.py]) *)

Module ScimUsersRest.

Definition get_user_by_id (base_scim_url user_id : string)
    (attributes excludedAttributes : option string) : Handler SCIMUser :=
  if (Py.otruthy attributes || Py.otruthy excludedAttributes)%bool
  then raise SCIMNotImplementedError
  else
    user_model ← Users.get_user_by_id user_id;
    match user_model with
    | None => raise SCIMNotFoundError
    | Some m => mret (user_to_scim_user m base_scim_url)
    end.

Definition replace_user (base_scim_url : string) (scim_user_payload : SCIMUser)
    (user_id : string) : Handler SCIMUser :=
  if (Py.truthy (Model.user_id scim_user_payload)
      && negb (String.eqb (Model.user_id scim_user_payload) user_id))%bool
  then raise SCIMBadRequestError
  else
    user_model ← Users.get_user_by_id user_id;
    match user_model with
    | None => raise SCIMNotFoundError
    | Some user_model =>
        _ ← (if negb (String.eqb (userName scim_user_payload) (u_email user_model)) then
               existing ← Users.get_user_by_email (userName scim_user_payload);
               match existing with
               | Some e =>
                   if negb (String.eqb (u_id e) user_id) then raise SCIMConflictError
                   else mret tt
               | None => mret tt
               end
             else mret tt);
        let update_data_db := delete "id"%string (scim_user_to_db_dict scim_user_payload) in
        updated_user ← Users.update_user_by_id user_id update_data_db;
        updated_user ←
          match updated_user with
          | Some u => mret u
          | None =>
              refetched ← Users.get_user_by_id user_id;
              match refetched with
              | Some u => mret u
              | None => raise SCIMInternalServerError
              end
          end;
        _ ← (if Py.otruthy (password scim_user_payload) then
               _ ← Credentials.update_user_password_by_id user_id;
               mret tt
             else mret tt);
        mret (user_to_scim_user updated_user base_scim_url)
    end.

End ScimUsersRest.

(** ** The rest of the Group endpoints ([routers/scim_groups.py]) *)

Module ScimGroupsRest.

Definition get_group_by_id (base_scim_url group_id : string)
    (attributes excludedAttributes : option string) : Handler SCIMGroup :=
  if (Py.otruthy attributes || Py.otruthy excludedAttributes)%bool
  then raise SCIMNotImplementedError
  else
    group_model ← Groups.get_group_by_id group_id;
    match group_model with
    | None => raise SCIMNotFoundError
    | Some g =>
        member_user_models ← Users.get_users_by_user_ids (g_user_ids g);
        mret (group_to_scim_group g member_user_models base_scim_url)
    end.

Definition replace_group (base_scim_url : string) (scim_group_payload : SCIMGroup)
    (group_id : string) : Handler SCIMGroup :=
  if (Py.truthy (Model.group_id scim_group_payload)
      && negb (String.eqb (Model.group_id scim_group_payload) group_id))%bool
  then raise SCIMBadRequestError
  else
    target_group ← Groups.get_group_by_id group_id;
    match target_group with
    | None => raise SCIMNotFoundError
    | Some target_group =>
        _ ← (if negb (String.eqb (displayName scim_group_payload) (g_name target_group)) then
               all_groups ← Groups.get_groups;
               if existsb (fun g => (String.eqb (g_name g) (displayName scim_group_payload)
                                     && negb (String.eqb (g_id g) group_id))%bool) all_groups
               then raise SCIMConflictError
               else mret tt
             else mret tt);
        let update_data_db :=
          delete "id"%string (ScimUtilsRest.scim_group_to_db_dict scim_group_payload) in
        updated_group ← Groups.update_group_by_id group_id update_data_db;
        updated_group ←
          match updated_group with
          | Some g => mret g
          | None =>
              refetched ← Groups.get_group_by_id group_id;
              match refetched with
              | Some g => mret g
              | None => raise SCIMInternalServerError
              end
          end;
        member_user_models ← Users.get_users_by_user_ids (g_user_ids updated_group);
        mret (group_to_scim_group updated_group member_user_models base_scim_url)
    end.

Section CreateGroup.

(** [Groups.insert_new_group(user_id=..., form_data=GroupForm(name,
    description))] of [models/groups.py], which draws the id of the new
    group: whatever the store does on this call. *)
Variable insert_new_group : string -> string -> string -> Handler (option GroupModel).

(** [POST /Groups]; the answer is the body and the [Location] header. *)
Definition create_group (base_scim_url : string) (scim_group_payload : SCIMGroup)
  : Handler (SCIMGroup * string) :=
  if negb (Py.truthy (displayName scim_group_payload)) then raise SCIMBadRequestError
  else
    all_groups ← Groups.get_groups;
    if existsb (fun g => String.eqb (g_name g) (displayName scim_group_payload)) all_groups
    then raise SCIMConflictError
    else
      let group_data_for_db := ScimUtilsRest.scim_group_to_db_dict scim_group_payload in
      admin_users ← Users.get_users (Some "admin"%string);
      match admin_users with
      | [] => raise SCIMInternalServerError
      | owner :: _ =>
          new_group_model ←
            rethrow
              (created ← insert_new_group (u_id owner)
                            (match group_data_for_db !! "name"%string with
                             | Some (DStr n) => n
                             | _ => EmptyString
                             end)
                            (match group_data_for_db !! "description"%string with
                             | Some (DStr d) => d
                             | _ => EmptyString
                             end);
               match created with
               | None => raise SCIMInternalServerError
               | Some new_group_model =>
                   match group_data_for_db !! "user_ids"%string with
                   | Some (DIds (i :: ids)) =>
                       updated_group ←
                         Groups.update_group_by_id (g_id new_group_model)
                           {["user_ids"%string := DIds (i :: ids)]};
                       match updated_group with
                       | Some g => mret g
                       | None => mret new_group_model
                       end
                   | _ => mret new_group_model
                   end
               end)
              SCIMInternalServerError;
          member_user_models ← Users.get_users_by_user_ids (g_user_ids new_group_model);
          let final_scim_group :=
            group_to_scim_group new_group_model member_user_models base_scim_url in
          let location_url :=
            String.append base_scim_url
              (String.append "/Groups/" (g_id new_group_model)) in
          content ← model_dump final_scim_group;
          mret (content, location_url)
      end.

End CreateGroup.

End ScimGroupsRest.

(** ** Bearer-token check ([utils/scim_auth.py], and the earlier one in
    [routers/scim.py]) *)

Module ScimAuth.

(** [s.partition(sep)] for a one-character separator: the text before
    the first separator, the separator (empty when there is none), and
    the text after it. *)
Fixpoint partition (sep : ascii) (s : string) : string * string * string :=
  match s with
  | EmptyString => (EmptyString, EmptyString, EmptyString)
  | String c s' =>
      if Ascii.eqb c sep then (EmptyString, String sep EmptyString, s')
      else
        let '(before, found, after) := partition sep s' in
        (String c before, found, after)
  end.

(** The two configuration entries the check reads: the truth value of
    [ENABLE_SCIM.value] and [SCIM_TOKEN.value], which may hold anything. *)
Record Config := mkConfig {
  ENABLE_SCIM : bool;
  SCIM_TOKEN : Py.value
}.

(** [verify_scim_request]; [authorization] is
    [request.headers.get("Authorization")]. The answer is [True] or the
    status code of the [HTTPException] raised. *)
Definition verify_scim_request (cfg : Config) (authorization : option string) : Z + bool :=
  if negb (ENABLE_SCIM cfg) then inl 403
  else
    match authorization with
    | None => inl 401
    | Some auth_header =>
        if negb (Py.truthy auth_header) then inl 401
        else
          let '(scheme, _, credentials) := partition " " auth_header in
          if (negb (String.eqb (Py.lower scheme) "bearer") || negb (Py.truthy credentials))%bool
          then inl 401
          else
            match SCIM_TOKEN cfg with
            | Py.VStr scim_token_from_config =>
                if negb (Py.truthy scim_token_from_config) then inl 500
                else if String.eqb scim_token_from_config credentials then inr true
                else inl 401
            | _ => inl 500
            end
    end.

(** [verify_scim_token] of [routers/scim.py]: a token that is not a
    string is compared through [str(...)]. *)
Definition verify_scim_token (cfg : Config) (authorization : option string) : Z + bool :=
  if negb (ENABLE_SCIM cfg) then inl 403
  else
    match authorization with
    | None => inl 401
    | Some auth_header =>
        if negb (Py.truthy auth_header) then inl 401
        else
          let '(scheme, _, credentials) := partition " " auth_header in
          if (negb (String.eqb (Py.lower scheme) "bearer") || negb (Py.truthy credentials))%bool
          then inl 401
          else
            let scim_token_str := Py.str (SCIM_TOKEN cfg) in
            if String.eqb scim_token_str credentials then inr true else inl 401
    end.

End ScimAuth.

(** ** Resource types ([routers/scim_resource_types.py]) *)

Module ScimResourceTypes.

Definition RESOURCE_TYPE_SCHEMA_URN : string :=
  "urn:ietf:params:scim:schemas:core:2.0:ResourceType".

Record SCIMResourceTypeMeta := mkTypeMeta {
  type_resourceType : string;
  type_location : HttpUrl
}.

Record SCIMResourceType := mkType {
  type_schemas : list string;
  type_id : string;
  type_name : string;
  type_description : option string;
  endpoint : string;
  schema_str : string;
  schemaExtensions : option (list (string * bool));
  type_meta : SCIMResourceTypeMeta
}.

Record SCIMListResponseForResourceTypes := mkTypeList {
  types_schemas : list string;
  types_totalResults : Z;
  types_startIndex : Z;
  types_itemsPerPage : Z;
  types_Resources : list SCIMResourceType
}.

Definition _get_user_resource_type (base_scim_url : string) : SCIMResourceType :=
  mkType [RESOURCE_TYPE_SCHEMA_URN] "User" "User" (Some "User Account"%string) "/Users"
         USER_SCHEMA_URN None
         (mkTypeMeta "ResourceType"
            (make_url base_scim_url (String.append base_scim_url "/ResourceTypes/User"))).

Definition _get_group_resource_type (base_scim_url : string) : SCIMResourceType :=
  mkType [RESOURCE_TYPE_SCHEMA_URN] "Group" "Group" (Some "Group"%string) "/Groups"
         GROUP_SCHEMA_URN None
         (mkTypeMeta "ResourceType"
            (make_url base_scim_url (String.append base_scim_url "/ResourceTypes/Group"))).

Definition get_resource_types (base_scim_url : string) : SCIMListResponseForResourceTypes :=
  let resources :=
    [_get_user_resource_type base_scim_url; _get_group_resource_type base_scim_url] in
  mkTypeList [LIST_RESPONSE_URN] (Z.of_nat (length resources)) 1
             (Z.of_nat (length resources)) resources.

Definition get_resource_type_by_name (base_scim_url type_name : string)
  : SCIMException + SCIMResourceType :=
  if String.eqb (Py.lower type_name) "user" then inr (_get_user_resource_type base_scim_url)
  else if String.eqb (Py.lower type_name) "group"
  then inr (_get_group_resource_type base_scim_url)
  else inl SCIMNotFoundError.

End ScimResourceTypes.

(** ** The earlier wire-to-record mapping ([models/scim.py]) *)

Module LegacyModels.

(** [SCIMUser] of [models/scim.py], as far as [from_scim_user] reads
    it: there the name block and the active flag are required. *)
Record SCIMUser := mkLegacyUser {
  id : string;
  userName : string;
  name : SCIMName;
  active : bool
}.

Definition from_scim_user (scim_user : SCIMUser) : gmap string Py.value :=
  let user_data : gmap string Py.value :=
    <["role"%string := Py.VStr (if active scim_user then "user" else "pending")]>
      (<["name"%string := match formatted (name scim_user) with
                          | Some f => Py.VStr f
                          | None => Py.VNone
                          end]>
         (<["email"%string := Py.VStr (userName scim_user)]> ∅)) in
  let user_data :=
    if Py.truthy (id scim_user) then <["id"%string := Py.VStr (id scim_user)]> user_data
    else user_data in
  if negb (Py.otruthy (formatted (name scim_user))) then
    if (Py.otruthy (givenName (name scim_user)) && Py.otruthy (familyName (name scim_user)))%bool
    then <["name"%string :=
             Py.VStr (String.append (default EmptyString (givenName (name scim_user)))
                        (String.append " "
                           (default EmptyString (familyName (name scim_user)))))]> user_data
    else if Py.otruthy (givenName (name scim_user))
    then <["name"%string := Py.VStr (default EmptyString (givenName (name scim_user)))]>
           user_data
    else if Py.otruthy (familyName (name scim_user))
    then <["name"%string := Py.VStr (default EmptyString (familyName (name scim_user)))]>
           user_data
    else user_data
  else user_data.

End LegacyModels.

(** ** The earlier PATCH on a user ([routers/scim.py]) *)

Module LegacyRouter.

(** The role [patch_user] of [routers/scim.py] computes for
    [replace active] with a boolean value: [new_role] starts as the
    current role, becomes "pending" on [False] when the role is not
    "pending", and "user" on [True] when the role is "pending". *)
Definition new_role (current_role : string) (new_active_status : bool) : string :=
  if (negb new_active_status && negb (String.eqb current_role "pending"))%bool
  then "pending"%string
  else if (new_active_status && String.eqb current_role "pending")%bool
  then "user"%string
  else current_role.

End LegacyRouter.

(** ** Vocabulary of the statements *)

Module Text.

(** [s] holds no occurrence of the character [sep]. *)
Definition free_of (sep : ascii) (s : string) : Prop :=
  forall c, In c (list_ascii_of_string s) -> c <> sep.

(** The two roles the wire form can tell apart. *)
Definition wire_role (role : string) : string :=
  if String.eqb role "pending" then "pending"%string else "user"%string.

(** A JSON member object that carries the user id [uid] under [value]. *)
Definition member_object (o : Py.value) (uid : string) : Prop :=
  exists d, o = Py.VDict d /\ Py.dict_get "value" d = Some (Py.VStr uid).

(** The JSON values that [Py.str] prints as Python's [str] does: a
    string (itself), null, a boolean, an integer. Lists and objects are
    left out: the quoting and escaping of the strings inside them is not
    followed, nor are numbers with a fraction. *)
Definition printed_plainly (v : Py.value) : Prop :=
  match v with
  | Py.VStr _ | Py.VNone | Py.VBool _ | Py.VInt _ => True
  | Py.VList _ | Py.VDict _ => False
  end.

(** A payload of the earlier model class as the current model class
    reads it: same id, userName, name block and active flag, and none
    of the fields the earlier class does not have. *)
Definition as_current (u : LegacyModels.SCIMUser) : Model.SCIMUser :=
  mkSCIMUser [USER_SCHEMA_URN] (LegacyModels.id u) None (LegacyModels.userName u)
             (Some (LegacyModels.name u)) None (Some (LegacyModels.active u))
             None None None (mkMeta "User" None None None None).

End Text.

(** ** What a group PATCH stages and what a representation is built from *)

Module Staged.

(** The dictionary [patch_group] hands to the store after its loop:
    the staged updates, with [user_ids] set from the id set when the
    membership changed. *)
Definition staged_fields (s : ScimGroups.PatchState) : gmap string dbval :=
  if ScimGroups.members_changed s
  then <["user_ids"%string := DIds (elements (ScimGroups.current_user_ids s))]>
         (ScimGroups.db_updates s)
  else ScimGroups.db_updates s.

(** [Users.get_users_by_user_ids(group.user_ids)] on a store: the users
    a group representation is built from. *)
Definition members_of (g : GroupModel) (st : Store) : list UserModel :=
  List.filter (fun u => existsb (String.eqb (u_id u)) (g_user_ids g)) (users st).

(** The loop state [patch_group] starts from. *)
Definition start (g : GroupModel) : ScimGroups.PatchState :=
  ScimGroups.mkPS ∅ (list_to_set (g_user_ids g)) false.

End Staged.

(** ** More sample records *)

Module Samples.

Definition request_http : ScimUtilsRest.HttpRequest :=
  ScimUtilsRest.mkRequest "http" "testserver" EmptyString.

Definition request_https : ScimUtilsRest.HttpRequest :=
  ScimUtilsRest.mkRequest "https" "id.example.com" "/api/".

Definition config : ScimAuth.Config :=
  ScimAuth.mkConfig true (Py.VStr "test_scim_token_12345").

Definition config_without_token : ScimAuth.Config :=
  ScimAuth.mkConfig true Py.VNone.

(** The payload of [test_replace_user_success]. *)
Definition payload_put_user : Model.SCIMUser :=
  mkSCIMUser [USER_SCHEMA_URN] "user-1" None "user1_updated@example.com"
             (Some (mkName (Some "User One Updated"%string) (Some "One Updated"%string)
                           (Some "User"%string)))
             None (Some true) None
             (Some [mkEmail (Some "user1_updated@example.com"%string) None (Some true)])
             None (mkMeta "User" None None None None).

(** The payload of [test_replace_group_success]. *)
Definition payload_put_group : Model.SCIMGroup :=
  mkSCIMGroup [GROUP_SCHEMA_URN] "group-1" None "Group One Updated"
              (Some [mkMember "user-2" None None None])
              (mkMeta "Group" None None None None).

(** The payload of [test_create_group_conflict]. *)
Definition payload_group_conflict : Model.SCIMGroup :=
  mkSCIMGroup [GROUP_SCHEMA_URN] EmptyString None "Group One" None
              (mkMeta "Group" None None None None).

(** A create payload for a user not yet in the sample store. *)
Definition payload_new_user : Model.SCIMUser :=
  mkSCIMUser [USER_SCHEMA_URN] EmptyString None "newuser@example.com"
             (Some (mkName (Some "New User"%string) (Some "User"%string) (Some "New"%string)))
             None (Some true) None None None (mkMeta "User" None None None None).

(** An attribute derivation for the two model classes, cut down to one
    attribute each. *)
Definition sample_attributes (cls : ScimSchemas.ModelCls)
  : list ScimSchemas.SCIMSchemaAttribute :=
  match cls with
  | ScimSchemas.SCIMUserCls =>
      [ScimSchemas.mkAttr "userName" "string" false None true false "readWrite" "default"
         "server" None None]
  | ScimSchemas.SCIMGroupCls =>
      [ScimSchemas.mkAttr "displayName" "string" false None true false "readWrite" "default"
         "none" None None]
  end.

(** An insertion that refuses every group. *)
Definition insert_refused : string -> string -> string -> Handler (option GroupModel) :=
  fun _ _ _ => mret None.

(** A PATCH request that renames the e-mail of a user and activates it. *)
Definition patch_new_mail : SCIMPatchRequest :=
  mkPatch [PATCH_OP_URN]
    [mkOp "replace" (Some "userName"%string) (Py.VStr "one@example.com");
     mkOp "replace" (Some "active"%string) (Py.VBool true)].

End Samples.

(** * Properties *)

(** ** The scenarios of the repository's router tests, replayed *)

(** [test_get_users_list_with_pagination] and
    [test_get_users_filter_username]: the tests expect a list; the
    handler gets as far as building the response and stops on the
    unbound name. *)
Example replay_get_users_pagination :
  snd (ScimUsers.get_users Fixtures.base_url 1 5 None None None None None
         Fixtures.store_of_tests)
  = inl UncaughtNameError
  /\ snd (ScimUsers.get_users Fixtures.base_url 1 100
            (Some (String.append "userName eq " (Py.quoted "user1@example.com")))
            None None None None Fixtures.store_of_tests)
     = inl UncaughtNameError.
Proof. split; reflexivity. Qed.

(** [test_get_users_unsupported_filter]. *)
Example replay_get_users_filter :
  snd (ScimUsers.get_users Fixtures.base_url 1 100
         (Some (String.append "displayName eq " (Py.quoted "Some Name")))
         None None None None Fixtures.store_of_tests)
  = inl SCIMNotImplementedError.
Proof. reflexivity. Qed.

(** [test_patch_user_active_status]: one call, [{"role": "pending"}]. *)
Example replay_patch_user_deactivate :
  let '(st', r) :=
    ScimUsers.patch_user Fixtures.base_url
      (mkPatch [PATCH_OP_URN] [mkOp "replace" (Some "active"%string) (Py.VBool false)])
      "user-1" Fixtures.store_of_tests in
  calls st' = [UpdateUserById "user-1" {["role"%string := "pending"%string]}]
  /\ seen active r = inr (Some false).
Proof. vm_compute. split; reflexivity. Qed.

(** [test_patch_user_unsupported_op]. *)
Example replay_patch_user_add :
  ScimUsers.patch_user Fixtures.base_url
    (mkPatch [PATCH_OP_URN] [mkOp "add" (Some "displayName"%string) (Py.VStr "New Name")])
    "user-1" Fixtures.store_of_tests
  = (Fixtures.store_of_tests, inl SCIMNotImplementedError).
Proof. reflexivity. Qed.

(** [test_patch_group_replace_members]: one call,
    [{"user_ids": [user-2]}]. *)
Example replay_patch_group_replace_members :
  let '(st', r) :=
    ScimGroups.patch_group Fixtures.base_url
      (mkPatch [PATCH_OP_URN]
         [mkOp "replace" (Some "members"%string)
               (Py.VList [Py.VDict [("value"%string, Py.VStr "user-2")]])])
      "group-1" Fixtures.store_of_tests in
  calls st' = [UpdateGroupById "group-1" {["user_ids"%string := DIds ["user-2"%string]]}]
  /\ seen (fun g => map member_value <$> members g) r
     = inr (Some ["user-2"%string]).
Proof. vm_compute. split; reflexivity. Qed.

(** [test_patch_group_add_member] (the example scenario of the
    specification): one call, with both members. *)
Example replay_patch_group_add_member :
  let '(st', r) :=
    ScimGroups.patch_group Fixtures.base_url
      (mkPatch [PATCH_OP_URN]
         [mkOp "add" (Some "members"%string)
               (Py.VList [Py.VDict [("value"%string, Py.VStr "user-2")]])])
      "group-1" Fixtures.store_of_tests in
  exists ids,
    calls st' = [UpdateGroupById "group-1" {["user_ids"%string := DIds ids]}]
    /\ length ids = 2%nat
    /\ In "user-1"%string ids /\ In "user-2"%string ids.
Proof. vm_compute. eexists. split; [reflexivity|]. simpl. auto. Qed.

(** [test_patch_group_remove_member]. *)
Example replay_patch_group_remove_member :
  let '(st', r) :=
    ScimGroups.patch_group Fixtures.base_url
      (mkPatch [PATCH_OP_URN]
         [mkOp "remove"
               (Some (String.append "members[value eq "
                        (String.append (Py.quoted "user-1") "]")))
               Py.VNone])
      "group-2" Fixtures.store_of_tests in
  calls st' = [UpdateGroupById "group-2" {["user_ids"%string := DIds ["user-2"%string]]}]
  /\ seen (fun g => map member_value <$> members g) r
     = inr (Some ["user-2"%string]).
Proof. vm_compute. split; reflexivity. Qed.

(** ** The handler monad *)

Lemma bind_ret_l {A B} (a : A) (k : A -> Handler B) (st : Store) :
  (mret a ≫= k) st = k a st.
Proof. reflexivity. Qed.

Lemma bind_raise {A B} (e : SCIMException) (k : A -> Handler B) (st : Store) :
  (raise e ≫= k) st = (st, inl e).
Proof. reflexivity. Qed.

Lemma bind_run {A B} (m : Handler A) (k : A -> Handler B) (st st' : Store) (a : A) :
  m st = (st', inr a) -> (m ≫= k) st = k a st'.
Proof.
  intros Hm. unfold mbind, handler_bind, Db.bind. rewrite Hm. reflexivity.
Qed.

Lemma bind_fail {A B} (m : Handler A) (k : A -> Handler B) (st st' : Store)
    (e : SCIMException) :
  m st = (st', inl e) -> (m ≫= k) st = (st', inl e).
Proof.
  intros Hm. unfold mbind, handler_bind, Db.bind. rewrite Hm. reflexivity.
Qed.

Lemma for_each_app {A S} (step : S -> A -> Handler S) (l1 l2 : list A) (s : S) (st : Store) :
  for_each step (l1 ++ l2) s st =
  (for_each step l1 s ≫= for_each step l2) st.
Proof.
  revert s st. induction l1 as [|a l1 IH]; intros s st; simpl.
  - reflexivity.
  - unfold mbind, handler_bind, Db.bind.
    destruct (step s a st) as [st1 [e|s1]]; [reflexivity|].
    rewrite IH. reflexivity.
Qed.

(** ** Slices *)

Lemma slice_from_offset {A} (l : list A) (a n : Z) :
  0 <= a -> 0 <= n ->
  Py.slice l a (a + n) = firstn (Z.to_nat n) (skipn (Z.to_nat a) l).
Proof.
  intros Ha Hn. unfold Py.slice, Py.clamp.
  destruct (Z.ltb_spec a 0) as [?|_]; [lia|].
  destruct (Z.ltb_spec (a + n) 0) as [?|_]; [lia|].
  set (len := Z.of_nat (length l)).
  destruct (Z.le_gt_cases len a) as [Hge|Hlt].
  - rewrite !Z.min_r by lia.
    replace (Z.to_nat (len - len)) with 0%nat by lia.
    rewrite !skipn_all2 by (subst len; lia).
    rewrite !firstn_nil. reflexivity.
  - rewrite (Z.min_l a len) by lia.
    destruct (Z.le_gt_cases (a + n) len) as [Hin|Hout].
    + rewrite Z.min_l by lia. f_equal. lia.
    + rewrite Z.min_r by lia.
      rewrite !firstn_all2; [reflexivity | |];
        rewrite length_skipn; subst len; lia.
Qed.

Lemma page_length_le {A} (l : list A) (a n : Z) :
  0 <= n ->
  Z.of_nat (length (firstn (Z.to_nat n) (skipn (Z.to_nat a) l))) <= n.
Proof.
  intros Hn. rewrite length_firstn. lia.
Qed.

Lemma page_past_end {A} (l : list A) (startIndex n : Z) :
  Z.of_nat (length l) < startIndex ->
  firstn (Z.to_nat n) (skipn (Z.to_nat (startIndex - 1)) l) = [].
Proof.
  intros H. rewrite skipn_all2 by lia. apply firstn_nil.
Qed.

Lemma filter_all_true {A} (p : A -> bool) (l : list A) :
  (forall x, In x l -> p x = true) -> List.filter p l = l.
Proof.
  induction l as [|x l IH]; intros H; simpl; [reflexivity|].
  rewrite (H x) by (left; reflexivity).
  f_equal. apply IH. intros y Hy. apply H. right. exact Hy.
Qed.

Lemma filter_map_RUser (f : UserModel -> SCIMUser) (l : list UserModel) :
  List.filter is_SCIMUser (map (fun u => RUser (f u)) l) = map (fun u => RUser (f u)) l.
Proof.
  apply filter_all_true. intros x Hx.
  apply in_map_iff in Hx. destruct Hx as [u [<- _]]. reflexivity.
Qed.

Lemma filter_map_RGroup (f : GroupModel -> SCIMGroup) (l : list GroupModel) :
  List.filter is_SCIMGroup (map (fun g => RGroup (f g)) l) = map (fun g => RGroup (f g)) l.
Proof.
  apply filter_all_true. intros x Hx.
  apply in_map_iff in Hx. destruct Hx as [g [<- _]]. reflexivity.
Qed.

(** ** Listing and pagination *)

Lemma group_resources_loop (base : string) (l : list GroupModel) (acc : list Resource)
    (st : Store) :
  for_each (fun acc group_model =>
              member_user_models ← Users.get_users_by_user_ids (g_user_ids group_model);
              mret (acc ++ [RGroup (group_to_scim_group group_model member_user_models base)]))
           l acc st
  = (st, inr (acc ++ map (fun g =>
                            RGroup (group_to_scim_group g
                                      (List.filter
                                         (fun u => existsb (String.eqb (u_id u)) (g_user_ids g))
                                         (users st))
                                      base)) l)).
Proof.
  revert acc. induction l as [|g l IH]; intros acc; simpl.
  - rewrite app_nil_r. reflexivity.
  - unfold mbind, handler_bind, Db.bind, Users.get_users_by_user_ids. simpl.
    unfold mret, handler_ret, Db.ret.
    specialize (IH (acc ++ [RGroup (group_to_scim_group g
                     (List.filter (fun u => existsb (String.eqb (u_id u)) (g_user_ids g))
                                  (users st)) base)])).
    unfold mbind, handler_bind, Db.bind, Users.get_users_by_user_ids,
      mret, handler_ret, Db.ret in IH.
    rewrite IH. rewrite <- app_assoc. reflexivity.
Qed.

Lemma no_sort_no_projection (sortBy sortOrder attributes excludedAttributes : option string) :
  (Py.otruthy sortBy || Py.otruthy sortOrder
   || Py.otruthy attributes || Py.otruthy excludedAttributes)%bool = false ->
  (Py.otruthy sortBy || Py.otruthy sortOrder)%bool = false
  /\ (Py.otruthy attributes || Py.otruthy excludedAttributes)%bool = false.
Proof.
  destruct (Py.otruthy sortBy), (Py.otruthy sortOrder), (Py.otruthy attributes),
    (Py.otruthy excludedAttributes); simpl; intros H; try discriminate; auto.
Qed.

(** A user listing that passes the parameter checks and the filter
    parser reads the users, cuts the page, maps it and then stops on the
    unbound name. *)
Lemma get_users_run (st : Store) (base : string) (startIndex count : Z)
    (filter fv sortBy sortOrder attributes excludedAttributes : option string) :
  (Py.otruthy sortBy || Py.otruthy sortOrder
   || Py.otruthy attributes || Py.otruthy excludedAttributes)%bool = false ->
  parse_filter "username" filter = inr fv ->
  ScimUsers.get_users base startIndex count filter sortBy sortOrder attributes
    excludedAttributes st
  = (st, inl UncaughtNameError).
Proof.
  intros Hplain Hp.
  destruct (no_sort_no_projection _ _ _ _ Hplain) as [Hsort Hproj].
  unfold ScimUsers.get_users. rewrite Hsort, Hproj.
  rewrite Hp. reflexivity.
Qed.

(** A user listing never answers with a list. *)
Lemma get_users_never_lists (st st' : Store) (base : string) (startIndex count : Z)
    (filter sortBy sortOrder attributes excludedAttributes : option string)
    (resp : SCIMListResponse) :
  ScimUsers.get_users base startIndex count filter sortBy sortOrder attributes
    excludedAttributes st
  <> (st', inr resp).
Proof.
  unfold ScimUsers.get_users.
  destruct (Py.otruthy sortBy || Py.otruthy sortOrder)%bool; [discriminate|].
  destruct (Py.otruthy attributes || Py.otruthy excludedAttributes)%bool; [discriminate|].
  destruct (parse_filter "username" filter) as [e|fv]; discriminate.
Qed.

Lemma get_groups_run (st : Store) (base : string) (startIndex count : Z)
    (filter fv sortBy sortOrder attributes excludedAttributes : option string) :
  1 <= startIndex -> 0 <= count ->
  (Py.otruthy sortBy || Py.otruthy sortOrder
   || Py.otruthy attributes || Py.otruthy excludedAttributes)%bool = false ->
  parse_filter "displayname" filter = inr fv ->
  let filtered :=
    if Py.otruthy fv
    then List.filter (fun g => String.eqb (g_name g) (default EmptyString fv)) (groups st)
    else groups st in
  let pg := firstn (Z.to_nat count) (skipn (Z.to_nat (startIndex - 1)) filtered) in
  ScimGroups.get_groups base startIndex count filter sortBy sortOrder attributes
    excludedAttributes st
  = (st, inr (mkList [LIST_RESPONSE_URN] (Z.of_nat (length filtered)) startIndex
                     (Z.of_nat (length pg))
                     (map (fun g =>
                             RGroup (group_to_scim_group g
                                       (List.filter
                                          (fun u => existsb (String.eqb (u_id u)) (g_user_ids g))
                                          (users st))
                                       base)) pg))).
Proof.
  intros Hs Hc Hplain Hp filtered pg.
  destruct (no_sort_no_projection _ _ _ _ Hplain) as [Hsort Hproj].
  unfold ScimGroups.get_groups. rewrite Hsort, Hproj. rewrite Hp.
  cbn [lift]. rewrite bind_ret_l.
  rewrite (bind_run _ _ st st (groups st)) by reflexivity.
  fold filtered.
  replace (startIndex - 1 + count) with ((startIndex - 1) + count) by lia.
  rewrite slice_from_offset by lia.
  fold pg.
  rewrite (bind_run _ _ _ _ _ (group_resources_loop base pg [] st)).
  cbn [app]. unfold mret, handler_ret, Db.ret.
  rewrite filter_map_RGroup, length_map. reflexivity.
Qed.

(** C6. A listing of Users never returns a page: for every request
    with [startIndex >= 1] and [count >= 0] that asks for no sorting and
    no attribute projection and whose filter is accepted, [get_users]
    reads the users and then fails with an uncaught [NameError] (500
    without a SCIM type), the store untouched; and no request at all
    makes it answer with a list. The listing of Groups does what the
    claim says: with no filter, or with an accepted filter whose value
    is not empty, the handler answers (without touching the store) a
    list response whose [Resources] are the mapped records of the slice
    of the filtered sequence that starts at 0-based offset
    [startIndex - 1] and has at most [count] elements; [totalResults] is
    the length of the filtered sequence; [itemsPerPage] is the number of
    resources returned and never exceeds [count]; and a [startIndex]
    past the end of the filtered sequence yields an empty [Resources]
    list with [itemsPerPage = 0] and [totalResults] unchanged, not an
    error. *)
Theorem C6_users_listing_raises_name_error (st : Store) (base : string)
    (startIndex count : Z)
    (user_filter group_filter email_sought name_sought : option string)
    (sortBy sortOrder attributes excludedAttributes : option string) :
  1 <= startIndex -> 0 <= count ->
  (Py.otruthy sortBy || Py.otruthy sortOrder
   || Py.otruthy attributes || Py.otruthy excludedAttributes)%bool = false ->
  parse_filter "username" user_filter = inr email_sought ->
  parse_filter "displayname" group_filter = inr name_sought ->
  name_sought <> Some EmptyString ->
  (ScimUsers.get_users base startIndex count user_filter sortBy sortOrder attributes
     excludedAttributes st
   = (st, inl UncaughtNameError)
   /\ status_code UncaughtNameError = 500
   /\ uncaught UncaughtNameError = true
   /\ forall startIndex' count' filter' sortBy' sortOrder' attributes' excludedAttributes'
             st0 st1 resp,
        ScimUsers.get_users base startIndex' count' filter' sortBy' sortOrder' attributes'
          excludedAttributes' st0
        <> (st1, inr resp))
  /\
  (let filtered :=
     match name_sought with
     | Some v => List.filter (fun g => String.eqb (g_name g) v) (groups st)
     | None => groups st
     end in
   let pg := firstn (Z.to_nat count) (skipn (Z.to_nat (startIndex - 1)) filtered) in
   exists resp,
     ScimGroups.get_groups base startIndex count group_filter sortBy sortOrder attributes
       excludedAttributes st
     = (st, inr resp)
     /\ Resources resp
        = map (fun g =>
                 RGroup (group_to_scim_group g
                           (List.filter
                              (fun u => existsb (String.eqb (u_id u)) (g_user_ids g))
                              (users st))
                           base)) pg
     /\ totalResults resp = Z.of_nat (length filtered)
     /\ itemsPerPage resp = Z.of_nat (length (Resources resp))
     /\ itemsPerPage resp <= count
     /\ (Z.of_nat (length filtered) < startIndex ->
         Resources resp = [] /\ itemsPerPage resp = 0)).
Proof.
  intros Hs Hc Hplain Hu Hg Hblank. split.
  - split; [apply (get_users_run st base startIndex count _ _ _ _ _ _ Hplain Hu)|].
    split; [reflexivity|]. split; [reflexivity|].
    intros. apply get_users_never_lists.
  - intros filtered pg.
    assert (Hsame : filtered
                    = if Py.otruthy name_sought
                      then List.filter
                             (fun g => String.eqb (g_name g) (default EmptyString name_sought))
                             (groups st)
                      else groups st).
    { subst filtered. destruct name_sought as [[|c v]|]; [congruence | reflexivity | reflexivity]. }
    eexists. split; [apply (get_groups_run st base startIndex count _ _ _ _ _ _ Hs Hc Hplain Hg)|].
    cbn [Resources totalResults itemsPerPage]. rewrite <- Hsame. fold pg.
    rewrite !length_map.
    repeat split; try reflexivity.
    + apply page_length_le; exact Hc.
    + unfold pg. rewrite page_past_end by assumption. reflexivity.
    + unfold pg. rewrite page_past_end by assumption. reflexivity.
Qed.

Lemma C6_users_listing_raises_name_error_witness :
  1 <= 2 /\ 0 <= 1
  /\ (Py.otruthy None || Py.otruthy None || Py.otruthy None || Py.otruthy None)%bool = false
  /\ parse_filter "username" None = inr None
  /\ parse_filter "displayname" None = inr None
  /\ ScimUsers.get_users Fixtures.base_url 2 1 None None None None None Fixtures.store0
     = (Fixtures.store0, inl UncaughtNameError)
  /\ (exists resp,
        ScimGroups.get_groups Fixtures.base_url 2 1 None None None None None Fixtures.store0
        = (Fixtures.store0, inr resp)
        /\ Resources resp
           = [RGroup (group_to_scim_group Fixtures.mock_group2
                        [Fixtures.mock_user1; Fixtures.mock_user2] Fixtures.base_url)]
        /\ totalResults resp = 2
        /\ itemsPerPage resp = 1).
Proof.
  split; [lia|]. split; [lia|]. split; [reflexivity|].
  split; [reflexivity|]. split; [reflexivity|].
  destruct (C6_users_listing_raises_name_error Fixtures.store0 Fixtures.base_url 2 1 None
              None None None None None None None
              ltac:(lia) ltac:(lia) eq_refl eq_refl eq_refl ltac:(discriminate))
    as [[Husers _] [resp [Hrun [Hres [Htot [Hipp _]]]]]].
  split; [exact Husers|].
  exists resp. split; [exact Hrun|]. split; [exact Hres|]. split; [exact Htot|].
  rewrite Hipp, Hres. reflexivity.
Defined.

(** ** Timestamps on the wire *)

Lemma convert_last_modified_none (created_dt : option datetime) :
  convert_last_modified TsNone created_dt = None.
Proof. reflexivity. Qed.

Lemma user_last_modified_absent (u : UserModel) (base : string) :
  u_updated_at u = TsNone ->
  lastModified (user_meta (user_to_scim_user u base)) = None.
Proof.
  intros H. unfold user_to_scim_user. cbn [user_meta lastModified].
  rewrite H. reflexivity.
Qed.

Lemma group_last_modified_absent (g : GroupModel) (members_users : list UserModel)
    (base : string) :
  g_updated_at g = TsNone ->
  lastModified (group_meta (group_to_scim_group g members_users base)) = None.
Proof.
  intros H. unfold group_to_scim_group. cbn [group_meta lastModified].
  rewrite H. reflexivity.
Qed.

(** The defaulting arm is live only for a modification time that is
    present and is neither a number nor a datetime. *)
Lemma convert_last_modified_other (c : datetime) :
  convert_last_modified TsOther (Some c) = Some c.
Proof. reflexivity. Qed.

(** C2. On a user whose [updated_at] is [None] and whose [created_at] is
    the timestamp 1670000000, [user_to_scim_user] emits [meta.created]
    but leaves [meta.lastModified] at [None] instead of the creation
    time; [group_to_scim_group] does the same on such a group. *)
Theorem C2_last_modified_left_null :
  created (user_meta (user_to_scim_user Fixtures.user_never_modified Fixtures.base_url))
  = Some (mkDatetime 1670000000 (Some utc))
  /\ lastModified (user_meta (user_to_scim_user Fixtures.user_never_modified
                               Fixtures.base_url))
     = None
  /\ created (group_meta (group_to_scim_group Fixtures.group_never_modified []
                            Fixtures.base_url))
     = Some (mkDatetime 1670000000 (Some utc))
  /\ lastModified (group_meta (group_to_scim_group Fixtures.group_never_modified []
                                 Fixtures.base_url))
     = None.
Proof. repeat split; reflexivity. Qed.

(** ** Name resolution *)

Lemma resolve_name_formatted (p : SCIMUser) (n : SCIMName) (f : string) :
  user_name p = Some n -> formatted n = Some f -> f <> EmptyString ->
  resolve_name p = f.
Proof.
  intros Hn Hf Hne. unfold resolve_name. rewrite Hn. cbn [has_name_field get_name_field].
  rewrite Hf. destruct f; [congruence|]. reflexivity.
Qed.

Lemma has_name_field_false (f : SCIMName -> option string) (n : option SCIMName) :
  (forall nm, n = Some nm -> Py.otruthy (f nm) = false) ->
  has_name_field f n = false.
Proof.
  intros H. destruct n as [nm|]; [apply H; reflexivity | reflexivity].
Qed.

(** With no usable formatted name, display name or given name, the
    result is the user name whatever the family name. *)
Lemma resolve_name_without_given (p : SCIMUser) :
  has_name_field formatted (user_name p) = false ->
  Py.otruthy (user_displayName p) = false ->
  has_name_field givenName (user_name p) = false ->
  resolve_name p = userName p.
Proof.
  intros Hf Hd Hg. unfold resolve_name. rewrite Hf, Hd, Hg. reflexivity.
Qed.

(** C3. On a wire user whose only naming attribute is the family name
    "Smith", [scim_user_to_db_dict] stores the user name
    "jsmith@example.com" as the name, not the family name. *)
Theorem C3_family_name_alone_ignored :
  scim_user_to_db_dict Fixtures.payload_family_only !! "name"%string
  = Some (userName Fixtures.payload_family_only)
  /\ userName Fixtures.payload_family_only = "jsmith@example.com"%string
  /\ (user_name Fixtures.payload_family_only ≫= familyName) = Some "Smith"%string
  /\ scim_user_to_db_dict Fixtures.payload_family_only !! "name"%string
     <> Some "Smith"%string.
Proof.
  assert (H : scim_user_to_db_dict Fixtures.payload_family_only !! "name"%string
              = Some "jsmith@example.com"%string) by (vm_compute; reflexivity).
  repeat split; try reflexivity; try exact H.
  rewrite H. discriminate.
Qed.

(** ** Filters *)

Example filter_without_space_accepted :
  parse_filter "displayname" (Some (String.append "displayName eq " (Py.quoted "Engineering")))
  = inr (Some "Engineering"%string).
Proof. reflexivity. Qed.

Example filter_case_insensitive :
  parse_filter "displayname" (Some (String.append "DISPLAYNAME EQ " (Py.quoted "Engineering")))
  = inr (Some "Engineering"%string).
Proof. reflexivity. Qed.

Example filter_unquoted_accepted :
  parse_filter "displayname" (Some "displayName eq Engineering"%string)
  = inr (Some "Engineering"%string).
Proof. reflexivity. Qed.

Example filter_other_attribute_rejected :
  parse_filter "displayname" (Some (String.append "id eq " (Py.quoted "g1")))
  = inl SCIMNotImplementedError.
Proof. reflexivity. Qed.

(** C5. The filter displayName eq "Group One" of the repository's own
    test has the single-clause form with a quoted value, and the store
    holds a group named Group One; [get_groups] nevertheless rejects the
    filter with NotImplemented (501), because the space inside the
    quoted value makes a fourth piece. *)
Theorem C5_quoted_value_with_space_rejected :
  Py.split " " Fixtures.filter_group_one
  = ["displayName"%string; "eq"%string;
     String Py.dquote "Group"; String.append "One" (String Py.dquote EmptyString)]
  /\ In Fixtures.mock_group1 (groups Fixtures.store0)
  /\ g_name Fixtures.mock_group1 = "Group One"%string
  /\ ScimGroups.get_groups Fixtures.base_url 1 100 (Some Fixtures.filter_group_one)
       None None None None Fixtures.store0
     = (Fixtures.store0, inl SCIMNotImplementedError)
  /\ status_code SCIMNotImplementedError = 501.
Proof.
  repeat split; try reflexivity.
  left. reflexivity.
Qed.

(** ** PATCH on a user: the [active] attribute *)

Lemma path_is_lower (p s : string) :
  p <> EmptyString -> Py.lower s = p -> path_is p (Some s) = true.
Proof.
  intros Hp Hl. unfold path_is. rewrite Hl, String.eqb_refl.
  destruct s; [simpl in Hl; congruence | reflexivity].
Qed.

Lemma nonempty_insert {V} (k : string) (v : V) (m : gmap string V) :
  nonempty (<[k := v]> m) = true.
Proof.
  unfold nonempty. rewrite bool_decide_eq_false_2; [reflexivity|].
  apply insert_non_empty.
Qed.

Lemma nonempty_empty {V} : nonempty (∅ : gmap string V) = false.
Proof. unfold nonempty. rewrite bool_decide_eq_true_2; reflexivity. Qed.

Lemma find_map_same_id {A} (key : A -> string) (f : A -> A) (id : string) (l : list A) (a : A) :
  (forall x, key (f x) = key x) ->
  find (fun x => String.eqb (key x) id) l = Some a ->
  find (fun x => String.eqb (key x) id)
       (map (fun x => if String.eqb (key x) id then f x else x) l) = Some (f a).
Proof.
  intros Hkey. induction l as [|x l IH]; simpl; [discriminate|].
  destruct (String.eqb (key x) id) eqn:E.
  - intros [= <-]. simpl. rewrite Hkey, E. reflexivity.
  - intros H. simpl. rewrite E. apply IH. exact H.
Qed.

Lemma user_op_active (uid : string) (u : UserModel) (upd : gmap string string)
    (opname pathname : string) (v : Py.value) (st : Store) :
  Py.lower opname = "replace"%string -> Py.lower pathname = "active"%string ->
  ScimUsers.patch_user_op uid u upd (mkOp opname (Some pathname) v) st
  = match v with
    | Py.VBool b =>
        (st, inr (<["role"%string := if b then "user"%string else "pending"%string]> upd))
    | _ => (st, inl SCIMBadRequestError)
    end.
Proof.
  intros Ho Hp. unfold ScimUsers.patch_user_op. cbn [op path value].
  rewrite Ho. cbn [String.eqb Ascii.eqb Bool.eqb].
  rewrite (path_is_lower "active" pathname) by (congruence || exact Hp).
  destruct v; reflexivity.
Qed.

Lemma update_user_run (uid : string) (fields : gmap string string) (u : UserModel)
    (st : Store) :
  find (fun x => String.eqb (u_id x) uid) (users st) = Some u ->
  exists st',
    Users.update_user_by_id uid fields st = (st', inr (Some (Users.apply_fields fields u)))
    /\ calls st' = calls st ++ [UpdateUserById uid fields]
    /\ groups st' = groups st
    /\ find (fun x => String.eqb (u_id x) uid) (users st')
       = Some (Users.apply_fields fields u).
Proof.
  intros Hf. unfold Users.update_user_by_id. rewrite Hf.
  eexists. split; [reflexivity|]. cbn [calls groups users log].
  repeat split.
  apply (find_map_same_id u_id (Users.apply_fields fields)); [reflexivity | exact Hf].
Qed.

Lemma patch_user_single_active (st : Store) (base uid : string) (u : UserModel)
    (schemas : list string) (opname pathname : string) (b : bool) :
  find (fun x => String.eqb (u_id x) uid) (users st) = Some u ->
  Py.lower opname = "replace"%string -> Py.lower pathname = "active"%string ->
  let new_role := if b then "user"%string else "pending"%string in
  let u' := mkUser (u_id u) (u_email u) (u_name u) new_role
                   (u_created_at u) (u_updated_at u) in
  exists st',
    ScimUsers.patch_user base (mkPatch schemas [mkOp opname (Some pathname) (Py.VBool b)])
      uid st
    = (st', inr (user_to_scim_user u' base))
    /\ calls st' = calls st ++ [UpdateUserById uid {["role"%string := new_role]}]
    /\ find (fun x => String.eqb (u_id x) uid) (users st') = Some u'.
Proof.
  intros Hf Ho Hp new_role u'.
  destruct (update_user_run uid {["role"%string := new_role]} u st Hf)
    as [st' [Hupd [Hcalls [_ Hfind]]]].
  assert (Hu' : Users.apply_fields {["role"%string := new_role]} u = u').
  { unfold Users.apply_fields, u'.
    rewrite lookup_singleton_eq.
    rewrite !lookup_singleton_ne by discriminate. reflexivity. }
  rewrite Hu' in Hupd, Hfind.
  exists st'. split; [|split; assumption].
  unfold ScimUsers.patch_user.
  rewrite (bind_run _ _ st st (Some u)) by (unfold Users.get_user_by_id; rewrite Hf; reflexivity).
  cbn [Operations for_each].
  assert (Hloop : (ScimUsers.patch_user_op uid u ∅ (mkOp opname (Some pathname) (Py.VBool b))
                   ≫= λ s' : gmap string string, mret s') st
                  = (st, inr ({["role"%string := new_role]} : gmap string string))).
  { rewrite (bind_run _ _ st st (<["role"%string := new_role]> ∅)).
    - reflexivity.
    - rewrite (user_op_active uid u ∅ opname pathname (Py.VBool b) st Ho Hp). reflexivity. }
  rewrite (bind_run _ _ st st _ Hloop).
  change ({["role"%string := new_role]} : gmap string string)
    with (<["role"%string := new_role]> (∅ : gmap string string)).
  rewrite nonempty_insert.
  assert (Hwrite : (Users.update_user_by_id uid (<["role"%string := new_role]> ∅)
                    ≫= λ updated_model : option UserModel,
                         match updated_model with
                         | Some _ => mret ()
                         | None => raise SCIMInternalServerError
                         end) st = (st', inr ())).
  { rewrite (bind_run _ _ st st' (Some u')); [reflexivity | exact Hupd]. }
  rewrite (bind_run _ _ st st' _ Hwrite).
  rewrite (bind_run _ _ st' st' (Some u'))
    by (unfold Users.get_user_by_id; rewrite Hfind; reflexivity).
  reflexivity.
Qed.

Lemma patch_user_single_not_bool (st : Store) (base uid : string) (u : UserModel)
    (schemas : list string) (opname pathname : string) (v : Py.value) :
  find (fun x => String.eqb (u_id x) uid) (users st) = Some u ->
  Py.lower opname = "replace"%string -> Py.lower pathname = "active"%string ->
  Py.is_bool v = false ->
  ScimUsers.patch_user base (mkPatch schemas [mkOp opname (Some pathname) v]) uid st
  = (st, inl SCIMBadRequestError).
Proof.
  intros Hf Ho Hp Hv. unfold ScimUsers.patch_user.
  rewrite (bind_run _ _ st st (Some u)) by (unfold Users.get_user_by_id; rewrite Hf; reflexivity).
  cbn [Operations for_each].
  apply bind_fail. apply bind_fail.
  rewrite (user_op_active uid u ∅ opname pathname v st Ho Hp).
  destruct v; try reflexivity. discriminate.
Qed.

(** The role written by [replace active]. For every User PATCH operation
    [{op: replace, path: active}] (operation and path matched without
    regard to case): a boolean value [true] stages the role "user" and
    [false] the role "pending", whatever the user's current role and
    whatever was staged before; a request made of that one operation on
    an existing user issues one [update_user_by_id] call carrying exactly
    that role and leaves the user stored with it; a value that is not a
    boolean fails with BadRequest and the store is untouched. *)
Theorem C1_active_replace_writes_role (st : Store) (base uid : string) (u : UserModel)
    (schemas : list string) (opname pathname : string) :
  find (fun x => String.eqb (u_id x) uid) (users st) = Some u ->
  Py.lower opname = "replace"%string ->
  Py.lower pathname = "active"%string ->
  (forall (b : bool) (staged : gmap string string) (s : Store),
      ScimUsers.patch_user_op uid u staged (mkOp opname (Some pathname) (Py.VBool b)) s
      = (s, inr (<["role"%string := if b then "user"%string else "pending"%string]> staged)))
  /\ (forall b : bool,
         let new_role := if b then "user"%string else "pending"%string in
         let u' := mkUser (u_id u) (u_email u) (u_name u) new_role
                          (u_created_at u) (u_updated_at u) in
         exists st',
           ScimUsers.patch_user base
             (mkPatch schemas [mkOp opname (Some pathname) (Py.VBool b)]) uid st
           = (st', inr (user_to_scim_user u' base))
           /\ calls st' = calls st ++ [UpdateUserById uid {["role"%string := new_role]}]
           /\ find (fun x => String.eqb (u_id x) uid) (users st') = Some u')
  /\ (forall v : Py.value,
         Py.is_bool v = false ->
         ScimUsers.patch_user base (mkPatch schemas [mkOp opname (Some pathname) v]) uid st
         = (st, inl SCIMBadRequestError)
         /\ status_code SCIMBadRequestError = 400).
Proof.
  intros Hf Ho Hp. split; [|split].
  - intros b staged s.
    apply (user_op_active uid u staged opname pathname (Py.VBool b) s Ho Hp).
  - intros b. apply patch_user_single_active; assumption.
  - intros v Hv. split; [|reflexivity].
    apply (patch_user_single_not_bool st base uid u schemas opname pathname v); assumption.
Qed.

Lemma C1_active_replace_writes_role_witness :
  find (fun x => String.eqb (u_id x) "user-2") (users Fixtures.store0)
  = Some Fixtures.mock_user2
  /\ Py.lower "Replace" = "replace"%string
  /\ Py.lower "active" = "active"%string
  /\ (exists st',
        ScimUsers.patch_user Fixtures.base_url
          (mkPatch [PATCH_OP_URN] [mkOp "Replace" (Some "active"%string) (Py.VBool true)])
          "user-2" Fixtures.store0
        = (st', inr (user_to_scim_user
                       (mkUser "user-2" "user2@example.com" "User Two" "user"
                               (TsNumber 1670000000) (TsNumber 1670000000))
                       Fixtures.base_url))
        /\ calls st' = [UpdateUserById "user-2" {["role"%string := "user"%string]}])
  /\ ScimUsers.patch_user Fixtures.base_url
       (mkPatch [PATCH_OP_URN] [mkOp "Replace" (Some "active"%string) (Py.VInt 1)])
       "user-2" Fixtures.store0
     = (Fixtures.store0, inl SCIMBadRequestError).
Proof.
  split; [reflexivity|]. split; [reflexivity|]. split; [reflexivity|].
  destruct (C1_active_replace_writes_role Fixtures.store0 Fixtures.base_url "user-2"
              Fixtures.mock_user2 [PATCH_OP_URN] "Replace" "active"
              eq_refl eq_refl eq_refl) as [_ [Hreq Hbad]].
  split.
  - destruct (Hreq true) as [st' [Hrun [Hcalls _]]].
    exists st'. split; [exact Hrun | exact Hcalls].
  - apply (Hbad (Py.VInt 1)). reflexivity.
Defined.

(** C1. The administrator of the sample store has the non-pending role
    "admin"; after PATCH [replace active true] the handler of
    [routers/scim_users.py] has written the role "user" and the stored
    role is "user", not "admin": a non-pending role is not left
    unchanged. *)
Lemma C1_admin_role_overwritten :
  u_role Fixtures.mock_admin_user = "admin"%string
  /\ u_role Fixtures.mock_admin_user <> "pending"%string
  /\ exists st' resp,
       ScimUsers.patch_user Fixtures.base_url Fixtures.patch_activate "admin-1"
         Fixtures.store0
       = (st', inr resp)
       /\ calls st' = [UpdateUserById "admin-1" {["role"%string := "user"%string]}]
       /\ (u_role <$> find (fun x => String.eqb (u_id x) "admin-1") (users st'))
          = Some "user"%string
       /\ (u_role <$> find (fun x => String.eqb (u_id x) "admin-1") (users st'))
          <> Some (u_role Fixtures.mock_admin_user).
Proof.
  split; [reflexivity|]. split; [discriminate|].
  eexists. eexists. split; [vm_compute; reflexivity|].
  split; [reflexivity|]. split; [reflexivity|]. discriminate.
Qed.

(** The earlier handler of [routers/scim.py] keeps a role that is not
    "pending" when a user is activated, and writes "user" only over
    "pending"; on deactivation it writes "pending". *)
Lemma earlier_patch_keeps_non_pending_role (current_role : string) :
  LegacyRouter.new_role current_role true
  = (if String.eqb current_role "pending" then "user"%string else current_role)
  /\ LegacyRouter.new_role current_role false = "pending"%string
  /\ LegacyRouter.new_role (u_role Fixtures.mock_admin_user) true = "admin"%string.
Proof.
  unfold LegacyRouter.new_role. cbn [negb andb].
  destruct (String.eqb_spec current_role "pending") as [->|_]; repeat split; reflexivity.
Qed.

(** ** PATCH on a group *)

(** The loop of [patch_group] only reads the store. *)
Lemma for_each_reads_only {A S} (step : S -> A -> Handler S) (l : list A) :
  (forall s a st, fst (step s a st) = st) ->
  forall s st, fst (for_each step l s st) = st.
Proof.
  intros Hstep. induction l as [|a l IH]; intros s st; simpl; [reflexivity|].
  unfold mbind, handler_bind, Db.bind.
  specialize (Hstep s a st).
  destruct (step s a st) as [st1 [e|s1]]; simpl in Hstep; subst st1; [reflexivity|].
  apply IH.
Qed.

Lemma add_member_reads_only (bad : SCIMException) (ids : gset string) (m : Py.value)
    (st : Store) :
  fst (ScimGroups.add_member bad ids m st) = st.
Proof.
  unfold ScimGroups.add_member.
  destruct m as [| | | |l|d]; try reflexivity.
  destruct (Py.dict_get "value" d) as [[| | |uid| |]|]; reflexivity.
Qed.

Lemma add_members_reads_only (bad : SCIMException) (v : Py.value) (ids : gset string)
    (st : Store) :
  fst (ScimGroups.add_members bad v ids st) = st.
Proof.
  unfold ScimGroups.add_members.
  destruct (Py.iterate v) as [l|]; [|reflexivity].
  apply for_each_reads_only. intros s a st0. apply add_member_reads_only.
Qed.

Lemma bind_reads_only {A B} (m : Handler A) (k : A -> Handler B) (st : Store) :
  fst (m st) = st -> (forall a, fst (k a st) = st) -> fst ((m ≫= k) st) = st.
Proof.
  intros Hm Hk. unfold mbind, handler_bind, Db.bind.
  destruct (m st) as [st1 [e|a]]; simpl in Hm; subst st1; [reflexivity | apply Hk].
Qed.

Lemma patch_group_op_reads_only (gid : string) (g : GroupModel)
    (s : ScimGroups.PatchState) (o : SCIMPatchOp) (st : Store) :
  fst (ScimGroups.patch_group_op gid g s o st) = st.
Proof.
  unfold ScimGroups.patch_group_op.
  repeat match goal with
         | |- fst ((if ?c then _ else _) _) = _ => destruct c
         | |- fst ((_ ≫= _) _) = _ => apply bind_reads_only; [|intros]
         | |- fst (match ?x with _ => _ end _) = _ => destruct x
         | |- fst (ScimGroups.add_members _ _ _ _) = _ => apply add_members_reads_only
         | |- _ => reflexivity
         end.
Qed.

Lemma group_loop_reads_only (gid : string) (g : GroupModel) (ops : list SCIMPatchOp)
    (s : ScimGroups.PatchState) (st : Store) :
  fst (for_each (ScimGroups.patch_group_op gid g) ops s st) = st.
Proof.
  apply for_each_reads_only. intros. apply patch_group_op_reads_only.
Qed.

Lemma loop_result (gid : string) (g : GroupModel) (ops : list SCIMPatchOp)
    (s : ScimGroups.PatchState) (st : Store) (r : SCIMException + ScimGroups.PatchState) :
  snd (for_each (ScimGroups.patch_group_op gid g) ops s st) = r ->
  for_each (ScimGroups.patch_group_op gid g) ops s st = (st, r).
Proof.
  intros H. pose proof (group_loop_reads_only gid g ops s st) as Hst.
  destruct (for_each (ScimGroups.patch_group_op gid g) ops s st) as [st1 r1].
  simpl in *. congruence.
Qed.

Lemma update_group_run (gid : string) (fields : gmap string dbval) (g : GroupModel)
    (st : Store) :
  find (fun x => String.eqb (g_id x) gid) (groups st) = Some g ->
  exists st',
    Groups.update_group_by_id gid fields st = (st', inr (Some (Groups.apply_fields fields g)))
    /\ calls st' = calls st ++ [UpdateGroupById gid fields]
    /\ users st' = users st
    /\ find (fun x => String.eqb (g_id x) gid) (groups st')
       = Some (Groups.apply_fields fields g).
Proof.
  intros Hf. unfold Groups.update_group_by_id. rewrite Hf.
  eexists. split; [reflexivity|]. cbn [calls groups users log].
  repeat split.
  apply (find_map_same_id g_id (Groups.apply_fields fields)); [reflexivity | exact Hf].
Qed.

(** A request whose loop raises leaves the store as it was. *)
Lemma patch_group_loop_error (st : Store) (base gid : string) (g : GroupModel)
    (sch : list string) (ops : list SCIMPatchOp) (e : SCIMException) :
  find (fun x => String.eqb (g_id x) gid) (groups st) = Some g ->
  snd (for_each (ScimGroups.patch_group_op gid g) ops
         (ScimGroups.mkPS ∅ (list_to_set (g_user_ids g)) false) st) = inl e ->
  ScimGroups.patch_group base (mkPatch sch ops) gid st = (st, inl e).
Proof.
  intros Hf Hl. unfold ScimGroups.patch_group.
  rewrite (bind_run _ _ st st (Some g))
    by (unfold Groups.get_group_by_id; rewrite Hf; reflexivity).
  cbn [Operations]. apply bind_fail. apply loop_result. exact Hl.
Qed.


(** A request whose loop stages something issues exactly one store
    call, which carries every staged key. *)
Lemma patch_group_one_write (st : Store) (base gid : string) (g : GroupModel)
    (sch : list string) (ops : list SCIMPatchOp) (s : ScimGroups.PatchState) :
  find (fun x => String.eqb (g_id x) gid) (groups st) = Some g ->
  snd (for_each (ScimGroups.patch_group_op gid g) ops
         (ScimGroups.mkPS ∅ (list_to_set (g_user_ids g)) false) st) = inr s ->
  let fields :=
    if ScimGroups.members_changed s
    then <["user_ids"%string := DIds (elements (ScimGroups.current_user_ids s))]>
           (ScimGroups.db_updates s)
    else ScimGroups.db_updates s in
  fields <> ∅ ->
  exists st',
    ScimGroups.patch_group base (mkPatch sch ops) gid st
    = (st', inr (group_to_scim_group (Groups.apply_fields fields g)
                   (List.filter
                      (fun u => existsb (String.eqb (u_id u))
                                  (g_user_ids (Groups.apply_fields fields g)))
                      (users st))
                   base))
    /\ calls st' = calls st ++ [UpdateGroupById gid fields]
    /\ users st' = users st.
Proof.
  intros Hf Hl fields Hne.
  destruct (update_group_run gid fields g st Hf) as [st' [Hupd [Hcalls [Husers Hfind]]]].
  exists st'. split; [|split; assumption].
  unfold ScimGroups.patch_group.
  rewrite (bind_run _ _ st st (Some g))
    by (unfold Groups.get_group_by_id; rewrite Hf; reflexivity).
  cbn [Operations].
  rewrite (bind_run _ _ st st s) by (apply loop_result; exact Hl).
  fold fields.
  assert (Hn : nonempty fields = true).
  { unfold nonempty. rewrite bool_decide_eq_false_2; [reflexivity | exact Hne]. }
  rewrite Hn.
  assert (Hwrite : (Groups.update_group_by_id gid fields
                    ≫= λ updated_model : option GroupModel,
                         match updated_model with
                         | Some _ => mret ()
                         | None => raise SCIMInternalServerError
                         end) st = (st', inr ())).
  { rewrite (bind_run _ _ st st' (Some (Groups.apply_fields fields g)));
      [reflexivity | exact Hupd]. }
  rewrite (bind_run _ _ st st' _ Hwrite).
  rewrite (bind_run _ _ st' st' (Some (Groups.apply_fields fields g)))
    by (unfold Groups.get_group_by_id; rewrite Hfind; reflexivity).
  unfold mbind, handler_bind, Db.bind, Users.get_users_by_user_ids, mret, handler_ret, Db.ret.
  rewrite Husers. reflexivity.
Qed.

(** C4 (as amended). For every Group PATCH request on an existing group
    whose operations stage a new display name and change the membership
    set, the engine issues exactly one store call, an
    [update_group_by_id] whose field dictionary carries both [name] and
    [user_ids]. *)
Theorem C4_name_and_members_in_one_write (st : Store) (base gid : string) (g : GroupModel)
    (sch : list string) (ops : list SCIMPatchOp) (s : ScimGroups.PatchState)
    (new_name : string) :
  find (fun x => String.eqb (g_id x) gid) (groups st) = Some g ->
  snd (for_each (ScimGroups.patch_group_op gid g) ops
         (ScimGroups.mkPS ∅ (list_to_set (g_user_ids g)) false) st) = inr s ->
  ScimGroups.db_updates s !! "name"%string = Some (DStr new_name) ->
  ScimGroups.members_changed s = true ->
  exists st' resp fields,
    ScimGroups.patch_group base (mkPatch sch ops) gid st = (st', inr resp)
    /\ calls st' = calls st ++ [UpdateGroupById gid fields]
    /\ fields !! "name"%string = Some (DStr new_name)
    /\ fields !! "user_ids"%string
       = Some (DIds (elements (ScimGroups.current_user_ids s)))
    /\ displayName resp = new_name.
Proof.
  intros Hf Hl Hname Hm.
  destruct (patch_group_one_write st base gid g sch ops s Hf Hl) as [st' [Hrun [Hcalls _]]].
  { rewrite Hm. apply insert_non_empty. }
  rewrite Hm in Hrun, Hcalls.
  eexists st', _, _. split; [exact Hrun|]. split; [exact Hcalls|].
  split; [|split].
  - rewrite lookup_insert_ne by discriminate. exact Hname.
  - apply lookup_insert_eq.
  - unfold group_to_scim_group, Groups.apply_fields. cbn [displayName g_name].
    rewrite lookup_insert_ne by discriminate. rewrite Hname. reflexivity.
Qed.

Lemma C4_name_and_members_in_one_write_witness :
  find (fun x => String.eqb (g_id x) "group-1") (groups Fixtures.store0)
  = Some Fixtures.mock_group1
  /\ (exists s,
        snd (for_each (ScimGroups.patch_group_op "group-1" Fixtures.mock_group1)
               (Operations Fixtures.patch_rename_and_add)
               (ScimGroups.mkPS ∅ (list_to_set (g_user_ids Fixtures.mock_group1)) false)
               Fixtures.store0) = inr s
        /\ ScimGroups.db_updates s !! "name"%string = Some (DStr "Engineering")
        /\ ScimGroups.members_changed s = true)
  /\ exists st' resp fields,
       ScimGroups.patch_group Fixtures.base_url Fixtures.patch_rename_and_add "group-1"
         Fixtures.store0 = (st', inr resp)
       /\ calls st' = calls Fixtures.store0 ++ [UpdateGroupById "group-1" fields]
       /\ fields !! "name"%string = Some (DStr "Engineering")
       /\ displayName resp = "Engineering"%string.
Proof.
  split; [reflexivity|].
  split.
  - eexists. split; [vm_compute; reflexivity|]. split; reflexivity.
  - destruct (C4_name_and_members_in_one_write Fixtures.store0 Fixtures.base_url "group-1"
                Fixtures.mock_group1 [PATCH_OP_URN]
                (Operations Fixtures.patch_rename_and_add)
                (ScimGroups.mkPS {["name"%string := DStr "Engineering"]}
                                 ({["user-2"%string]} ∪ list_to_set ["user-1"%string]) true)
                "Engineering" eq_refl) as [st' [resp [fields [Hrun [Hc [Hn [_ Hd]]]]]]].
    + vm_compute. reflexivity.
    + reflexivity.
    + reflexivity.
    + exists st', resp, fields. repeat split; assumption.
Defined.

(** C4, counterexample. Renaming the group Group One and adding a member
    to it in one PATCH request changes both the display name and the
    membership set, and the store receives one call, not two: a single
    [update_group_by_id] with both keys. *)
Lemma C4_one_write_not_two :
  exists st' resp,
    ScimGroups.patch_group Fixtures.base_url Fixtures.patch_rename_and_add "group-1"
      Fixtures.store0 = (st', inr resp)
    /\ calls Fixtures.store0 = []
    /\ calls st'
       = [UpdateGroupById "group-1"
            (<["user_ids"%string :=
                 DIds (elements ({["user-2"%string]} ∪ list_to_set ["user-1"%string]
                                 : gset string))]>
               {["name"%string := DStr "Engineering"]})]
    /\ length (calls st') = 1%nat
    /\ length (calls st') <> 2%nat.
Proof.
  eexists. eexists. split; [vm_compute; reflexivity|].
  split; [reflexivity|]. split; [vm_compute; reflexivity|].
  split; [reflexivity|]. discriminate.
Qed.


Lemma loop_through (gid : string) (g : GroupModel) (pre post : list SCIMPatchOp)
    (o : SCIMPatchOp) (s0 s_pre : ScimGroups.PatchState) (st : Store) :
  snd (for_each (ScimGroups.patch_group_op gid g) pre s0 st) = inr s_pre ->
  for_each (ScimGroups.patch_group_op gid g) (pre ++ o :: post) s0 st
  = (ScimGroups.patch_group_op gid g s_pre o ≫= for_each (ScimGroups.patch_group_op gid g) post)
      st.
Proof.
  intros Hpre. rewrite for_each_app.
  rewrite (bind_run _ _ st st s_pre) by (apply loop_result; exact Hpre).
  reflexivity.
Qed.

Lemma startswith_truthy (p s : string) :
  p <> EmptyString -> Py.startswith p s = true -> Py.truthy s = true.
Proof.
  intros Hp H. destruct s; [|reflexivity].
  destruct p; [congruence | discriminate].
Qed.


Lemma append_cons (c : ascii) (s t : string) :
  String.append (String c s) t = String c (String.append s t).
Proof. reflexivity. Qed.

(** Splitting at a separator that the first piece does not hold. *)
Lemma split_first_piece (sep : ascii) (Y rest : string) :
  (forall c, In c (list_ascii_of_string Y) -> c <> sep) ->
  Py.split sep (String.append Y (String sep rest)) = Y :: Py.split sep rest.
Proof.
  induction Y as [|c Y IH]; intros HY.
  - simpl. rewrite Ascii.eqb_refl. reflexivity.
  - change (String.append (String c Y) (String sep rest))
      with (String c (String.append Y (String sep rest))).
    change (Py.split sep (String c (String.append Y (String sep rest))))
      with (if Ascii.eqb c sep
            then EmptyString :: Py.split sep (String.append Y (String sep rest))
            else match Py.split sep (String.append Y (String sep rest)) with
                 | h :: t => String c h :: t
                 | [] => [String c EmptyString]
                 end).
    destruct (Ascii.eqb_spec c sep) as [->|_].
    + exfalso. apply (HY sep); [left; reflexivity | reflexivity].
    + rewrite IH; [reflexivity|]. intros d Hd. apply HY. right. exact Hd.
Qed.

(** The literal path members[value eq "X"] is a member-removal path
    and carries the id [X], as long as [X] holds no double quote. *)
Lemma remove_path_carries_id (X : string) :
  (forall c, In c (list_ascii_of_string X) -> c <> Py.dquote) ->
  let p := String.append "members[value eq " (String.append (Py.quoted X) "]") in
  Py.startswith "members[value eq" p = true /\ ScimGroups.quoted_id p = Some X.
Proof.
  intros HX p. split; [reflexivity|].
  unfold ScimGroups.quoted_id, p, Py.quoted.
  change (String.append "members[value eq "
            (String.append (String Py.dquote (String.append X (String Py.dquote EmptyString)))
               "]"))
    with (String.append "members[value eq "
            (String Py.dquote
               (String.append (String.append X (String Py.dquote EmptyString)) "]"))).
  rewrite (split_first_piece Py.dquote "members[value eq ")
    by (intros c Hc; simpl in Hc; intuition (subst; discriminate)).
  assert (Happ : String.append (String.append X (String Py.dquote EmptyString)) "]"
                 = String.append X (String Py.dquote "]")).
  { clear. induction X as [|c X IH]; [reflexivity|].
    rewrite !append_cons, IH. reflexivity. }
  rewrite Happ, (split_first_piece Py.dquote X) by exact HX.
  reflexivity.
Qed.



(** ** PATCH on a group: adding members *)

Lemma group_op_add_bad_value (gid : string) (g : GroupModel) (s : ScimGroups.PatchState)
    (opname pathname : string) (v : Py.value) (st : Store) :
  Py.lower opname = "add"%string ->
  Py.lower pathname = "members"%string ->
  v = Py.VNone \/ Py.is_list v = false \/ v = Py.VList [] ->
  ScimGroups.patch_group_op gid g s (mkOp opname (Some pathname) v) st
  = (st, inl SCIMBadRequestError).
Proof.
  intros Ho Hp Hv. unfold ScimGroups.patch_group_op. cbn [op path value].
  rewrite Ho. cbn [String.eqb Ascii.eqb Bool.eqb].
  rewrite (path_is_lower "members" pathname) by (congruence || exact Hp).
  destruct Hv as [-> | [Hl | ->]]; [reflexivity | | reflexivity].
  rewrite Hl. rewrite orb_true_r. reflexivity.
Qed.

(** C10. For every Group PATCH operation with [op] add and [path]
    members (both matched without regard to case) whose value is missing
    ([None]), is not a list, or is the empty list, the operation raises
    BadRequest (400) whatever is staged, and a request on an existing
    group that reaches the operation fails with BadRequest and leaves
    the store exactly as it was. *)
Theorem C10_add_members_needs_nonempty_list (st : Store) (base gid : string) (g : GroupModel)
    (sch : list string) (opname pathname : string) (v : Py.value) :
  Py.lower opname = "add"%string ->
  Py.lower pathname = "members"%string ->
  v = Py.VNone \/ Py.is_list v = false \/ v = Py.VList [] ->
  find (fun x => String.eqb (g_id x) gid) (groups st) = Some g ->
  (forall (s : ScimGroups.PatchState) (st0 : Store),
      ScimGroups.patch_group_op gid g s (mkOp opname (Some pathname) v) st0
      = (st0, inl SCIMBadRequestError))
  /\ status_code SCIMBadRequestError = 400
  /\ (forall (pre post : list SCIMPatchOp) (s_pre : ScimGroups.PatchState),
         snd (for_each (ScimGroups.patch_group_op gid g) pre
                (ScimGroups.mkPS ∅ (list_to_set (g_user_ids g)) false) st) = inr s_pre ->
         ScimGroups.patch_group base
           (mkPatch sch (pre ++ mkOp opname (Some pathname) v :: post)) gid st
         = (st, inl SCIMBadRequestError)).
Proof.
  intros Ho Hp Hv Hf.
  assert (Hop : forall s st0,
             ScimGroups.patch_group_op gid g s (mkOp opname (Some pathname) v) st0
             = (st0, inl SCIMBadRequestError)).
  { intros s st0. apply group_op_add_bad_value; assumption. }
  split; [exact Hop|]. split; [reflexivity|].
  intros pre post s_pre Hpre.
  apply (patch_group_loop_error st base gid g); [exact Hf|].
  rewrite (loop_through gid g pre post _ _ s_pre st Hpre).
  rewrite (bind_fail _ _ st st SCIMBadRequestError) by apply Hop.
  reflexivity.
Qed.

Lemma C10_add_members_needs_nonempty_list_witness :
  Py.lower "add" = "add"%string
  /\ Py.lower "members" = "members"%string
  /\ (Py.VList [] = Py.VNone \/ Py.is_list (Py.VList []) = false
      \/ Py.VList [] = Py.VList [])
  /\ find (fun x => String.eqb (g_id x) "group-1") (groups Fixtures.store0)
     = Some Fixtures.mock_group1
  /\ ScimGroups.patch_group Fixtures.base_url
       (mkPatch [PATCH_OP_URN]
          [mkOp "replace" (Some "displayName"%string) (Py.VStr "Engineering");
           mkOp "add" (Some "members"%string) (Py.VList [])])
       "group-1" Fixtures.store0
     = (Fixtures.store0, inl SCIMBadRequestError).
Proof.
  split; [reflexivity|]. split; [reflexivity|].
  split; [right; right; reflexivity|]. split; [reflexivity|].
  destruct (C10_add_members_needs_nonempty_list Fixtures.store0 Fixtures.base_url "group-1"
              Fixtures.mock_group1 [PATCH_OP_URN] "add" "members" (Py.VList [])
              eq_refl eq_refl (or_intror (or_intror eq_refl)) eq_refl) as [_ [_ Hreq]].
  apply (Hreq [mkOp "replace" (Some "displayName"%string) (Py.VStr "Engineering")] []
              (ScimGroups.mkPS {["name"%string := DStr "Engineering"]}
                               (list_to_set (g_user_ids Fixtures.mock_group1)) false)).
  vm_compute. reflexivity.
Defined.

(** ** Creating a user *)

Lemma find_some_of_In {A} (p : A -> bool) (l : list A) (x : A) :
  In x l -> p x = true -> exists y, find p l = Some y.
Proof.
  induction l as [|a l IH]; intros Hin Hp; [destruct Hin|].
  simpl. destruct (p a) eqn:E; [eauto|].
  destruct Hin as [->|Hin]; [congruence | apply IH; assumption].
Qed.

(** C7 (as amended). For every create-User request whose [userName] is
    not empty and equals the e-mail of a user already in the store,
    [create_user] fails with Conflict (409) carrying the SCIM type
    [uniqueness], and the store is unchanged: no user is created and no
    store call is issued. *)
Theorem C7_create_existing_email_conflicts (st : Store) (base fresh_uuid : string)
    (payload : SCIMUser) (existing : UserModel) :
  userName payload <> EmptyString ->
  In existing (users st) ->
  u_email existing = userName payload ->
  ScimUsers.create_user base fresh_uuid payload st = (st, inl SCIMConflictError)
  /\ status_code SCIMConflictError = 409
  /\ scim_type SCIMConflictError = "uniqueness"%string.
Proof.
  intros Hne Hin Hmail. split; [|split; reflexivity].
  unfold ScimUsers.create_user.
  destruct (userName payload) as [|c rest] eqn:Hu; [congruence|].
  cbn [Py.truthy negb].
  destruct (find_some_of_In (fun u => String.eqb (u_email u) (String c rest)) (users st)
              existing Hin) as [y Hy].
  { rewrite Hmail. apply String.eqb_refl. }
  rewrite (bind_run _ _ st st (Some y))
    by (unfold Users.get_user_by_email; rewrite Hy; reflexivity).
  reflexivity.
Qed.

Lemma C7_create_existing_email_conflicts_witness :
  userName Fixtures.payload_conflict <> EmptyString
  /\ In Fixtures.mock_user1 (users Fixtures.store0)
  /\ u_email Fixtures.mock_user1 = userName Fixtures.payload_conflict
  /\ ScimUsers.create_user Fixtures.base_url "fresh-uuid" Fixtures.payload_conflict
       Fixtures.store0
     = (Fixtures.store0, inl SCIMConflictError).
Proof.
  assert (Hne : userName Fixtures.payload_conflict <> EmptyString) by discriminate.
  assert (Hin : In Fixtures.mock_user1 (users Fixtures.store0)) by (left; reflexivity).
  split; [exact Hne|]. split; [exact Hin|]. split; [reflexivity|].
  apply (C7_create_existing_email_conflicts Fixtures.store0 Fixtures.base_url "fresh-uuid"
           Fixtures.payload_conflict Fixtures.mock_user1 Hne Hin eq_refl).
Defined.

(** C7, counterexample. After a PATCH that replaces the user name of a
    stored user by the empty string, the store holds a user whose e-mail
    is empty; a create request whose [userName] is that same empty
    string equals the e-mail of an existing user, yet it fails with
    BadRequest (400, [invalidValue]), not with Conflict. *)
Lemma C7_blank_user_name_is_bad_request :
  (exists u, In u (users Fixtures.store_blank_email)
             /\ u_email u = userName Fixtures.payload_blank)
  /\ ScimUsers.create_user Fixtures.base_url "fresh-uuid" Fixtures.payload_blank
       Fixtures.store_blank_email
     = (Fixtures.store_blank_email, inl SCIMBadRequestError)
  /\ SCIMBadRequestError <> SCIMConflictError.
Proof.
  assert (Husers : users Fixtures.store_blank_email
                   = [mkUser "user-1" EmptyString "User One" "user"
                             (TsNumber 1670000000) (TsNumber 1670000000);
                      Fixtures.mock_user2; Fixtures.mock_admin_user])
    by (vm_compute; reflexivity).
  split; [|split].
  - eexists. rewrite Husers. split; [left; reflexivity | reflexivity].
  - generalize Fixtures.store_blank_email. intros st. reflexivity.
  - discriminate.
Qed.

(** ** Schema lookup and its cache *)

Section SchemaCache.

Import ScimSchemas.

Variable scim_attributes_of : ModelCls -> list SCIMSchemaAttribute.

Lemma set_location_twice (d : SCIMSchemaDefinition) (l1 l2 : HttpUrl) :
  set_location (set_location d l1) l2 = set_location d l2.
Proof. reflexivity. Qed.

Lemma set_location_derived (cls : ModelCls) (urn name descr b1 b2 : string) (l : HttpUrl) :
  set_location (pydantic_schema_to_scim_schema scim_attributes_of cls urn name descr b1) l
  = set_location (pydantic_schema_to_scim_schema scim_attributes_of cls urn name descr b2) l.
Proof. reflexivity. Qed.

(** The definition a user-schema lookup starts from: the cached one, or
    the one derived on the spot. *)
Lemma get_user_schema (b : string) (c : Caches) :
  let d0 := default (pydantic_schema_to_scim_schema scim_attributes_of SCIMUserCls
                       USER_SCHEMA_URN "User" "SCIM User Schema" b)
                    (_USER_SCIM_SCHEMA_CACHE c) in
  let d := set_location d0 (schema_location_of b USER_SCHEMA_URN) in
  get_schema_by_id scim_attributes_of b USER_SCHEMA_URN c
  = (mkCaches (Some d) (_GROUP_SCIM_SCHEMA_CACHE c)
              (derivations c ++ match _USER_SCIM_SCHEMA_CACHE c with
                                | None => [USER_SCHEMA_URN]
                                | Some _ => []
                                end),
     inr d).
Proof.
  unfold get_schema_by_id. rewrite String.eqb_refl.
  destruct (_USER_SCIM_SCHEMA_CACHE c) as [d0|]; cbn [default].
  - rewrite app_nil_r. reflexivity.
  - reflexivity.
Qed.

Lemma get_group_schema (b : string) (c : Caches) :
  let d0 := default (pydantic_schema_to_scim_schema scim_attributes_of SCIMGroupCls
                       GROUP_SCHEMA_URN "Group" "SCIM Group Schema" b)
                    (_GROUP_SCIM_SCHEMA_CACHE c) in
  let d := set_location d0 (schema_location_of b GROUP_SCHEMA_URN) in
  get_schema_by_id scim_attributes_of b GROUP_SCHEMA_URN c
  = (mkCaches (_USER_SCIM_SCHEMA_CACHE c) (Some d)
              (derivations c ++ match _GROUP_SCIM_SCHEMA_CACHE c with
                                | None => [GROUP_SCHEMA_URN]
                                | Some _ => []
                                end),
     inr d).
Proof.
  unfold get_schema_by_id.
  replace (String.eqb GROUP_SCHEMA_URN USER_SCHEMA_URN) with false by reflexivity.
  rewrite String.eqb_refl.
  destruct (_GROUP_SCIM_SCHEMA_CACHE c) as [d0|]; cbn [default].
  - rewrite app_nil_r. reflexivity.
  - reflexivity.
Qed.

Lemma serve_user (bases : list string) (c : Caches) (any : string) :
  let d0 := default (pydantic_schema_to_scim_schema scim_attributes_of SCIMUserCls
                       USER_SCHEMA_URN "User" "SCIM User Schema" any)
                    (_USER_SCIM_SCHEMA_CACHE c) in
  snd (serve scim_attributes_of USER_SCHEMA_URN bases c)
  = map (fun b => inr (set_location d0 (schema_location_of b USER_SCHEMA_URN))) bases
  /\ derivations (fst (serve scim_attributes_of USER_SCHEMA_URN bases c))
     = derivations c ++ match _USER_SCIM_SCHEMA_CACHE c, bases with
                        | None, _ :: _ => [USER_SCHEMA_URN]
                        | _, _ => []
                        end
  /\ _GROUP_SCIM_SCHEMA_CACHE (fst (serve scim_attributes_of USER_SCHEMA_URN bases c))
     = _GROUP_SCIM_SCHEMA_CACHE c.
Proof.
  revert c. induction bases as [|b bases IH]; intros c d0.
  - cbn [serve fst snd map]. destruct (_USER_SCIM_SCHEMA_CACHE c); rewrite app_nil_r; auto.
  - cbn [serve]. rewrite get_user_schema.
    match goal with |- context [serve _ _ bases ?c1] => specialize (IH c1); set (c' := c1) in * end.
    destruct (serve scim_attributes_of USER_SCHEMA_URN bases c') as [c2 rs] eqn:Hs.
    cbn [fst snd map] in *. cbn [_USER_SCIM_SCHEMA_CACHE default] in IH.
    destruct IH as [Hrs [Hder Hgrp]].
    split; [|split].
    + rewrite Hrs. f_equal.
      * f_equal. unfold d0. destruct (_USER_SCIM_SCHEMA_CACHE c); reflexivity.
      * apply map_ext. intros b'. f_equal.
        unfold d0. destruct (_USER_SCIM_SCHEMA_CACHE c); reflexivity.
    + rewrite Hder. unfold c'. cbn [derivations].
      rewrite app_nil_r. reflexivity.
    + rewrite Hgrp. reflexivity.
Qed.

Lemma serve_group (bases : list string) (c : Caches) (any : string) :
  let d0 := default (pydantic_schema_to_scim_schema scim_attributes_of SCIMGroupCls
                       GROUP_SCHEMA_URN "Group" "SCIM Group Schema" any)
                    (_GROUP_SCIM_SCHEMA_CACHE c) in
  snd (serve scim_attributes_of GROUP_SCHEMA_URN bases c)
  = map (fun b => inr (set_location d0 (schema_location_of b GROUP_SCHEMA_URN))) bases
  /\ derivations (fst (serve scim_attributes_of GROUP_SCHEMA_URN bases c))
     = derivations c ++ match _GROUP_SCIM_SCHEMA_CACHE c, bases with
                        | None, _ :: _ => [GROUP_SCHEMA_URN]
                        | _, _ => []
                        end
  /\ _USER_SCIM_SCHEMA_CACHE (fst (serve scim_attributes_of GROUP_SCHEMA_URN bases c))
     = _USER_SCIM_SCHEMA_CACHE c.
Proof.
  revert c. induction bases as [|b bases IH]; intros c d0.
  - cbn [serve fst snd map]. destruct (_GROUP_SCIM_SCHEMA_CACHE c); rewrite app_nil_r; auto.
  - cbn [serve]. rewrite get_group_schema.
    match goal with |- context [serve _ _ bases ?c1] => specialize (IH c1); set (c' := c1) in * end.
    destruct (serve scim_attributes_of GROUP_SCHEMA_URN bases c') as [c2 rs] eqn:Hs.
    cbn [fst snd map] in *. cbn [_GROUP_SCIM_SCHEMA_CACHE default] in IH.
    destruct IH as [Hrs [Hder Husr]].
    split; [|split].
    + rewrite Hrs. f_equal.
      * f_equal. unfold d0. destruct (_GROUP_SCIM_SCHEMA_CACHE c); reflexivity.
      * apply map_ext. intros b'. f_equal.
        unfold d0. destruct (_GROUP_SCIM_SCHEMA_CACHE c); reflexivity.
    + rewrite Hder. unfold c'. cbn [derivations].
      rewrite app_nil_r. reflexivity.
    + rewrite Husr. reflexivity.
Qed.

Lemma NoDup_snoc_fresh (l : list string) (x : string) :
  NoDup l -> x ∉ l -> NoDup (l ++ [x]).
Proof.
  intros Hnd Hx. apply NoDup_app. split; [exact Hnd|]. split; [|apply NoDup_singleton].
  intros y Hy Hy'. apply list_elem_of_singleton in Hy'. subst y. exact (Hx Hy).
Qed.

Lemma not_elem_of_snoc (l : list string) (x y : string) :
  x ∉ l -> x <> y -> x ∉ l ++ [y].
Proof.
  intros Hx Hne H. apply elem_of_app in H. destruct H as [H|H]; [exact (Hx H)|].
  apply list_elem_of_singleton in H. exact (Hne H).
Qed.

(** Every request keeps the log consistent with the caches. *)
Lemma consistent_after (r : Request) (c : Caches) :
  consistent c -> consistent (after scim_attributes_of r c).
Proof.
  intros (Hnd & Hu & Hg).
  assert (Hne : USER_SCHEMA_URN <> GROUP_SCHEMA_URN) by discriminate.
  assert (Hne' : GROUP_SCHEMA_URN <> USER_SCHEMA_URN) by discriminate.
  destruct r as [b|b id]; unfold after, get_schemas, get_schema_by_id, consistent.
  - destruct (_USER_SCIM_SCHEMA_CACHE c) eqn:Eu, (_GROUP_SCIM_SCHEMA_CACHE c) eqn:Eg;
      cbn [fst derivations _USER_SCIM_SCHEMA_CACHE _GROUP_SCIM_SCHEMA_CACHE];
      (split; [|split; intros; discriminate]).
    + exact Hnd.
    + apply NoDup_snoc_fresh; [exact Hnd | apply Hg; reflexivity].
    + apply NoDup_snoc_fresh; [exact Hnd | apply Hu; reflexivity].
    + apply NoDup_snoc_fresh.
      * apply NoDup_snoc_fresh; [exact Hnd | apply Hu; reflexivity].
      * apply not_elem_of_snoc; [apply Hg; reflexivity | exact Hne'].
  - destruct (String.eqb id USER_SCHEMA_URN).
    + destruct (_USER_SCIM_SCHEMA_CACHE c) eqn:Eu;
        cbn [fst derivations _USER_SCIM_SCHEMA_CACHE _GROUP_SCIM_SCHEMA_CACHE].
      * split; [exact Hnd|]. split; [intros; discriminate | exact Hg].
      * split; [|split; [intros; discriminate|]].
        -- apply NoDup_snoc_fresh; [exact Hnd | apply Hu; reflexivity].
        -- intros E. apply not_elem_of_snoc; [apply Hg; exact E | exact Hne'].
    + destruct (String.eqb id GROUP_SCHEMA_URN).
      * destruct (_GROUP_SCIM_SCHEMA_CACHE c) eqn:Eg;
          cbn [fst derivations _USER_SCIM_SCHEMA_CACHE _GROUP_SCIM_SCHEMA_CACHE].
        -- split; [exact Hnd|]. split; [exact Hu | intros; discriminate].
        -- split; [|split; [|intros; discriminate]].
           ++ apply NoDup_snoc_fresh; [exact Hnd | apply Hg; reflexivity].
           ++ intros E. apply not_elem_of_snoc; [apply Hu; exact E | exact Hne].
      * cbn [fst]. repeat split; assumption.
Qed.

Lemma consistent_after_all (rs : list Request) (c : Caches) :
  consistent c -> consistent (after_all scim_attributes_of rs c).
Proof.
  revert c. induction rs as [|r rs IH]; intros c Hc; [exact Hc|].
  unfold after_all. cbn [fold_left]. apply IH. apply consistent_after. exact Hc.
Qed.

Lemma consistent_at_start : consistent at_start.
Proof.
  unfold consistent, at_start. cbn [derivations].
  split; [apply NoDup_nil_2|]. split; intros _ H; apply elem_of_nil in H; exact H.
Qed.

End SchemaCache.

(** C9. Schema lookup by resource-type URN, from any state of the two
    caches and for any sequence of requests (one base URL each) with the
    same known URN: every request is answered with one and the same
    definition [d0] (the cached one if there was one, the derived one
    otherwise) whose [meta.location] has been rewritten from that
    request's base URL, so all answers carry identical attributes; the
    location of the answer to a request is the text of that request's
    base URL, /Schemas/ and the URN, with the scheme http when the base
    URL starts with http: and https otherwise, whatever the earlier
    requests were; the derivation runs once over the whole sequence if
    the cache was empty and never if it was filled; the other cache is
    untouched; repeating a lookup changes neither the answer nor the
    caches; over the life of a process, whatever requests reach the
    schema router (list or lookup, any id, any base URL), no schema is
    derived twice; and a lookup with an unknown URN fails with NotFound
    (404) and leaves the caches as they were. *)
Theorem C9_schema_lookup_is_cached
    (scim_attributes_of : ScimSchemas.ModelCls -> list ScimSchemas.SCIMSchemaAttribute)
    (c : ScimSchemas.Caches) (bases : list string) :
  (exists d0,
      ScimSchemas.attributes d0
      = match ScimSchemas._USER_SCIM_SCHEMA_CACHE c with
        | Some d => ScimSchemas.attributes d
        | None => scim_attributes_of ScimSchemas.SCIMUserCls
        end
      /\ snd (ScimSchemas.serve scim_attributes_of USER_SCHEMA_URN bases c)
         = map (fun b => inr (ScimSchemas.set_location d0
                                (ScimSchemas.schema_location_of b USER_SCHEMA_URN))) bases
      /\ ScimSchemas.derivations
           (fst (ScimSchemas.serve scim_attributes_of USER_SCHEMA_URN bases c))
         = ScimSchemas.derivations c
           ++ match ScimSchemas._USER_SCIM_SCHEMA_CACHE c, bases with
              | None, _ :: _ => [USER_SCHEMA_URN]
              | _, _ => []
              end
      /\ ScimSchemas._GROUP_SCIM_SCHEMA_CACHE
           (fst (ScimSchemas.serve scim_attributes_of USER_SCHEMA_URN bases c))
         = ScimSchemas._GROUP_SCIM_SCHEMA_CACHE c)
  /\ (exists d0,
         ScimSchemas.attributes d0
         = match ScimSchemas._GROUP_SCIM_SCHEMA_CACHE c with
           | Some d => ScimSchemas.attributes d
           | None => scim_attributes_of ScimSchemas.SCIMGroupCls
           end
         /\ snd (ScimSchemas.serve scim_attributes_of GROUP_SCHEMA_URN bases c)
            = map (fun b => inr (ScimSchemas.set_location d0
                                   (ScimSchemas.schema_location_of b GROUP_SCHEMA_URN)))
                  bases
         /\ ScimSchemas.derivations
              (fst (ScimSchemas.serve scim_attributes_of GROUP_SCHEMA_URN bases c))
            = ScimSchemas.derivations c
              ++ match ScimSchemas._GROUP_SCIM_SCHEMA_CACHE c, bases with
                 | None, _ :: _ => [GROUP_SCHEMA_URN]
                 | _, _ => []
                 end
         /\ ScimSchemas._USER_SCIM_SCHEMA_CACHE
              (fst (ScimSchemas.serve scim_attributes_of GROUP_SCHEMA_URN bases c))
            = ScimSchemas._USER_SCIM_SCHEMA_CACHE c)
  /\ (forall requests : list ScimSchemas.Request,
         NoDup (ScimSchemas.derivations
                  (ScimSchemas.after_all scim_attributes_of requests ScimSchemas.at_start)))
  /\ (forall (d : ScimSchemas.SCIMSchemaDefinition) (l : HttpUrl),
         ScimSchemas.attributes (ScimSchemas.set_location d l) = ScimSchemas.attributes d
         /\ ScimSchemas.schema_location
              (ScimSchemas.schema_meta (ScimSchemas.set_location d l)) = l)
  /\ (forall b schema_id : string,
         let r := ScimSchemas.get_schema_by_id scim_attributes_of b schema_id c in
         ScimSchemas.get_schema_by_id scim_attributes_of b schema_id (fst r) = r)
  /\ (forall b schema_id : string,
         schema_id <> USER_SCHEMA_URN -> schema_id <> GROUP_SCHEMA_URN ->
         ScimSchemas.get_schema_by_id scim_attributes_of b schema_id c
         = (c, inl SCIMNotFoundError)
         /\ status_code SCIMNotFoundError = 404)
  /\ (forall b urn : string,
         url (ScimSchemas.schema_location_of b urn)
         = String.append b (String.append "/Schemas/" urn)
         /\ scheme (ScimSchemas.schema_location_of b urn)
            = (if Py.startswith "http:" b then "http"%string else "https"%string))
  /\ map (seen (fun d =>
                  url (ScimSchemas.schema_location (ScimSchemas.schema_meta d))))
         (snd (ScimSchemas.serve scim_attributes_of USER_SCHEMA_URN bases c))
     = map (fun b =>
              inr (String.append b
                     (String.append "/Schemas/"
                        "urn:ietf:params:scim:schemas:core:2.0:User")))
           bases
  /\ map (seen (fun d =>
                  url (ScimSchemas.schema_location (ScimSchemas.schema_meta d))))
         (snd (ScimSchemas.serve scim_attributes_of GROUP_SCHEMA_URN bases c))
     = map (fun b =>
              inr (String.append b
                     (String.append "/Schemas/"
                        "urn:ietf:params:scim:schemas:core:2.0:Group")))
           bases.
Proof.
  split; [|split; [|split; [|split; [|split; [|split; [|split; [|split]]]]]]].
  - eexists. split; [|apply (serve_user scim_attributes_of bases c EmptyString)].
    destruct (ScimSchemas._USER_SCIM_SCHEMA_CACHE c); reflexivity.
  - eexists. split; [|apply (serve_group scim_attributes_of bases c EmptyString)].
    destruct (ScimSchemas._GROUP_SCIM_SCHEMA_CACHE c); reflexivity.
  - intros requests.
    apply (consistent_after_all scim_attributes_of requests ScimSchemas.at_start).
    apply consistent_at_start.
  - intros d l. split; reflexivity.
  - intros b schema_id r. subst r.
    destruct (String.eqb_spec schema_id USER_SCHEMA_URN) as [->|Hu].
    + rewrite !get_user_schema. cbn [fst ScimSchemas._USER_SCIM_SCHEMA_CACHE default
                                     ScimSchemas._GROUP_SCIM_SCHEMA_CACHE
                                     ScimSchemas.derivations].
      rewrite app_nil_r. reflexivity.
    + destruct (String.eqb_spec schema_id GROUP_SCHEMA_URN) as [->|Hg].
      * rewrite !get_group_schema. cbn [fst ScimSchemas._USER_SCIM_SCHEMA_CACHE default
                                        ScimSchemas._GROUP_SCIM_SCHEMA_CACHE
                                        ScimSchemas.derivations].
        rewrite app_nil_r. reflexivity.
      * unfold ScimSchemas.get_schema_by_id.
        destruct (String.eqb_spec schema_id USER_SCHEMA_URN); [contradiction|].
        destruct (String.eqb_spec schema_id GROUP_SCHEMA_URN); [contradiction|].
        reflexivity.
  - intros b schema_id Hu Hg. split; [|reflexivity].
    unfold ScimSchemas.get_schema_by_id.
    destruct (String.eqb_spec schema_id USER_SCHEMA_URN); [contradiction|].
    destruct (String.eqb_spec schema_id GROUP_SCHEMA_URN); [contradiction|].
    reflexivity.
  - intros b urn. unfold ScimSchemas.schema_location_of, make_url.
    destruct (Py.startswith "http:" b); split; reflexivity.
  - rewrite (proj1 (serve_user scim_attributes_of bases c EmptyString)).
    rewrite map_map. apply map_ext. intros b.
    unfold ScimSchemas.schema_location_of, make_url.
    destruct (Py.startswith "http:" b); reflexivity.
  - rewrite (proj1 (serve_group scim_attributes_of bases c EmptyString)).
    rewrite map_map. apply map_ext. intros b.
    unfold ScimSchemas.schema_location_of, make_url.
    destruct (Py.startswith "http:" b); reflexivity.
Qed.

Lemma C9_schema_lookup_is_cached_witness :
  map (seen (fun d =>
               (ScimSchemas.attributes d,
                ScimSchemas.schema_location (ScimSchemas.schema_meta d))))
      (snd (ScimSchemas.serve Samples.sample_attributes USER_SCHEMA_URN
              ["http://a.example/scim/v2"%string; "https://b.example/scim/v2"%string]
              ScimSchemas.at_start))
  = [inr (Samples.sample_attributes ScimSchemas.SCIMUserCls,
          mkUrl "http://a.example/scim/v2/Schemas/urn:ietf:params:scim:schemas:core:2.0:User"
                "http");
     inr (Samples.sample_attributes ScimSchemas.SCIMUserCls,
          mkUrl "https://b.example/scim/v2/Schemas/urn:ietf:params:scim:schemas:core:2.0:User"
                "https")]
  /\ ScimSchemas.derivations
       (fst (ScimSchemas.serve Samples.sample_attributes USER_SCHEMA_URN
               ["http://a.example/scim/v2"%string; "https://b.example/scim/v2"%string]
               ScimSchemas.at_start))
     = [USER_SCHEMA_URN].
Proof.
  destruct (C9_schema_lookup_is_cached Samples.sample_attributes ScimSchemas.at_start
              ["http://a.example/scim/v2"%string; "https://b.example/scim/v2"%string])
    as [[d0 [Hattr [Hserve [Hder _]]]] _].
  split; [|exact Hder].
  rewrite Hserve. cbn [map seen ScimSchemas.set_location ScimSchemas.attributes
                       ScimSchemas.schema_meta ScimSchemas.schema_location].
  rewrite Hattr. reflexivity.
Defined.

(** * Further properties of the code *)

(** ** Round trips of the resource mapper *)

Lemma resolve_name_of_wire_user (u : UserModel) (base : string) :
  resolve_name (user_to_scim_user u base)
  = if Py.truthy (u_name u) then u_name u else u_email u.
Proof.
  unfold resolve_name, user_to_scim_user.
  cbn [user_name user_displayName userName has_name_field get_name_field formatted
       givenName familyName Py.otruthy default].
  destruct (u_name u) as [|c rest]; reflexivity.
Qed.

Lemma db_dict_of_wire_user (u : UserModel) (base : string) :
  scim_user_to_db_dict (user_to_scim_user u base)
  = let d : gmap string string :=
      <["role"%string := Text.wire_role (u_role u)]>
        (<["name"%string := if Py.truthy (u_name u) then u_name u else u_email u]>
           (<["email"%string := u_email u]> ∅)) in
    if Py.truthy (u_id u) then <["id"%string := u_id u]> d else d.
Proof.
  unfold scim_user_to_db_dict. rewrite resolve_name_of_wire_user.
  unfold user_to_scim_user.
  cbn [active user_id user_externalId userName Py.otruthy default].
  unfold Text.wire_role.
  destruct (String.eqb (u_role u) "pending"); destruct (Py.truthy (u_id u)); reflexivity.
Qed.

(** Lookups in dictionaries built by successive insertions under
    literal keys. *)
Ltac dict_lookups :=
  repeat (rewrite lookup_insert_eq
          || (rewrite lookup_insert_ne by discriminate)
          || (rewrite lookup_delete_eq)
          || (rewrite lookup_delete_ne by discriminate)
          || rewrite lookup_empty).

(** X1. Mapping a stored user to the wire and back keeps the e-mail,
    keeps the name unless it is empty (then the e-mail takes its place),
    keeps the id, adds no external id, and keeps the role only up to
    active or not: "pending" stays "pending", every other role comes
    back as "user". So a user with a name and the role "user" or
    "pending" is left as it is by an update with that dictionary. *)
Theorem user_wire_round_trip (u : UserModel) (base : string) :
  let d := scim_user_to_db_dict (user_to_scim_user u base) in
  d !! "email"%string = Some (u_email u)
  /\ d !! "name"%string = Some (if Py.truthy (u_name u) then u_name u else u_email u)
  /\ d !! "role"%string
     = Some (if String.eqb (u_role u) "pending" then "pending"%string else "user"%string)
  /\ d !! "id"%string = (if Py.truthy (u_id u) then Some (u_id u) else None)
  /\ d !! "external_id"%string = None
  /\ (u_name u <> EmptyString ->
      u_role u = "user"%string \/ u_role u = "pending"%string ->
      Users.apply_fields d u = u).
Proof.
  intros d. subst d. rewrite db_dict_of_wire_user. cbn zeta.
  unfold Text.wire_role, Users.apply_fields.
  destruct (Py.truthy (u_id u)) eqn:Hid; dict_lookups;
    (repeat split; try reflexivity);
    intros Hn Hr; cbn [default];
    destruct u as [i e n r c m];
    cbn [u_id u_email u_name u_role u_created_at u_updated_at] in *;
    (destruct n; [congruence|]); cbn [Py.truthy];
    destruct Hr as [-> | ->]; reflexivity.
Qed.

(** ** Given and family names on the wire *)

Lemma split1_pieces (sep : ascii) (s : string) :
  (Py.split1 sep s = [s] /\ Text.free_of sep s)
  \/ (exists g f, Py.split1 sep s = [g; f]
                  /\ s = String.append g (String sep f)
                  /\ Text.free_of sep g).
Proof.
  induction s as [|c s IH].
  - left. split; [reflexivity|]. intros c [].
  - cbn [Py.split1]. destruct (Ascii.eqb_spec c sep) as [->|Hne].
    + right. exists EmptyString, s. repeat split. intros c [].
    + destruct IH as [[Hs Hfree] | [g [f [Hs [Heq Hfree]]]]].
      * left. rewrite Hs. split; [reflexivity|].
        intros d [<-|Hd]; [exact Hne | exact (Hfree d Hd)].
      * right. exists (String c g), f. rewrite Hs. split; [reflexivity|].
        split; [rewrite append_cons, <- Heq; reflexivity|].
        intros d [<-|Hd]; [exact Hne | exact (Hfree d Hd)].
Qed.

(** X2. On the wire, the given and family names derived from a stored
    name put the name back together: with no space in the name the given
    name is the whole name and there is no family name; otherwise the
    given name is the text before the first space (it holds no space) and
    given name, one space and family name spell the stored name. An
    empty stored name yields neither. *)
Theorem wire_names_spell_stored_name (u : UserModel) (base : string) :
  exists nm,
    user_name (user_to_scim_user u base) = Some nm
    /\ formatted nm = Some (u_name u)
    /\ (u_name u = EmptyString -> givenName nm = None /\ familyName nm = None)
    /\ (u_name u <> EmptyString ->
        exists g,
          givenName nm = Some g
          /\ Text.free_of " " g
          /\ match familyName nm with
             | Some f => u_name u = String.append g (String " " f)
             | None => u_name u = g
             end).
Proof.
  unfold user_to_scim_user. cbn [user_name]. eexists. split; [reflexivity|].
  cbn [formatted givenName familyName]. split; [reflexivity|]. split.
  - intros ->. split; reflexivity.
  - intros Hne. destruct (u_name u) as [|c rest] eqn:Hn; [congruence|].
    cbn [Py.truthy].
    destruct (split1_pieces " " (String c rest)) as [[Hs Hfree] | [g [f [Hs [Heq Hfree]]]]];
      rewrite Hs; cbn [length nth_error Nat.ltb Nat.leb].
    + exists (String c rest). repeat split. exact Hfree.
    + exists g. split; [reflexivity|]. split; [exact Hfree | exact Heq].
Qed.

(** ** Group members on the wire *)

Lemma find_snoc {A} (p : A -> bool) (l : list A) (a : A) :
  find p (l ++ [a])
  = match find p l with
    | Some x => Some x
    | None => if p a then Some a else None
    end.
Proof.
  induction l as [|x l IH]; simpl; [reflexivity|].
  destruct (p x); [reflexivity | exact IH].
Qed.

Lemma member_map_from (ms : list UserModel) (m : gmap string UserModel) (uid : string) :
  fold_left (fun m u => <[u_id u := u]> m) ms m !! uid
  = match find (fun u => String.eqb (u_id u) uid) (rev ms) with
    | Some u => Some u
    | None => m !! uid
    end.
Proof.
  revert m. induction ms as [|u ms IH]; intros m; [reflexivity|].
  cbn [fold_left rev]. rewrite IH, find_snoc.
  destruct (find (fun u0 => String.eqb (u_id u0) uid) (rev ms)); [reflexivity|].
  destruct (String.eqb_spec (u_id u) uid) as [<-|Hne].
  - apply lookup_insert_eq.
  - apply lookup_insert_ne. exact Hne.
Qed.

Lemma member_map_unknown (ms : list UserModel) (uid : string) :
  (forall u, In u ms -> u_id u <> uid) -> member_map ms !! uid = None.
Proof.
  intros H. unfold member_map. rewrite member_map_from.
  destruct (find (fun u => String.eqb (u_id u) uid) (rev ms)) as [u|] eqn:E;
    [|apply lookup_empty].
  apply find_some in E. destruct E as [Hin Heq].
  apply String.eqb_eq in Heq. exfalso. apply (H u); [|exact Heq].
  apply in_rev. exact Hin.
Qed.

Lemma member_map_known (ms : list UserModel) (u : UserModel) :
  In u ms -> (forall v, In v ms -> u_id v = u_id u -> v = u) ->
  member_map ms !! u_id u = Some u.
Proof.
  intros Hin Huniq. unfold member_map. rewrite member_map_from.
  destruct (find (fun v => String.eqb (u_id v) (u_id u)) (rev ms)) as [v|] eqn:E.
  - apply find_some in E. destruct E as [Hv Heq]. apply String.eqb_eq in Heq.
    f_equal. apply Huniq; [apply in_rev; exact Hv | exact Heq].
  - exfalso. apply in_rev in Hin.
    pose proof (find_none _ _ E u Hin) as Hf. cbv beta in Hf.
    rewrite String.eqb_refl in Hf. discriminate.
Qed.

(** X3. The wire form of a group lists one member per stored user id,
    in the stored order, repeated ids included: no id is dropped and none
    is added. Each member is typed "User" and carries no reference: the
    URL the code builds for it is passed under a keyword that names no
    field of the member class, so [ref] stays [None]. A member whose id
    matches none of the users supplied is displayed by its raw id; a
    member whose id matches exactly one record among the users supplied
    is displayed by that user's e-mail. *)
Theorem group_members_on_the_wire (g : GroupModel) (ms : list UserModel) (base : string) :
  exists l,
    members (group_to_scim_group g ms base) = Some l
    /\ map member_value l = g_user_ids g
    /\ (forall m, In m l ->
          member_type m = Some "User"%string /\ member_ref m = None)
    /\ (forall m, In m l ->
          (forall u, In u ms -> u_id u <> member_value m) ->
          member_display m = Some (member_value m))
    /\ (forall m u, In m l -> In u ms -> u_id u = member_value m ->
          (forall v, In v ms -> u_id v = u_id u -> v = u) ->
          member_display m = Some (u_email u)).
Proof.
  unfold group_to_scim_group. cbn [members]. eexists. split; [reflexivity|].
  split; [|split; [|split]].
  - rewrite map_map. cbn [member_value SCIMGroupMember_init]. apply map_id.
  - intros m Hm. apply in_map_iff in Hm. destruct Hm as [uid [<- _]].
    split; reflexivity.
  - intros m Hm Hnone. apply in_map_iff in Hm. destruct Hm as [uid [<- _]].
    cbn [member_display member_value SCIMGroupMember_init] in *.
    rewrite (member_map_unknown ms uid Hnone). reflexivity.
  - intros m u Hm Hu Hid Huniq. apply in_map_iff in Hm. destruct Hm as [uid [<- _]].
    cbn [member_display member_value SCIMGroupMember_init] in *. subst uid.
    rewrite (member_map_known ms u Hu Huniq). reflexivity.
Qed.

(** ** The base URL *)

Lemma last_char_snoc (c : ascii) (s : string) :
  ScimUtilsRest.last_char s = Some c ->
  exists s', s = String.append s' (String c EmptyString).
Proof.
  induction s as [|a s IH]; [discriminate|].
  destruct s as [|b s].
  - intros [= ->]. exists EmptyString. reflexivity.
  - intros H. destruct (IH H) as [s' Hs'].
    exists (String a s'). rewrite append_cons, <- Hs'. reflexivity.
Qed.

Lemma append_assoc (a b c : string) :
  String.append (String.append a b) c = String.append a (String.append b c).
Proof.
  induction a as [|x a IH]; [reflexivity|].
  rewrite !append_cons, IH. reflexivity.
Qed.

Lemma last_char_append_one (c : ascii) (s : string) :
  ScimUtilsRest.last_char (String.append s (String c EmptyString)) = Some c.
Proof.
  induction s as [|a s IH]; [reflexivity|].
  rewrite append_cons. cbn [ScimUtilsRest.last_char].
  destruct (String.append s (String c EmptyString)) eqn:E; [|exact IH].
  destruct s; discriminate.
Qed.

(** X4. The SCIM base URL is the request's scheme, "://", its network
    location, the application's root path, one slash and "scim/v2",
    where a root path that already ends with a slash gets no second
    one. So a root path without a trailing slash and the same root path
    with one give the same URL ("/api" and "/api/"), and the empty root
    path gives "/scim/v2" right after the network location. Every
    location built on the base URL of an http request has the scheme
    "http", and of an https request the scheme "https". *)
Theorem base_url_shape (request : ScimUtilsRest.HttpRequest) :
  let prefix := fun rest =>
    String.append (ScimUtilsRest.url_scheme request)
      (String.append "://" (String.append (ScimUtilsRest.url_netloc request) rest)) in
  (ScimUtilsRest.endswith_char "/" (ScimUtilsRest.root_path request) = false ->
   ScimUtilsRest.get_scim_base_url request
   = prefix (String.append (ScimUtilsRest.root_path request) "/scim/v2"))
  /\ (forall root,
        ScimUtilsRest.root_path request = String.append root "/" ->
        ScimUtilsRest.get_scim_base_url request = prefix (String.append root "/scim/v2"))
  /\ (ScimUtilsRest.root_path request = EmptyString ->
      ScimUtilsRest.get_scim_base_url request = prefix "/scim/v2")
  /\ (forall root,
        ScimUtilsRest.root_path request = String.append root "/" ->
        ScimUtilsRest.endswith_char "/" root = false ->
        ScimUtilsRest.get_scim_base_url request
        = ScimUtilsRest.get_scim_base_url
            (ScimUtilsRest.mkRequest (ScimUtilsRest.url_scheme request)
               (ScimUtilsRest.url_netloc request) root))
  /\ (ScimUtilsRest.url_scheme request = "http"%string ->
      forall text, scheme (make_url (ScimUtilsRest.get_scim_base_url request) text)
                   = "http"%string)
  /\ (ScimUtilsRest.url_scheme request = "https"%string ->
      forall text, scheme (make_url (ScimUtilsRest.get_scim_base_url request) text)
                   = "https"%string).
Proof.
  intros prefix.
  assert (Hplain : ScimUtilsRest.endswith_char "/" (ScimUtilsRest.root_path request) = false ->
                   ScimUtilsRest.get_scim_base_url request
                   = prefix (String.append (ScimUtilsRest.root_path request) "/scim/v2")).
  { intros Hend. unfold ScimUtilsRest.get_scim_base_url. rewrite Hend.
    rewrite append_assoc. reflexivity. }
  assert (Hslash : forall root,
             ScimUtilsRest.root_path request = String.append root "/" ->
             ScimUtilsRest.get_scim_base_url request
             = prefix (String.append root "/scim/v2")).
  { intros root Hroot. unfold ScimUtilsRest.get_scim_base_url, ScimUtilsRest.endswith_char.
    rewrite Hroot, last_char_append_one. cbn [Ascii.eqb Bool.eqb andb].
    rewrite append_assoc. reflexivity. }
  split; [exact Hplain|]. split; [exact Hslash|].
  split; [|split; [|split]].
  - intros Hempty. rewrite Hplain by (rewrite Hempty; reflexivity).
    rewrite Hempty. reflexivity.
  - intros root Hroot Hend. rewrite (Hslash root Hroot).
    unfold ScimUtilsRest.get_scim_base_url.
    cbn [ScimUtilsRest.root_path ScimUtilsRest.url_scheme ScimUtilsRest.url_netloc].
    rewrite Hend, append_assoc. reflexivity.
  - intros Hs text. unfold ScimUtilsRest.get_scim_base_url. rewrite Hs. reflexivity.
  - intros Hs text. unfold ScimUtilsRest.get_scim_base_url. rewrite Hs. reflexivity.
Qed.

(** ** PATCH on a user, as a whole *)

Lemma patch_user_op_reads_only (uid : string) (u : UserModel) (upd : gmap string string)
    (o : SCIMPatchOp) (st : Store) :
  fst (ScimUsers.patch_user_op uid u upd o st) = st.
Proof.
  unfold ScimUsers.patch_user_op.
  repeat match goal with
         | |- fst ((if ?c then _ else _) _) = _ => destruct c
         | |- fst ((_ ≫= _) _) = _ => apply bind_reads_only; [|intros]
         | |- fst (match ?x with _ => _ end _) = _ => destruct x
         | |- _ => reflexivity
         end.
Qed.

Lemma user_loop_result (uid : string) (u : UserModel) (ops : list SCIMPatchOp)
    (upd : gmap string string) (st : Store) :
  for_each (ScimUsers.patch_user_op uid u) ops upd st
  = (st, snd (for_each (ScimUsers.patch_user_op uid u) ops upd st)).
Proof.
  pose proof (for_each_reads_only (ScimUsers.patch_user_op uid u) ops
                (patch_user_op_reads_only uid u) upd st) as H.
  destruct (for_each (ScimUsers.patch_user_op uid u) ops upd st) as [st1 r].
  simpl in *. congruence.
Qed.

(** What [patch_user] does, by cases on the lookup and on the loop. *)
Lemma patch_user_cases (base uid : string) (req : SCIMPatchRequest) (st : Store) :
  ScimUsers.patch_user base req uid st
  = match find (fun x => String.eqb (u_id x) uid) (users st) with
    | None => (st, inl SCIMNotFoundError)
    | Some u =>
        match snd (for_each (ScimUsers.patch_user_op uid u) (Operations req) ∅ st) with
        | inl e => (st, inl e)
        | inr upd =>
            if nonempty upd
            then (fst (Users.update_user_by_id uid upd st),
                  inr (user_to_scim_user (Users.apply_fields upd u) base))
            else (st, inr (user_to_scim_user u base))
        end
    end.
Proof.
  unfold ScimUsers.patch_user.
  destruct (find (fun x => String.eqb (u_id x) uid) (users st)) as [u|] eqn:Hf.
  - rewrite (bind_run _ _ st st (Some u))
      by (unfold Users.get_user_by_id; rewrite Hf; reflexivity).
    pose proof (user_loop_result uid u (Operations req) ∅ st) as Hl.
    destruct (snd (for_each (ScimUsers.patch_user_op uid u) (Operations req) ∅ st))
      as [e|upd].
    + apply bind_fail. exact Hl.
    + rewrite (bind_run _ _ st st upd Hl).
      destruct (nonempty upd).
      * destruct (update_user_run uid upd u st Hf) as [st' [Hupd [_ [_ Hfind]]]].
        rewrite Hupd. cbn [fst].
        assert (Hwrite : (Users.update_user_by_id uid upd
                          ≫= λ updated_model : option UserModel,
                               match updated_model with
                               | Some _ => mret ()
                               | None => raise SCIMInternalServerError
                               end) st = (st', inr ())).
        { rewrite (bind_run _ _ st st' _ Hupd). reflexivity. }
        rewrite (bind_run _ _ st st' _ Hwrite).
        rewrite (bind_run _ _ st' st' (Some (Users.apply_fields upd u)))
          by (unfold Users.get_user_by_id; rewrite Hfind; reflexivity).
        reflexivity.
      * rewrite bind_ret_l.
        rewrite (bind_run _ _ st st (Some u))
          by (unfold Users.get_user_by_id; rewrite Hf; reflexivity).
        reflexivity.
  - rewrite (bind_run _ _ st st None)
      by (unfold Users.get_user_by_id; rewrite Hf; reflexivity).
    reflexivity.
Qed.

(** X5. A PATCH request on a user that fails, whatever the reason
    (unknown user, unsupported operation or path, wrong value type,
    user name taken), leaves the store exactly as it was: no operation
    of the request is applied, not even those before the failing one. *)
Theorem failed_user_patch_changes_nothing (base uid : string) (req : SCIMPatchRequest)
    (st st' : Store) (e : SCIMException) :
  ScimUsers.patch_user base req uid st = (st', inl e) ->
  st' = st.
Proof.
  rewrite patch_user_cases.
  destruct (find (fun x => String.eqb (u_id x) uid) (users st)) as [u|];
    [|intros [= <- _]; reflexivity].
  destruct (snd (for_each (ScimUsers.patch_user_op uid u) (Operations req) ∅ st))
    as [e'|upd]; [intros [= <- _]; reflexivity|].
  destruct (nonempty upd); intros [= ]; congruence.
Qed.

Lemma failed_user_patch_changes_nothing_witness :
  ScimUsers.patch_user Fixtures.base_url
    (mkPatch [PATCH_OP_URN]
       [mkOp "replace" (Some "active"%string) (Py.VBool false);
        mkOp "add" (Some "displayName"%string) (Py.VStr "New Name")])
    "user-1" Fixtures.store0
  = (Fixtures.store0, inl SCIMNotImplementedError)
  /\ Fixtures.store0 = Fixtures.store0.
Proof.
  assert (H : ScimUsers.patch_user Fixtures.base_url
                (mkPatch [PATCH_OP_URN]
                   [mkOp "replace" (Some "active"%string) (Py.VBool false);
                    mkOp "add" (Some "displayName"%string) (Py.VStr "New Name")])
                "user-1" Fixtures.store0
              = (Fixtures.store0, inl SCIMNotImplementedError))
    by (vm_compute; reflexivity).
  split; [exact H|].
  exact (failed_user_patch_changes_nothing _ _ _ _ _ _ H).
Defined.

(** X6. Whatever a successful PATCH on a user returns is what a GET of
    that user returns right after it, on the store the PATCH left. *)
Theorem get_after_user_patch (base uid : string) (req : SCIMPatchRequest)
    (st st' : Store) (resp : SCIMUser) :
  ScimUsers.patch_user base req uid st = (st', inr resp) ->
  ScimUsersRest.get_user_by_id base uid None None st' = (st', inr resp).
Proof.
  rewrite patch_user_cases.
  destruct (find (fun x => String.eqb (u_id x) uid) (users st)) as [u|] eqn:Hf;
    [|discriminate].
  destruct (snd (for_each (ScimUsers.patch_user_op uid u) (Operations req) ∅ st))
    as [e'|upd]; [discriminate|].
  destruct (nonempty upd).
  - destruct (update_user_run uid upd u st Hf) as [st2 [Hupd [_ [_ Hfind]]]].
    rewrite Hupd. cbn [fst]. intros [= <- <-].
    unfold ScimUsersRest.get_user_by_id. cbn [Py.otruthy orb].
    rewrite (bind_run _ _ st2 st2 (Some (Users.apply_fields upd u)))
      by (unfold Users.get_user_by_id; rewrite Hfind; reflexivity).
    reflexivity.
  - intros [= <- <-].
    unfold ScimUsersRest.get_user_by_id. cbn [Py.otruthy orb].
    rewrite (bind_run _ _ st st (Some u))
      by (unfold Users.get_user_by_id; rewrite Hf; reflexivity).
    reflexivity.
Qed.

Lemma get_after_user_patch_witness :
  exists st',
    ScimUsers.patch_user Fixtures.base_url Fixtures.patch_activate "user-2" Fixtures.store0
    = (st', inr (user_to_scim_user
                   (mkUser "user-2" "user2@example.com" "User Two" "user"
                           (TsNumber 1670000000) (TsNumber 1670000000))
                   Fixtures.base_url))
    /\ ScimUsersRest.get_user_by_id Fixtures.base_url "user-2" None None st'
       = (st', inr (user_to_scim_user
                      (mkUser "user-2" "user2@example.com" "User Two" "user"
                              (TsNumber 1670000000) (TsNumber 1670000000))
                      Fixtures.base_url)).
Proof.
  eexists.
  assert (H : ScimUsers.patch_user Fixtures.base_url Fixtures.patch_activate "user-2"
                Fixtures.store0
              = (fst (ScimUsers.patch_user Fixtures.base_url Fixtures.patch_activate "user-2"
                        Fixtures.store0),
                 inr (user_to_scim_user
                        (mkUser "user-2" "user2@example.com" "User Two" "user"
                                (TsNumber 1670000000) (TsNumber 1670000000))
                        Fixtures.base_url)))
    by (vm_compute; reflexivity).
  split; [exact H|].
  exact (get_after_user_patch _ _ _ _ _ _ H).
Defined.

(** ** PATCH on a user keeps e-mails apart *)

Lemma same_key_same_record {A} (key : A -> string) (l : list A) (x y : A) :
  NoDup (map key l) -> In x l -> In y l -> key x = key y -> x = y.
Proof.
  induction l as [|a l IH]; intros Hnd Hx Hy Hk; [destruct Hx|].
  cbn [map] in Hnd. apply NoDup_cons in Hnd. destruct Hnd as [Ha Hnd].
  rewrite list_elem_of_In in Ha.
  destruct Hx as [<-|Hx], Hy as [<-|Hy]; try reflexivity.
  - exfalso. apply Ha. rewrite Hk. apply in_map. exact Hy.
  - exfalso. apply Ha. rewrite <- Hk. apply in_map. exact Hx.
  - apply IH; assumption.
Qed.

Lemma find_by_key_In {A} (key : A -> string) (k : string) (l : list A) (a : A) :
  find (fun x => String.eqb (key x) k) l = Some a -> In a l /\ key a = k.
Proof.
  intros H. apply find_some in H. destruct H as [Hin Heq].
  split; [exact Hin | apply String.eqb_eq; exact Heq].
Qed.

Lemma map_update_absent {A} (key : A -> string) (f : A -> A) (k : string) (l : list A) :
  (forall x, In x l -> key x <> k) ->
  map (fun x => if String.eqb (key x) k then f x else x) l = l.
Proof.
  induction l as [|a l IH]; intros H; [reflexivity|].
  cbn [map]. destruct (String.eqb_spec (key a) k) as [E|_].
  - exfalso. apply (H a); [left; reflexivity | exact E].
  - f_equal. apply IH. intros x Hx. apply H. right. exact Hx.
Qed.

(** Updating the one record under a key keeps the e-mails apart when
    the new e-mail is the old one or is held by nobody. *)
Lemma update_keeps_emails_apart (f : UserModel -> UserModel) (uid : string)
    (l : list UserModel) (u : UserModel) :
  NoDup (map u_id l) -> NoDup (map u_email l) ->
  find (fun x => String.eqb (u_id x) uid) l = Some u ->
  (u_email (f u) = u_email u \/ ~ In (u_email (f u)) (map u_email l)) ->
  NoDup (map u_email (map (fun x => if String.eqb (u_id x) uid then f x else x) l)).
Proof.
  induction l as [|a l IH]; intros Hid Hmail Hf Hnew; [constructor|].
  cbn [map] in *. apply NoDup_cons in Hid. destruct Hid as [Hai Hid].
  apply NoDup_cons in Hmail. destruct Hmail as [Ham Hmail].
  rewrite list_elem_of_In in Hai, Ham.
  cbn [find] in Hf. destruct (String.eqb_spec (u_id a) uid) as [E|E].
  - injection Hf as <-.
    rewrite map_update_absent.
    + apply NoDup_cons. split; [|exact Hmail]. rewrite list_elem_of_In.
      destruct Hnew as [-> | Hfresh]; [exact Ham|].
      intros Hin. apply Hfresh. right. exact Hin.
    + intros x Hx Hk. apply Hai. rewrite E, <- Hk. apply in_map. exact Hx.
  - apply NoDup_cons. split.
    + rewrite list_elem_of_In.
      intros Hin. apply in_map_iff in Hin. destruct Hin as [y [Hy Hyin]].
      apply in_map_iff in Hyin. destruct Hyin as [x [<- Hx]].
      destruct (String.eqb_spec (u_id x) uid) as [Ex|Ex].
      * assert (Hxu : x = u).
        { destruct (find_by_key_In u_id uid l u Hf) as [Hu Huk].
          apply (same_key_same_record u_id l); try assumption. congruence. }
        subst x. destruct Hnew as [Hsame | Hfresh].
        -- apply Ham. rewrite <- Hy, Hsame. apply in_map. exact Hx.
        -- apply Hfresh. left. symmetry. exact Hy.
      * apply Ham. rewrite <- Hy. apply in_map. exact Hx.
    + apply IH; try assumption.
      destruct Hnew as [Hsame | Hfresh]; [left; exact Hsame|].
      right. intros Hin. apply Hfresh. right. exact Hin.
Qed.

(** The e-mail staged by a turn of the loop of [patch_user], if it is
    not the one staged before, was looked up in the store and found free
    or held by a record with the user's own id. *)
Lemma user_op_stages_checked_email (uid : string) (u : UserModel)
    (upd upd' : gmap string string) (o : SCIMPatchOp) (st : Store) :
  snd (ScimUsers.patch_user_op uid u upd o st) = inr upd' ->
  upd' !! "email"%string = upd !! "email"%string
  \/ exists v, upd' !! "email"%string = Some v
               /\ forall e, find (fun x => String.eqb (u_email x) v) (users st) = Some e ->
                            u_id e = uid.
Proof.
  unfold ScimUsers.patch_user_op.
  destruct (String.eqb (Py.lower (op o)) "replace"); [|discriminate].
  destruct (path_is "active" (path o)).
  { destruct (value o); try discriminate.
    intros [= <-]. left. apply lookup_insert_ne. discriminate. }
  destruct (path_is "username" (path o)); [|discriminate].
  destruct (value o) as [| | |v| |]; try discriminate.
  destruct (negb (String.eqb v (u_email u))).
  - unfold mbind, handler_bind, Db.bind, Users.get_user_by_email.
    destruct (find (fun x => String.eqb (u_email x) v) (users st)) as [e|] eqn:Hfind.
    + destruct (String.eqb_spec (u_id e) uid) as [Eid|Eid]; cbn [negb]; [|discriminate].
      intros [= <-]. right. exists v. split; [apply lookup_insert_eq|].
      intros e' He'. rewrite Hfind in He'. injection He' as He'. subst e'. exact Eid.
    + intros [= <-]. right. exists v. split; [apply lookup_insert_eq|].
      intros e' He'. rewrite Hfind in He'. discriminate.
  - intros [= <-]. left. reflexivity.
Qed.

Lemma user_loop_stages_checked_email (uid : string) (u : UserModel)
    (ops : list SCIMPatchOp) (upd upd' : gmap string string) (st : Store) :
  (forall v, upd !! "email"%string = Some v ->
             forall e, find (fun x => String.eqb (u_email x) v) (users st) = Some e ->
                       u_id e = uid) ->
  snd (for_each (ScimUsers.patch_user_op uid u) ops upd st) = inr upd' ->
  forall v, upd' !! "email"%string = Some v ->
            forall e, find (fun x => String.eqb (u_email x) v) (users st) = Some e ->
                      u_id e = uid.
Proof.
  revert upd. induction ops as [|o ops IH]; intros upd Hinv.
  - cbn [for_each]. intros [= <-]. exact Hinv.
  - cbn [for_each]. unfold mbind, handler_bind, Db.bind.
    pose proof (patch_user_op_reads_only uid u upd o st) as Hst.
    pose proof (user_op_stages_checked_email uid u upd) as Hop.
    destruct (ScimUsers.patch_user_op uid u upd o st) as [st1 [e|upd1]] eqn:E;
      cbn [fst snd] in *; [discriminate|]. subst st1.
    apply IH. intros v Hv.
    destruct (Hop upd1 o st) as [Hsame | [w [Hw Hchecked]]].
    + rewrite E. reflexivity.
    + rewrite Hsame in Hv. exact (Hinv v Hv).
    + rewrite Hw in Hv. injection Hv as <-. exact Hchecked.
Qed.

Lemma users_after_update (uid : string) (upd : gmap string string) (u : UserModel)
    (st : Store) :
  find (fun x => String.eqb (u_id x) uid) (users st) = Some u ->
  users (fst (Users.update_user_by_id uid upd st))
  = map (fun x => if String.eqb (u_id x) uid then Users.apply_fields upd x else x) (users st).
Proof.
  intros Hf. unfold Users.update_user_by_id. rewrite Hf. reflexivity.
Qed.

Lemma ids_after_update (uid : string) (upd : gmap string string) (l : list UserModel) :
  map u_id (map (fun x => if String.eqb (u_id x) uid then Users.apply_fields upd x else x) l)
  = map u_id l.
Proof.
  rewrite map_map. apply map_ext. intros x.
  destruct (String.eqb (u_id x) uid); reflexivity.
Qed.

(** X7. PATCH on a user never makes two users share an e-mail: on a
    store whose users have pairwise different ids and pairwise different
    e-mails, whatever the request and whatever its outcome, the users
    still have pairwise different e-mails afterwards, and the ids are
    the same in the same order. *)
Theorem user_patch_keeps_emails_apart (base uid : string) (req : SCIMPatchRequest)
    (st st' : Store) (r : SCIMException + SCIMUser) :
  NoDup (map u_id (users st)) ->
  NoDup (map u_email (users st)) ->
  ScimUsers.patch_user base req uid st = (st', r) ->
  NoDup (map u_email (users st')) /\ map u_id (users st') = map u_id (users st).
Proof.
  intros Hid Hmail. rewrite patch_user_cases.
  destruct (find (fun x => String.eqb (u_id x) uid) (users st)) as [u|] eqn:Hf;
    [|intros [= <- _]; split; [exact Hmail | reflexivity]].
  destruct (snd (for_each (ScimUsers.patch_user_op uid u) (Operations req) ∅ st))
    as [e|upd] eqn:Hloop; [intros [= <- _]; split; [exact Hmail | reflexivity]|].
  destruct (nonempty upd); [|intros [= <- _]; split; [exact Hmail | reflexivity]].
  intros [= <- _]. rewrite (users_after_update uid upd u st Hf).
  split; [|apply ids_after_update].
  apply (update_keeps_emails_apart (Users.apply_fields upd) uid (users st) u Hid Hmail Hf).
  unfold Users.apply_fields. cbn [u_email].
  destruct (upd !! "email"%string) as [v|] eqn:Hv; cbn [default]; [|left; reflexivity].
  destruct (in_dec string_dec v (map u_email (users st))) as [Hin|Hout];
    [left | right; exact Hout].
  apply in_map_iff in Hin. destruct Hin as [y [Hy Hyin]].
  destruct (find_some_of_In (fun x => String.eqb (u_email x) v) (users st) y Hyin)
    as [e He].
  { rewrite Hy. apply String.eqb_refl. }
  assert (Hchecked : u_id e = uid).
  { apply (user_loop_stages_checked_email uid u (Operations req) ∅ upd st) with (v := v);
      try assumption.
    intros w Hw. rewrite lookup_empty in Hw. discriminate. }
  destruct (find_by_key_In u_email v (users st) e He) as [Hein Hemail].
  destruct (find_by_key_In u_id uid (users st) u Hf) as [Huin Huid].
  assert (e = u) by (apply (same_key_same_record u_id (users st)); congruence).
  subst e. symmetry. exact Hemail.
Qed.

Lemma user_patch_keeps_emails_apart_witness :
  NoDup (map u_id (users Fixtures.store0))
  /\ NoDup (map u_email (users Fixtures.store0))
  /\ exists st' r,
       ScimUsers.patch_user Fixtures.base_url Samples.patch_new_mail "user-2" Fixtures.store0
       = (st', r)
       /\ map u_email (users st')
          = ["user1@example.com"%string; "one@example.com"%string;
             "admin@example.com"%string]
       /\ NoDup (map u_email (users st')).
Proof.
  assert (Hid : NoDup (map u_id (users Fixtures.store0))).
  { cbn. repeat (apply NoDup_cons; split; [rewrite list_elem_of_In; cbn; intuition discriminate|]).
    constructor. }
  assert (Hmail : NoDup (map u_email (users Fixtures.store0))).
  { cbn. repeat (apply NoDup_cons; split; [rewrite list_elem_of_In; cbn; intuition discriminate|]).
    constructor. }
  split; [exact Hid|]. split; [exact Hmail|].
  eexists. eexists.
  assert (H : ScimUsers.patch_user Fixtures.base_url Samples.patch_new_mail "user-2"
                Fixtures.store0
              = (fst (ScimUsers.patch_user Fixtures.base_url Samples.patch_new_mail "user-2"
                        Fixtures.store0),
                 snd (ScimUsers.patch_user Fixtures.base_url Samples.patch_new_mail "user-2"
                        Fixtures.store0)))
    by apply surjective_pairing.
  split; [exact H|]. split; [vm_compute; reflexivity|].
  exact (proj1 (user_patch_keeps_emails_apart _ _ _ _ _ _ Hid Hmail H)).
Defined.

(** ** PUT on a user *)

(** The e-mail check of a PUT or a PATCH: it only reads the store. *)
Lemma email_check_run (uid new_email : string) (st : Store) :
  (existing ← Users.get_user_by_email new_email;
   match existing with
   | Some e =>
       if negb (String.eqb (u_id e) uid) then raise SCIMConflictError
       else mret tt
   | None => mret tt
   end) st
  = if match find (fun x => String.eqb (u_email x) new_email) (users st) with
       | Some e => negb (String.eqb (u_id e) uid)
       | None => false
       end
    then (st, inl SCIMConflictError) else (st, inr tt).
Proof.
  unfold mbind, handler_bind, Db.bind, Users.get_user_by_email.
  destruct (find (fun x => String.eqb (u_email x) new_email) (users st)) as [e|];
    [destruct (negb (String.eqb (u_id e) uid))|]; reflexivity.
Qed.

(** What [replace_user] does, by cases on its checks. *)
Lemma replace_user_cases (base uid : string) (payload : SCIMUser) (st : Store) :
  ScimUsersRest.replace_user base payload uid st
  = if (Py.truthy (user_id payload) && negb (String.eqb (user_id payload) uid))%bool
    then (st, inl SCIMBadRequestError)
    else
      match find (fun x => String.eqb (u_id x) uid) (users st) with
      | None => (st, inl SCIMNotFoundError)
      | Some u =>
          if (negb (String.eqb (userName payload) (u_email u))
              && match find (fun x => String.eqb (u_email x) (userName payload)) (users st) with
                 | Some e => negb (String.eqb (u_id e) uid)
                 | None => false
                 end)%bool
          then (st, inl SCIMConflictError)
          else
            let d := delete "id"%string (scim_user_to_db_dict payload) in
            (fst (Users.update_user_by_id uid d st),
             inr (user_to_scim_user (Users.apply_fields d u) base))
      end.
Proof.
  unfold ScimUsersRest.replace_user.
  destruct (Py.truthy (user_id payload) && negb (String.eqb (user_id payload) uid))%bool;
    [reflexivity|].
  destruct (find (fun x => String.eqb (u_id x) uid) (users st)) as [u|] eqn:Hf.
  - rewrite (bind_run _ _ st st (Some u))
      by (unfold Users.get_user_by_id; rewrite Hf; reflexivity).
    destruct (update_user_run uid (delete "id"%string (scim_user_to_db_dict payload))
                u st Hf) as [st' [Hupd _]].
    assert (Hrest : forall k : Handler unit, k st = (st, inr tt) ->
      (_ ← k;
       updated_user ← Users.update_user_by_id uid
                        (delete "id"%string (scim_user_to_db_dict payload));
       updated_user ←
         match updated_user with
         | Some u => mret u
         | None =>
             refetched ← Users.get_user_by_id uid;
             match refetched with
             | Some u => mret u
             | None => raise SCIMInternalServerError
             end
         end;
       _ ← (if Py.otruthy (password payload) then
              _ ← Credentials.update_user_password_by_id uid;
              mret tt
            else mret tt);
       mret (user_to_scim_user updated_user base)) st
      = (fst (Users.update_user_by_id uid
                (delete "id"%string (scim_user_to_db_dict payload)) st),
         inr (user_to_scim_user
                (Users.apply_fields (delete "id"%string (scim_user_to_db_dict payload)) u)
                base))).
    { intros k Hk. rewrite (bind_run _ _ st st tt Hk).
      rewrite (bind_run _ _ st st' _ Hupd). rewrite Hupd. cbn [fst].
      rewrite bind_ret_l.
      unfold mbind, handler_bind, Db.bind, mret, handler_ret, Db.ret,
        Credentials.update_user_password_by_id.
      destruct (Py.otruthy (password payload)); reflexivity. }
    destruct (negb (String.eqb (userName payload) (u_email u))) eqn:Hchg; cbn [andb].
    + destruct (match find (fun x => String.eqb (u_email x) (userName payload)) (users st) with
                | Some e => negb (String.eqb (u_id e) uid)
                | None => false
                end) eqn:Hc.
      * apply bind_fail. rewrite email_check_run, Hc. reflexivity.
      * apply Hrest. rewrite email_check_run, Hc. reflexivity.
    + apply Hrest. reflexivity.
  - rewrite (bind_run _ _ st st None)
      by (unfold Users.get_user_by_id; rewrite Hf; reflexivity).
    reflexivity.
Qed.

(** The dictionary a PUT on a user hands to the store. *)
Lemma user_put_dict (payload : SCIMUser) :
  let d := delete "id"%string (scim_user_to_db_dict payload) in
  d !! "id"%string = None
  /\ d !! "email"%string = Some (userName payload)
  /\ d !! "name"%string = Some (resolve_name payload)
  /\ d !! "role"%string
     = Some (if default false (active payload) then "user"%string else "pending"%string).
Proof.
  cbn zeta. unfold scim_user_to_db_dict.
  destruct (Py.truthy (user_id payload)), (Py.otruthy (user_externalId payload));
    dict_lookups; repeat split; reflexivity.
Qed.

(** X8. A PUT on a user that fails leaves the store exactly as it was,
    and fails for one of three reasons: the payload carries an id other
    than the one in the path (BadRequest, raised before the user is
    looked up, so also for an unknown user), the user is unknown
    (NotFound), or the new userName is the e-mail of another user
    (Conflict). *)
Theorem failed_user_put_changes_nothing (base uid : string) (payload : SCIMUser)
    (st st' : Store) (e : SCIMException) :
  ScimUsersRest.replace_user base payload uid st = (st', inl e) ->
  st' = st
  /\ (e = SCIMBadRequestError \/ e = SCIMNotFoundError \/ e = SCIMConflictError)
  /\ (user_id payload <> EmptyString -> user_id payload <> uid ->
      e = SCIMBadRequestError)
  /\ (e = SCIMNotFoundError <->
      (user_id payload = EmptyString \/ user_id payload = uid)
      /\ find (fun x => String.eqb (u_id x) uid) (users st) = None).
Proof.
  rewrite replace_user_cases.
  assert (Hid : (Py.truthy (user_id payload) && negb (String.eqb (user_id payload) uid))%bool
                = false
                <-> user_id payload = EmptyString \/ user_id payload = uid).
  { destruct (user_id payload) as [|c s]; cbn [Py.truthy andb].
    - split; [left; reflexivity | reflexivity].
    - destruct (String.eqb_spec (String c s) uid) as [E|E]; cbn [negb].
      + split; [right; exact E | reflexivity].
      + split; [discriminate | intros [H|H]; [discriminate | contradiction]]. }
  destruct (Py.truthy (user_id payload) && negb (String.eqb (user_id payload) uid))%bool.
  - intros [= <- <-]. split; [reflexivity|]. split; [left; reflexivity|].
    split; [reflexivity|]. split; [discriminate|].
    intros [H _]. apply Hid in H. discriminate.
  - assert (Hok : user_id payload = EmptyString \/ user_id payload = uid)
      by (apply Hid; reflexivity).
    destruct (find (fun x => String.eqb (u_id x) uid) (users st)) as [u|].
    + destruct (negb (String.eqb (userName payload) (u_email u))
                && match find (fun x => String.eqb (u_email x) (userName payload)) (users st) with
                   | Some e0 => negb (String.eqb (u_id e0) uid)
                   | None => false
                   end)%bool; [|discriminate].
      intros [= <- <-]. split; [reflexivity|]. split; [right; right; reflexivity|].
      split; [intros H1 H2; destruct Hok; contradiction|].
      split; [discriminate | intros [_ H]; discriminate].
    + intros [= <- <-]. split; [reflexivity|]. split; [right; left; reflexivity|].
      split; [intros H1 H2; destruct Hok; contradiction|].
      split; [intros _; split; [exact Hok | reflexivity] | reflexivity].
Qed.

Lemma failed_user_put_changes_nothing_witness :
  ScimUsersRest.replace_user Fixtures.base_url Samples.payload_put_user "no-such-user"
    Fixtures.store0
  = (Fixtures.store0, inl SCIMBadRequestError)
  /\ Fixtures.store0 = Fixtures.store0.
Proof.
  assert (H : ScimUsersRest.replace_user Fixtures.base_url Samples.payload_put_user
                "no-such-user" Fixtures.store0
              = (Fixtures.store0, inl SCIMBadRequestError))
    by (vm_compute; reflexivity).
  split; [exact H|].
  exact (proj1 (failed_user_put_changes_nothing _ _ _ _ _ _ H)).
Defined.

(** X9. A PUT on a user that succeeds writes to the store once: one
    update of the user in the path, with a dictionary that carries the
    e-mail (the userName), the name and the role ("user" when active is
    true, "pending" when it is false or absent, whatever the role was)
    and never an id. The groups are untouched, the password changes no
    user record, and the response is what a GET of the user returns on
    the store left behind. *)
Theorem user_put_writes_once (base uid : string) (payload : SCIMUser)
    (st st' : Store) (resp : SCIMUser) :
  ScimUsersRest.replace_user base payload uid st = (st', inr resp) ->
  let d := delete "id"%string (scim_user_to_db_dict payload) in
  calls st' = calls st ++ [UpdateUserById uid d]
  /\ d !! "id"%string = None
  /\ d !! "email"%string = Some (userName payload)
  /\ d !! "name"%string = Some (resolve_name payload)
  /\ d !! "role"%string
     = Some (if default false (active payload) then "user"%string else "pending"%string)
  /\ groups st' = groups st
  /\ ScimUsersRest.get_user_by_id base uid None None st' = (st', inr resp)
  /\ userName resp = userName payload
  /\ active resp = Some (default false (active payload)).
Proof.
  rewrite replace_user_cases. intros H d.
  destruct (user_put_dict payload) as [Hd1 [Hd2 [Hd3 Hd4]]]. fold d in Hd1, Hd2, Hd3, Hd4.
  destruct (Py.truthy (user_id payload) && negb (String.eqb (user_id payload) uid))%bool;
    [discriminate|].
  destruct (find (fun x => String.eqb (u_id x) uid) (users st)) as [u|] eqn:Hf;
    [|discriminate].
  destruct (negb (String.eqb (userName payload) (u_email u))
            && match find (fun x => String.eqb (u_email x) (userName payload)) (users st) with
               | Some e0 => negb (String.eqb (u_id e0) uid)
               | None => false
               end)%bool; [discriminate|].
  cbn zeta in H. fold d in H.
  destruct (update_user_run uid d u st Hf) as [st2 [Hupd [Hcalls [Hgroups Hfind]]]].
  rewrite Hupd in H. cbn [fst] in H. injection H as <- <-.
  split; [exact Hcalls|]. split; [exact Hd1|]. split; [exact Hd2|].
  split; [exact Hd3|]. split; [exact Hd4|]. split; [exact Hgroups|].
  split.
  { unfold ScimUsersRest.get_user_by_id. cbn [Py.otruthy orb].
    rewrite (bind_run _ _ st2 st2 (Some (Users.apply_fields d u)))
      by (unfold Users.get_user_by_id; rewrite Hfind; reflexivity).
    reflexivity. }
  unfold user_to_scim_user, Users.apply_fields.
  cbn [userName active u_email u_role]. rewrite Hd2, Hd4. cbn [default].
  split; [reflexivity|].
  destruct (default false (active payload)); reflexivity.
Qed.

Lemma user_put_writes_once_witness :
  exists st',
    ScimUsersRest.replace_user Fixtures.base_url Samples.payload_put_user "user-1"
      Fixtures.store0
    = (st', inr (user_to_scim_user
                   (mkUser "user-1" "user1_updated@example.com" "User One Updated" "user"
                           (TsNumber 1670000000) (TsNumber 1670000000))
                   Fixtures.base_url))
    /\ calls st'
       = calls Fixtures.store0
         ++ [UpdateUserById "user-1"
               (delete "id"%string (scim_user_to_db_dict Samples.payload_put_user))].
Proof.
  eexists.
  assert (H : ScimUsersRest.replace_user Fixtures.base_url Samples.payload_put_user "user-1"
                Fixtures.store0
              = (fst (ScimUsersRest.replace_user Fixtures.base_url Samples.payload_put_user
                        "user-1" Fixtures.store0),
                 inr (user_to_scim_user
                        (mkUser "user-1" "user1_updated@example.com" "User One Updated" "user"
                                (TsNumber 1670000000) (TsNumber 1670000000))
                        Fixtures.base_url)))
    by (vm_compute; reflexivity).
  split; [exact H|].
  exact (proj1 (user_put_writes_once _ _ _ _ _ _ H)).
Defined.

Lemma find_none_not_In (key : UserModel -> string) (k : string) (l : list UserModel) :
  find (fun x => String.eqb (key x) k) l = None -> ~ In k (map key l).
Proof.
  intros Hnone Hin. apply in_map_iff in Hin. destruct Hin as [y [Hy Hyin]].
  pose proof (find_none _ _ Hnone y Hyin) as Hf. cbv beta in Hf.
  rewrite Hy, String.eqb_refl in Hf. discriminate.
Qed.

(** X10. PUT on a user never makes two users share an e-mail: on a
    store whose users have pairwise different ids and pairwise different
    e-mails, whatever the payload and whatever the outcome, the e-mails
    are still pairwise different afterwards and the ids are the same in
    the same order. *)
Theorem user_put_keeps_emails_apart (base uid : string) (payload : SCIMUser)
    (st st' : Store) (r : SCIMException + SCIMUser) :
  NoDup (map u_id (users st)) ->
  NoDup (map u_email (users st)) ->
  ScimUsersRest.replace_user base payload uid st = (st', r) ->
  NoDup (map u_email (users st')) /\ map u_id (users st') = map u_id (users st).
Proof.
  intros Hid Hmail. rewrite replace_user_cases.
  destruct (Py.truthy (user_id payload) && negb (String.eqb (user_id payload) uid))%bool;
    [intros [= <- _]; split; [exact Hmail | reflexivity]|].
  destruct (find (fun x => String.eqb (u_id x) uid) (users st)) as [u|] eqn:Hf;
    [|intros [= <- _]; split; [exact Hmail | reflexivity]].
  destruct (negb (String.eqb (userName payload) (u_email u))
            && match find (fun x => String.eqb (u_email x) (userName payload)) (users st) with
               | Some e0 => negb (String.eqb (u_id e0) uid)
               | None => false
               end)%bool eqn:Hchk;
    [intros [= <- _]; split; [exact Hmail | reflexivity]|].
  cbn zeta. intros [= <- _].
  rewrite (users_after_update uid _ u st Hf).
  split; [|apply ids_after_update].
  apply (update_keeps_emails_apart _ uid (users st) u Hid Hmail Hf).
  destruct (user_put_dict payload) as [_ [Hd2 _]].
  unfold Users.apply_fields. cbn [u_email]. rewrite Hd2. cbn [default].
  destruct (String.eqb_spec (userName payload) (u_email u)) as [E|E]; [left; exact E|].
  cbn [negb andb] in Hchk.
  destruct (find (fun x => String.eqb (u_email x) (userName payload)) (users st))
    as [e0|] eqn:He.
  - left. destruct (String.eqb_spec (u_id e0) uid) as [Eid|Eid]; [|discriminate].
    destruct (find_by_key_In u_email _ (users st) e0 He) as [Hein Hemail].
    destruct (find_by_key_In u_id uid (users st) u Hf) as [Huin Huid].
    assert (e0 = u) by (apply (same_key_same_record u_id (users st)); congruence).
    subst e0. symmetry. exact Hemail.
  - right. apply find_none_not_In. exact He.
Qed.

Lemma user_put_keeps_emails_apart_witness :
  NoDup (map u_id (users Fixtures.store0))
  /\ NoDup (map u_email (users Fixtures.store0))
  /\ exists st' r,
       ScimUsersRest.replace_user Fixtures.base_url Samples.payload_put_user "user-1"
         Fixtures.store0
       = (st', r)
       /\ map u_email (users st')
          = ["user1_updated@example.com"%string; "user2@example.com"%string;
             "admin@example.com"%string]
       /\ NoDup (map u_email (users st')).
Proof.
  assert (Hid : NoDup (map u_id (users Fixtures.store0))).
  { cbn. repeat (apply NoDup_cons; split; [rewrite list_elem_of_In; cbn; intuition discriminate|]).
    constructor. }
  assert (Hmail : NoDup (map u_email (users Fixtures.store0))).
  { cbn. repeat (apply NoDup_cons; split; [rewrite list_elem_of_In; cbn; intuition discriminate|]).
    constructor. }
  split; [exact Hid|]. split; [exact Hmail|].
  eexists. eexists.
  assert (H : ScimUsersRest.replace_user Fixtures.base_url Samples.payload_put_user "user-1"
                Fixtures.store0
              = (fst (ScimUsersRest.replace_user Fixtures.base_url Samples.payload_put_user
                        "user-1" Fixtures.store0),
                 snd (ScimUsersRest.replace_user Fixtures.base_url Samples.payload_put_user
                        "user-1" Fixtures.store0)))
    by apply surjective_pairing.
  split; [exact H|]. split; [vm_compute; reflexivity|].
  exact (proj1 (user_put_keeps_emails_apart _ _ _ _ _ _ Hid Hmail H)).
Defined.

(** X11. Reading a user and writing the representation back is not
    neutral. For a user found under the id in the path, a PUT of its
    own GET representation always succeeds, and the record it leaves
    keeps the id and the e-mail, has the e-mail for a name when the
    name was empty, and has the role "pending" if it was "pending" and
    "user" otherwise: an "admin" read and written back is a "user". *)
Theorem put_of_get_user (base uid : string) (u : UserModel) (st : Store) :
  find (fun x => String.eqb (u_id x) uid) (users st) = Some u ->
  exists st',
    let u' := mkUser (u_id u) (u_email u)
                     (if Py.truthy (u_name u) then u_name u else u_email u)
                     (if String.eqb (u_role u) "pending" then "pending"%string
                      else "user"%string)
                     (u_created_at u) (u_updated_at u) in
    ScimUsersRest.replace_user base (user_to_scim_user u base) uid st
    = (st', inr (user_to_scim_user u' base))
    /\ find (fun x => String.eqb (u_id x) uid) (users st') = Some u'.
Proof.
  intros Hf. destruct (find_by_key_In u_id uid (users st) u Hf) as [_ Huid].
  rewrite replace_user_cases.
  replace (user_id (user_to_scim_user u base)) with (u_id u) by reflexivity.
  replace (userName (user_to_scim_user u base)) with (u_email u) by reflexivity.
  subst uid. rewrite Hf, !String.eqb_refl. cbn [negb andb]. rewrite Bool.andb_false_r.
  cbn zeta.
  destruct (update_user_run (u_id u)
              (delete "id"%string (scim_user_to_db_dict (user_to_scim_user u base)))
              u st Hf) as [st2 [Hupd [_ [_ Hfind]]]].
  rewrite Hupd. cbn [fst]. exists st2.
  assert (Hrec : Users.apply_fields
                   (delete "id"%string (scim_user_to_db_dict (user_to_scim_user u base))) u
                 = mkUser (u_id u) (u_email u)
                          (if Py.truthy (u_name u) then u_name u else u_email u)
                          (if String.eqb (u_role u) "pending" then "pending"%string
                           else "user"%string)
                          (u_created_at u) (u_updated_at u)).
  { unfold Users.apply_fields. rewrite db_dict_of_wire_user. cbn zeta.
    unfold Text.wire_role.
    destruct (Py.truthy (u_id u)); dict_lookups; reflexivity. }
  rewrite Hrec in Hfind. rewrite Hrec. split; [reflexivity | exact Hfind].
Qed.

Lemma put_of_get_user_witness :
  exists st',
    ScimUsersRest.replace_user Fixtures.base_url
      (user_to_scim_user Fixtures.mock_admin_user Fixtures.base_url) "admin-1" Fixtures.store0
    = (st', inr (user_to_scim_user
                   (mkUser "admin-1" "admin@example.com" "Admin User" "user"
                           (TsNumber 1670000000) (TsNumber 1670000000))
                   Fixtures.base_url))
    /\ find (fun x => String.eqb (u_id x) "admin-1") (users st')
       = Some (mkUser "admin-1" "admin@example.com" "Admin User" "user"
                      (TsNumber 1670000000) (TsNumber 1670000000)).
Proof.
  exact (put_of_get_user Fixtures.base_url "admin-1" Fixtures.mock_admin_user Fixtures.store0
           eq_refl).
Defined.

(** ** POST of a user *)

Lemma existsb_false_find_none {A} (p q : A -> bool) (l : list A) :
  existsb (fun x => (p x || q x)%bool) l = false ->
  find p l = None /\ find q l = None.
Proof.
  induction l as [|a l IH]; [split; reflexivity|].
  cbn [existsb find]. intros H.
  apply Bool.orb_false_iff in H. destruct H as [Ha Hl].
  apply Bool.orb_false_iff in Ha. destruct Ha as [Hp Hq].
  rewrite Hp, Hq. apply IH. exact Hl.
Qed.

(** What [create_user] does, by cases on its checks. *)
Lemma create_user_cases (base fresh_uuid : string) (payload : SCIMUser) (st : Store) :
  ScimUsers.create_user base fresh_uuid payload st
  = if negb (Py.truthy (userName payload)) then (st, inl SCIMBadRequestError)
    else
      match find (fun u => String.eqb (u_email u) (userName payload)) (users st) with
      | Some _ => (st, inl SCIMConflictError)
      | None =>
          let new_id := if Py.truthy (user_id payload) then user_id payload else fresh_uuid in
          let role := if default false (active payload) then "user"%string
                      else "pending"%string in
          let st1 := log (InsertNewAuth new_id (userName payload) (resolve_name payload) role)
                         st in
          if existsb (fun u => (String.eqb (u_id u) new_id
                                || String.eqb (u_email u) (userName payload))%bool) (users st)
          then (st1, inl SCIMInternalServerError)
          else
            let u := mkUser new_id (userName payload) (resolve_name payload) role
                            (TsNumber (clock st)) (TsNumber (clock st)) in
            (mkStore (users st ++ [u]) (groups st) (clock st) (calls st1),
             inl UncaughtAttributeError)
      end.
Proof.
  unfold ScimUsers.create_user.
  destruct (negb (Py.truthy (userName payload))); [reflexivity|].
  destruct (find (fun u => String.eqb (u_email u) (userName payload)) (users st))
    as [e|] eqn:He.
  - rewrite (bind_run _ _ st st (Some e))
      by (unfold Users.get_user_by_email; rewrite He; reflexivity).
    reflexivity.
  - rewrite (bind_run _ _ st st None)
      by (unfold Users.get_user_by_email; rewrite He; reflexivity).
    cbn zeta.
    assert (Hd : forall new_id k, k <> "id"%string ->
              (<["id"%string := new_id]> (scim_user_to_db_dict payload)) !! k
              = delete "id"%string (scim_user_to_db_dict payload) !! k).
    { intros new_id k Hk. rewrite lookup_insert_ne by congruence.
      rewrite lookup_delete_ne by congruence. reflexivity. }
    destruct (user_put_dict payload) as [_ [Hd2 [Hd3 Hd4]]].
    rewrite !Hd by discriminate. rewrite Hd2, Hd3, Hd4. cbn [default].
    unfold mbind at 1. unfold handler_bind, Db.bind, rethrow.
    unfold mbind at 1. unfold handler_bind, Db.bind, Auths.insert_new_auth.
    destruct (existsb _ (users st)) eqn:Hex; [reflexivity|].
    cbn [mret handler_ret Db.ret].
    unfold mbind at 1. unfold handler_bind, Db.bind, Users.get_user_by_id. cbn [users log].
    rewrite find_snoc.
    destruct (existsb_false_find_none _ _ _ Hex) as [Hnone _].
    rewrite Hnone. cbn [u_id]. rewrite String.eqb_refl. reflexivity.
Qed.

(** X12. A POST of a user never answers with a representation. A
    request that passes the checks (a userName that is not empty and is
    the e-mail of no stored user) and whose id (the payload id, or the
    generated one when the payload has none) no stored user has, appends
    the user to the store (e-mail the userName, the resolved name, the
    role "user" when active is true and "pending" otherwise) and then
    fails with an uncaught exception (500 without a SCIM type) while
    building the body of the answer: the client is told of a failure and
    the user exists, as a GET of its id on the store left behind shows.
    Every failure of a POST with an uncaught exception is of this
    kind. *)
Theorem create_user_inserts_then_fails (base fresh_uuid : string) (payload : SCIMUser)
    (st st' : Store) (r : SCIMException + SCIMUser) :
  ScimUsers.create_user base fresh_uuid payload st = (st', r) ->
  let new_id := if Py.truthy (user_id payload) then user_id payload else fresh_uuid in
  let u := mkUser new_id (userName payload) (resolve_name payload)
                  (if default false (active payload) then "user"%string
                   else "pending"%string)
                  (TsNumber (clock st)) (TsNumber (clock st)) in
  (forall resp, r <> inr resp)
  /\ (userName payload <> EmptyString ->
      ~ In (userName payload) (map u_email (users st)) ->
      ~ In new_id (map u_id (users st)) ->
      r = inl UncaughtAttributeError)
  /\ (forall e, r = inl e -> uncaught e = true ->
        userName payload <> EmptyString
        /\ ~ In (userName payload) (map u_email (users st))
        /\ ~ In new_id (map u_id (users st))
        /\ users st' = users st ++ [u]
        /\ groups st' = groups st
        /\ ScimUsersRest.get_user_by_id base new_id None None st'
           = (st', inr (user_to_scim_user u base))).
Proof.
  rewrite create_user_cases. intros H new_id u.
  destruct (userName payload) as [|c rest] eqn:Hname; cbn [Py.truthy negb] in H.
  { injection H as <- <-. split; [discriminate|]. split; [congruence|].
    intros e [= <-] Hu. discriminate Hu. }
  destruct (find (fun u => String.eqb (u_email u) (String c rest)) (users st)) as [x|] eqn:He.
  { injection H as <- <-. split; [discriminate|]. split.
    - intros _ Hfree _. exfalso. apply Hfree.
      destruct (find_by_key_In u_email _ _ _ He) as [Hin Hx].
      rewrite <- Hx. apply in_map. exact Hin.
    - intros e [= <-] Hu. discriminate Hu. }
  cbn zeta in H. fold new_id in H.
  destruct (existsb (fun u => (String.eqb (u_id u) new_id
                               || String.eqb (u_email u) (String c rest))%bool) (users st))
    eqn:Hex.
  { injection H as <- <-. split; [discriminate|]. split.
    - intros _ _ Hidfree. exfalso.
      apply existsb_exists in Hex. destruct Hex as [x [Hin Hx]].
      apply Bool.orb_true_iff in Hx. destruct Hx as [Hx|Hx]; apply String.eqb_eq in Hx.
      + apply Hidfree. rewrite <- Hx. apply in_map. exact Hin.
      + revert Hin. intros Hin.
        apply (find_none_not_In u_email (String c rest) (users st) He).
        rewrite <- Hx. apply in_map. exact Hin.
    - intros e [= <-] Hu. discriminate Hu. }
  injection H as <- <-.
  destruct (existsb_false_find_none _ _ _ Hex) as [Hnoid _].
  split; [discriminate|]. split; [reflexivity|].
  intros e _ _. cbn [users groups].
  split; [discriminate|].
  split; [apply find_none_not_In; exact He|].
  split; [apply find_none_not_In; exact Hnoid|].
  split; [reflexivity|]. split; [reflexivity|].
  unfold ScimUsersRest.get_user_by_id. cbn [Py.otruthy orb].
  unfold mbind, handler_bind, Db.bind, Users.get_user_by_id. cbn [users].
  rewrite find_snoc. cbn [u_id]. rewrite Hnoid, String.eqb_refl. reflexivity.
Qed.

Lemma create_user_inserts_then_fails_witness :
  exists st',
    ScimUsers.create_user Fixtures.base_url "fresh-uuid" Samples.payload_new_user
      Fixtures.store0
    = (st', inl UncaughtAttributeError)
    /\ users st'
       = users Fixtures.store0
         ++ [mkUser "fresh-uuid" "newuser@example.com" "New User" "user"
                    (TsNumber 1670000100) (TsNumber 1670000100)].
Proof.
  eexists.
  assert (H : ScimUsers.create_user Fixtures.base_url "fresh-uuid" Samples.payload_new_user
                Fixtures.store0
              = (fst (ScimUsers.create_user Fixtures.base_url "fresh-uuid"
                        Samples.payload_new_user Fixtures.store0),
                 inl UncaughtAttributeError))
    by (vm_compute; reflexivity).
  split; [exact H|].
  destruct (proj2 (proj2 (create_user_inserts_then_fails _ _ _ _ _ _ H))
              UncaughtAttributeError eq_refl eq_refl) as [_ [_ [_ [Hu _]]]].
  exact Hu.
Defined.

(** X13. A POST of a user that is refused with a SCIM error creates no
    user: the users and the groups are as before. It is refused with
    BadRequest exactly when the userName is empty, and with Conflict
    exactly when the userName is not empty and is the e-mail of a stored
    user; neither of the two reaches the store's insertion, so the store
    is untouched. *)
Theorem refused_create_user_creates_nothing (base fresh_uuid : string) (payload : SCIMUser)
    (st st' : Store) (e : SCIMException) :
  ScimUsers.create_user base fresh_uuid payload st = (st', inl e) ->
  (e = SCIMBadRequestError <-> userName payload = EmptyString)
  /\ (e = SCIMConflictError <->
      userName payload <> EmptyString /\ In (userName payload) (map u_email (users st)))
  /\ (uncaught e = false -> users st' = users st /\ groups st' = groups st)
  /\ (e = SCIMBadRequestError \/ e = SCIMConflictError -> st' = st).
Proof.
  rewrite create_user_cases.
  destruct (userName payload) as [|c rest] eqn:Hname; cbn [Py.truthy negb].
  { intros [= <- <-]. repeat split; try reflexivity; try discriminate.
    intros [H _]. congruence. }
  destruct (find (fun u => String.eqb (u_email u) (String c rest)) (users st)) as [x|] eqn:He.
  { intros [= <- <-]. repeat split; try reflexivity; try discriminate.
    destruct (find_by_key_In u_email _ _ _ He) as [Hin Hx].
    rewrite <- Hx. apply in_map. exact Hin. }
  cbn zeta. destruct (existsb _ (users st)).
  - intros [= <- <-]. cbn [users groups log].
    repeat split; try reflexivity; try discriminate.
    + intros [_ Hin]. exfalso. revert Hin. apply find_none_not_In. exact He.
    + intros [H|H]; discriminate.
  - intros [= <- <-]. cbn [users groups].
    repeat split; try reflexivity; try discriminate.
    + intros [_ Hin]. exfalso. revert Hin. apply find_none_not_In. exact He.
    + intros [H|H]; discriminate.
Qed.

Lemma refused_create_user_creates_nothing_witness :
  ScimUsers.create_user Fixtures.base_url "fresh-uuid" Fixtures.payload_conflict
    Fixtures.store0
  = (Fixtures.store0, inl SCIMConflictError)
  /\ users Fixtures.store0 = users Fixtures.store0.
Proof.
  assert (H : ScimUsers.create_user Fixtures.base_url "fresh-uuid" Fixtures.payload_conflict
                Fixtures.store0
              = (Fixtures.store0, inl SCIMConflictError))
    by (vm_compute; reflexivity).
  split; [exact H|].
  exact (proj1 (proj1 (proj2 (proj2 (refused_create_user_creates_nothing _ _ _ _ _ _ H)))
                  eq_refl)).
Defined.

(** ** The filter of the list requests *)

Lemma split_not_nil (sep : ascii) (s : string) : Py.split sep s <> [].
Proof.
  destruct s as [|c s]; cbn [Py.split]; [discriminate|].
  destruct (Ascii.eqb c sep); [discriminate|].
  destruct (Py.split sep s); discriminate.
Qed.

Lemma split_free (sep : ascii) (s : string) :
  Text.free_of sep s -> Py.split sep s = [s].
Proof.
  induction s as [|c s IH]; intros Hfree; [reflexivity|].
  cbn [Py.split]. destruct (Ascii.eqb_spec c sep) as [E|_].
  - exfalso. apply (Hfree c); [left; reflexivity | exact E].
  - rewrite IH; [reflexivity|]. intros d Hd. apply Hfree. right. exact Hd.
Qed.

(** The first piece of a split holds no separator, and the string is
    that piece alone or that piece, a separator and what the other
    pieces are the split of. *)
Lemma split_inv (sep : ascii) (s h : string) (t : list string) :
  Py.split sep s = h :: t ->
  Text.free_of sep h
  /\ ((t = [] /\ s = h)
      \/ exists rest, s = String.append h (String sep rest) /\ Py.split sep rest = t).
Proof.
  revert h t. induction s as [|c s IH]; intros h t.
  - cbn [Py.split]. intros [= <- <-]. split; [intros c []|]. left. split; reflexivity.
  - cbn [Py.split]. destruct (Ascii.eqb_spec c sep) as [->|Hne].
    + intros [= <- <-]. split; [intros c []|]. right. exists s. split; reflexivity.
    + destruct (Py.split sep s) as [|h' t'] eqn:Hs; [destruct (split_not_nil sep s Hs)|].
      intros [= <- <-]. destruct (IH h' t' eq_refl) as [Hfree Hshape].
      split.
      * intros d [<-|Hd]; [exact Hne | exact (Hfree d Hd)].
      * destruct Hshape as [[-> ->] | [rest [-> Hrest]]].
        -- left. split; reflexivity.
        -- right. exists rest. split; [rewrite append_cons; reflexivity | exact Hrest].
Qed.

(** A split has three pieces exactly for the strings made of three
    separator-free pieces and two separators. *)
Lemma split_three (sep : ascii) (s a o w : string) :
  Py.split sep s = [a; o; w]
  <-> s = String.append a (String sep (String.append o (String sep w)))
      /\ Text.free_of sep a /\ Text.free_of sep o /\ Text.free_of sep w.
Proof.
  split.
  - intros H. destruct (split_inv sep s a [o; w] H) as [Ha [[Hnil _] | [r1 [-> H1]]]];
      [discriminate|].
    destruct (split_inv sep r1 o [w] H1) as [Ho [[Hnil _] | [r2 [-> H2]]]];
      [discriminate|].
    destruct (split_inv sep r2 w [] H2) as [Hw [[_ ->] | [r3 [_ H3]]]].
    + repeat split; assumption.
    + destruct (split_not_nil sep r3 H3).
  - intros [-> [Ha [Ho Hw]]].
    rewrite (split_first_piece sep a _ Ha), (split_first_piece sep o _ Ho),
      (split_free sep w Hw).
    reflexivity.
Qed.

(** X14. The grammar of the filter parameter of GET /Users and
    GET /Groups. A non-empty filter is accepted exactly when it is made
    of three pieces free of spaces, separated by single spaces: a first
    piece that spells the attribute name in any letter case, a second
    that spells eq in any letter case, and a value. The value looked up
    is the third piece without its leading and trailing double quotes.
    Every other non-empty filter is answered with NotImplemented, so a
    value that holds a space is never accepted, quoted or not. *)
Theorem filter_grammar (attr f : string) (r : SCIMException + option string) :
  f <> EmptyString ->
  parse_filter attr (Some f) = r ->
  (r = inl SCIMNotImplementedError
   /\ ~ exists a o w,
         f = String.append a (String " " (String.append o (String " " w)))
         /\ Text.free_of " " a /\ Text.free_of " " o /\ Text.free_of " " w
         /\ Py.lower a = attr /\ Py.lower o = "eq"%string)
  \/ (exists a o w,
         f = String.append a (String " " (String.append o (String " " w)))
         /\ Text.free_of " " a /\ Text.free_of " " o /\ Text.free_of " " w
         /\ Py.lower a = attr /\ Py.lower o = "eq"%string
         /\ r = inr (Some (Py.strip Py.dquote w))).
Proof.
  intros Hne <-. unfold parse_filter.
  destruct f as [|c0 f0]; [congruence|]. cbn [Py.truthy].
  set (f := String c0 f0).
  destruct (Py.split " " f) as [|a [|o [|w [|x rest]]]] eqn:Hs.
  - destruct (split_not_nil _ _ Hs).
  - left. split; [reflexivity|]. intros [a' [o' [w' [Hf [Ha [Ho [Hw _]]]]]]].
    assert (H3 : Py.split " " f = [a'; o'; w']) by (apply split_three; auto).
    rewrite Hs in H3. discriminate.
  - left. split; [reflexivity|]. intros [a' [o' [w' [Hf [Ha [Ho [Hw _]]]]]]].
    assert (H3 : Py.split " " f = [a'; o'; w']) by (apply split_three; auto).
    rewrite Hs in H3. discriminate.
  - cbn [length Nat.eqb nth andb].
    apply split_three in Hs. destruct Hs as [Hf [Ha [Ho Hw]]].
    destruct (String.eqb_spec (Py.lower a) attr) as [Ea|Ea]; cbn [andb].
    + destruct (String.eqb_spec (Py.lower o) "eq") as [Eo|Eo].
      * right. exists a, o, w. repeat split; assumption.
      * left. split; [reflexivity|].
        intros [a' [o' [w' [Hf' [Ha' [Ho' [Hw' [_ Hl]]]]]]]].
        assert (H3 : Py.split " " f = [a'; o'; w']) by (apply split_three; auto).
        assert (H3' : Py.split " " f = [a; o; w]) by (apply split_three; auto).
        rewrite H3 in H3'. injection H3' as _ -> _. contradiction.
    + left. split; [reflexivity|].
      intros [a' [o' [w' [Hf' [Ha' [Ho' [Hw' [Hl _]]]]]]]].
      assert (H3 : Py.split " " f = [a'; o'; w']) by (apply split_three; auto).
      assert (H3' : Py.split " " f = [a; o; w]) by (apply split_three; auto).
      rewrite H3 in H3'. injection H3' as -> _ _. contradiction.
  - left. split; [reflexivity|]. intros [a' [o' [w' [Hf [Ha [Ho [Hw _]]]]]]].
    assert (H3 : Py.split " " f = [a'; o'; w']) by (apply split_three; auto).
    rewrite Hs in H3. discriminate.
Qed.

Lemma filter_grammar_witness :
  parse_filter "username" (Some "USERNAME Eq user1@example.com"%string)
  = inr (Some "user1@example.com"%string)
  /\ parse_filter "displayname" (Some Fixtures.filter_group_one)
     = inl SCIMNotImplementedError.
Proof.
  split.
  - destruct (filter_grammar "username" "USERNAME Eq user1@example.com" _
                ltac:(discriminate) eq_refl) as [[H _] | [a [o [w [_ [_ [_ [_ [_ [_ H]]]]]]]]]].
    + discriminate H.
    + reflexivity.
  - destruct (filter_grammar "displayname" Fixtures.filter_group_one _
                ltac:(discriminate) eq_refl) as [[H _] | [a [o [w [_ [_ [_ [_ [_ [_ H]]]]]]]]]].
    + exact H.
    + discriminate H.
Defined.

Lemma parse_filter_accepts (attr a o w : string) :
  Text.free_of " " a -> Text.free_of " " o -> Text.free_of " " w ->
  Py.lower a = attr -> Py.lower o = "eq"%string ->
  parse_filter attr (Some (String.append a (String " " (String.append o (String " " w)))))
  = inr (Some (Py.strip Py.dquote w)).
Proof.
  intros Ha Ho Hw Hla Hlo. unfold parse_filter.
  assert (Hs : Py.split " " (String.append a (String " " (String.append o (String " " w))))
               = [a; o; w]) by (apply split_three; auto).
  rewrite Hs. cbn [length Nat.eqb nth andb]. rewrite Hla, Hlo, String.eqb_refl.
  cbn [String.eqb Ascii.eqb Bool.eqb andb].
  destruct a; reflexivity.
Qed.

(** X15. On GET /Groups, a filter whose value is empty once its double
    quotes are stripped (an empty pair of quotes, a lone quote, nothing
    at all) is no filter: the list request answers exactly as it does
    without any filter parameter, and for a well-formed page request it
    counts every stored group in totalResults, whatever their names,
    instead of the groups whose name is empty. *)
Theorem blank_filter_value_lists_everything (base a o w : string) (startIndex count : Z)
    (sortBy sortOrder attributes excludedAttributes : option string) (st : Store) :
  Text.free_of " " a -> Text.free_of " " o -> Text.free_of " " w ->
  Py.lower a = "displayname"%string ->
  Py.lower o = "eq"%string ->
  Py.strip Py.dquote w = EmptyString ->
  let f := String.append a (String " " (String.append o (String " " w))) in
  ScimGroups.get_groups base startIndex count (Some f) sortBy sortOrder attributes
    excludedAttributes st
  = ScimGroups.get_groups base startIndex count None sortBy sortOrder attributes
      excludedAttributes st
  /\ (1 <= startIndex -> 0 <= count ->
      (Py.otruthy sortBy || Py.otruthy sortOrder
       || Py.otruthy attributes || Py.otruthy excludedAttributes)%bool = false ->
      exists resp,
        ScimGroups.get_groups base startIndex count (Some f) sortBy sortOrder attributes
          excludedAttributes st
        = (st, inr resp)
        /\ totalResults resp = Z.of_nat (length (groups st))).
Proof.
  intros Ha Ho Hw Hla Hlo Hblank f.
  assert (Heq : ScimGroups.get_groups base startIndex count (Some f) sortBy sortOrder
                  attributes excludedAttributes st
                = ScimGroups.get_groups base startIndex count None sortBy sortOrder
                    attributes excludedAttributes st).
  { subst f. unfold ScimGroups.get_groups.
    rewrite (parse_filter_accepts "displayname" a o w Ha Ho Hw Hla Hlo), Hblank.
    reflexivity. }
  split; [exact Heq|].
  intros Hs Hc Hplain. rewrite Heq.
  eexists. split.
  - apply (get_groups_run st base startIndex count None None _ _ _ _ Hs Hc Hplain eq_refl).
  - reflexivity.
Qed.

Lemma blank_filter_value_lists_everything_witness :
  exists resp,
    ScimGroups.get_groups Fixtures.base_url 1 100
      (Some (String.append "displayName" (String " " (String.append "eq"
               (String " " (Py.quoted EmptyString))))))
      None None None None Fixtures.store0
    = (Fixtures.store0, inr resp)
    /\ totalResults resp = 2.
Proof.
  assert (Ha : Text.free_of " " "displayName")
    by (intros c Hc; cbn in Hc;
        repeat (destruct Hc as [<-|Hc]; [discriminate|]); destruct Hc).
  assert (Ho : Text.free_of " " "eq")
    by (intros c Hc; cbn in Hc;
        repeat (destruct Hc as [<-|Hc]; [discriminate|]); destruct Hc).
  assert (Hw : Text.free_of " " (Py.quoted EmptyString))
    by (intros c Hc; cbn in Hc;
        repeat (destruct Hc as [<-|Hc]; [discriminate|]); destruct Hc).
  exact (proj2 (blank_filter_value_lists_everything Fixtures.base_url "displayName" "eq"
                  (Py.quoted EmptyString) 1 100 None None None None Fixtures.store0
                  Ha Ho Hw eq_refl eq_refl eq_refl)
           ltac:(lia) ltac:(lia) eq_refl).
Defined.

(** ** PATCH on a group, as a whole *)

(** What [patch_group] does, by cases on the lookup and on the loop. *)
Lemma patch_group_cases (base gid : string) (req : SCIMPatchRequest) (st : Store) :
  ScimGroups.patch_group base req gid st
  = match find (fun x => String.eqb (g_id x) gid) (groups st) with
    | None => (st, inl SCIMNotFoundError)
    | Some g =>
        match snd (for_each (ScimGroups.patch_group_op gid g) (Operations req)
                     (Staged.start g) st) with
        | inl e => (st, inl e)
        | inr s =>
            if nonempty (Staged.staged_fields s)
            then (fst (Groups.update_group_by_id gid (Staged.staged_fields s) st),
                  inr (group_to_scim_group
                         (Groups.apply_fields (Staged.staged_fields s) g)
                         (Staged.members_of
                            (Groups.apply_fields (Staged.staged_fields s) g) st)
                         base))
            else (st, inr (group_to_scim_group g (Staged.members_of g st) base))
        end
    end.
Proof.
  unfold ScimGroups.patch_group, Staged.start.
  destruct (find (fun x => String.eqb (g_id x) gid) (groups st)) as [g|] eqn:Hf.
  - rewrite (bind_run _ _ st st (Some g))
      by (unfold Groups.get_group_by_id; rewrite Hf; reflexivity).
    destruct (snd (for_each (ScimGroups.patch_group_op gid g) (Operations req)
                     (ScimGroups.mkPS ∅ (list_to_set (g_user_ids g)) false) st))
      as [e|s] eqn:Hl.
    + apply bind_fail. apply loop_result. exact Hl.
    + rewrite (bind_run _ _ st st s) by (apply loop_result; exact Hl).
      fold (Staged.staged_fields s).
      destruct (nonempty (Staged.staged_fields s)).
      * destruct (update_group_run gid (Staged.staged_fields s) g st Hf)
          as [st' [Hupd [_ [Husers Hfind]]]].
        rewrite Hupd. cbn [fst].
        assert (Hwrite : (Groups.update_group_by_id gid (Staged.staged_fields s)
                          ≫= λ updated_model : option GroupModel,
                               match updated_model with
                               | Some _ => mret ()
                               | None => raise SCIMInternalServerError
                               end) st = (st', inr ())).
        { rewrite (bind_run _ _ st st' _ Hupd). reflexivity. }
        rewrite (bind_run _ _ st st' _ Hwrite).
        rewrite (bind_run _ _ st' st' (Some (Groups.apply_fields (Staged.staged_fields s) g)))
          by (unfold Groups.get_group_by_id; rewrite Hfind; reflexivity).
        unfold mbind, handler_bind, Db.bind, Users.get_users_by_user_ids, mret,
          handler_ret, Db.ret, Staged.members_of.
        rewrite Husers. reflexivity.
      * rewrite bind_ret_l.
        rewrite (bind_run _ _ st st (Some g))
          by (unfold Groups.get_group_by_id; rewrite Hf; reflexivity).
        reflexivity.
  - rewrite (bind_run _ _ st st None)
      by (unfold Groups.get_group_by_id; rewrite Hf; reflexivity).
    reflexivity.
Qed.

(** X16. A PATCH request on a group that is refused with a SCIM error,
    whatever the error (unknown group, unsupported operation or path,
    malformed value or member object, display name taken), leaves the
    store exactly as it was: no operation of the request is applied, not
    even those before the refused one. (A failure that is no SCIM error,
    an exception nothing catches, is not covered.) *)
Theorem refused_group_patch_changes_nothing (base gid : string) (req : SCIMPatchRequest)
    (st st' : Store) (e : SCIMException) :
  ScimGroups.patch_group base req gid st = (st', inl e) ->
  uncaught e = false ->
  st' = st.
Proof.
  rewrite patch_group_cases. intros H _. revert H.
  destruct (find (fun x => String.eqb (g_id x) gid) (groups st)) as [g|];
    [|intros [= <- _]; reflexivity].
  destruct (snd (for_each (ScimGroups.patch_group_op gid g) (Operations req)
                   (Staged.start g) st))
    as [e'|s]; [intros [= <- _]; reflexivity|].
  destruct (nonempty (Staged.staged_fields s)); intros [= ]; congruence.
Qed.

(** X17. Whatever a successful PATCH on a group returns is what a GET
    of that group returns right after it, on the store the PATCH left;
    the users are untouched by it. *)
Theorem get_after_group_patch (base gid : string) (req : SCIMPatchRequest)
    (st st' : Store) (resp : SCIMGroup) :
  ScimGroups.patch_group base req gid st = (st', inr resp) ->
  ScimGroupsRest.get_group_by_id base gid None None st' = (st', inr resp)
  /\ users st' = users st.
Proof.
  rewrite patch_group_cases.
  destruct (find (fun x => String.eqb (g_id x) gid) (groups st)) as [g|] eqn:Hf;
    [|discriminate].
  destruct (snd (for_each (ScimGroups.patch_group_op gid g) (Operations req)
                   (Staged.start g) st))
    as [e'|s]; [discriminate|].
  destruct (nonempty (Staged.staged_fields s)).
  - destruct (update_group_run gid (Staged.staged_fields s) g st Hf)
      as [st2 [Hupd [_ [Husers Hfind]]]].
    rewrite Hupd. cbn [fst]. intros [= <- <-]. split; [|exact Husers].
    unfold ScimGroupsRest.get_group_by_id. cbn [Py.otruthy orb].
    rewrite (bind_run _ _ st2 st2 (Some (Groups.apply_fields (Staged.staged_fields s) g)))
      by (unfold Groups.get_group_by_id; rewrite Hfind; reflexivity).
    unfold mbind, handler_bind, Db.bind, Users.get_users_by_user_ids, mret,
      handler_ret, Db.ret, Staged.members_of.
    rewrite Husers. reflexivity.
  - intros [= <- <-]. split; [|reflexivity].
    unfold ScimGroupsRest.get_group_by_id. cbn [Py.otruthy orb].
    rewrite (bind_run _ _ st st (Some g))
      by (unfold Groups.get_group_by_id; rewrite Hf; reflexivity).
    reflexivity.
Qed.

Lemma refused_group_patch_changes_nothing_witness :
  ScimGroups.patch_group Fixtures.base_url
    (mkPatch [PATCH_OP_URN]
       [mkOp "replace" (Some "displayName"%string) (Py.VStr "Engineering");
        mkOp "add" (Some "members"%string) (Py.VList [])])
    "group-1" Fixtures.store0
  = (Fixtures.store0, inl SCIMBadRequestError)
  /\ uncaught SCIMBadRequestError = false
  /\ Fixtures.store0 = Fixtures.store0.
Proof.
  assert (H : ScimGroups.patch_group Fixtures.base_url
                (mkPatch [PATCH_OP_URN]
                   [mkOp "replace" (Some "displayName"%string) (Py.VStr "Engineering");
                    mkOp "add" (Some "members"%string) (Py.VList [])])
                "group-1" Fixtures.store0
              = (Fixtures.store0, inl SCIMBadRequestError))
    by (vm_compute; reflexivity).
  split; [exact H|]. split; [reflexivity|].
  exact (refused_group_patch_changes_nothing _ _ _ _ _ _ H eq_refl).
Defined.

Lemma get_after_group_patch_witness :
  exists st' resp,
    ScimGroups.patch_group Fixtures.base_url Fixtures.patch_rename_and_add "group-1"
      Fixtures.store0
    = (st', inr resp)
    /\ displayName resp = "Engineering"%string
    /\ ScimGroupsRest.get_group_by_id Fixtures.base_url "group-1" None None st'
       = (st', inr resp).
Proof.
  eexists. eexists.
  assert (H : ScimGroups.patch_group Fixtures.base_url Fixtures.patch_rename_and_add "group-1"
                Fixtures.store0
              = (fst (ScimGroups.patch_group Fixtures.base_url Fixtures.patch_rename_and_add
                        "group-1" Fixtures.store0),
                 inr (group_to_scim_group
                        (mkGroup "group-1" "Engineering"
                           (elements ({["user-2"%string]} ∪ list_to_set ["user-1"%string]
                                      : gset string))
                           (TsNumber 1670000000) (TsNumber 1670000000))
                        [Fixtures.mock_user1; Fixtures.mock_user2] Fixtures.base_url)))
    by (vm_compute; reflexivity).
  split; [exact H|]. split; [reflexivity|].
  exact (proj1 (get_after_group_patch _ _ _ _ _ _ H)).
Defined.

(** ** Membership operations of a group PATCH *)

(** Adding well-formed member objects adds their ids, whatever the
    order and the repetitions. *)
Lemma add_members_run (bad : SCIMException) (objs : list Py.value) (uids : list string)
    (ids : gset string) (st : Store) :
  Forall2 Text.member_object objs uids ->
  ScimGroups.add_members bad (Py.VList objs) ids st = (st, inr (list_to_set uids ∪ ids)).
Proof.
  unfold ScimGroups.add_members. cbn [Py.iterate].
  intros Hall. revert ids.
  induction Hall as [|o uid objs uids [d [-> Hd]] _ IH]; intros ids.
  - cbn [for_each list_to_set]. unfold mret, handler_ret, Db.ret.
    rewrite (left_id_L ∅ (∪)). reflexivity.
  - cbn [for_each]. unfold mbind at 1. unfold handler_bind, Db.bind.
    unfold ScimGroups.add_member at 1. rewrite Hd. cbn [mret handler_ret Db.ret].
    rewrite IH. cbn [list_to_set].
    rewrite (assoc_L (∪)), (comm_L (∪) (list_to_set uids) {[uid]}). reflexivity.
Qed.

(** A request with one operation that changes the membership and
    stages no name writes the new id list and nothing else. *)
Lemma single_member_op (base gid : string) (sch : list string) (o : SCIMPatchOp)
    (g : GroupModel) (ids : gset string) (st : Store) :
  find (fun x => String.eqb (g_id x) gid) (groups st) = Some g ->
  ScimGroups.patch_group_op gid g (Staged.start g) o st
  = (st, inr (ScimGroups.mkPS ∅ ids true)) ->
  let g' := mkGroup (g_id g) (g_name g) (elements ids) (g_created_at g) (g_updated_at g) in
  exists st',
    ScimGroups.patch_group base (mkPatch sch [o]) gid st
    = (st', inr (group_to_scim_group g' (Staged.members_of g' st) base))
    /\ find (fun x => String.eqb (g_id x) gid) (groups st') = Some g'
    /\ calls st' = calls st ++ [UpdateGroupById gid {["user_ids"%string := DIds (elements ids)]}]
    /\ users st' = users st.
Proof.
  intros Hf Hop g'. rewrite patch_group_cases, Hf. cbn [Operations for_each].
  unfold mbind, handler_bind, Db.bind. rewrite Hop. cbn [mret handler_ret Db.ret snd].
  unfold Staged.staged_fields. cbn [ScimGroups.members_changed ScimGroups.db_updates
                                     ScimGroups.current_user_ids].
  assert (Hn : nonempty (<["user_ids"%string := DIds (elements ids)]> (∅ : gmap string dbval))
               = true).
  { unfold nonempty. rewrite bool_decide_eq_false_2; [reflexivity | apply insert_non_empty]. }
  rewrite Hn.
  destruct (update_group_run gid (<["user_ids"%string := DIds (elements ids)]> ∅) g st Hf)
    as [st' [Hupd [Hcalls [Husers Hfind]]]].
  rewrite Hupd. cbn [fst]. exists st'.
  assert (Hg : Groups.apply_fields (<["user_ids"%string := DIds (elements ids)]> ∅) g = g').
  { unfold Groups.apply_fields. dict_lookups. reflexivity. }
  rewrite Hg in *. repeat split; assumption.
Qed.

(** X18. PATCH add members is a set union. A request whose single
    operation adds a non-empty list of member objects to a group
    succeeds and leaves the group with an id list that has no
    repetition and holds exactly the ids it held before and the ids
    added; the list is written in one store call, even when every id
    added was a member already, and nothing else of the group or of the
    users changes. *)
Theorem patch_add_members_is_union (base gid : string) (sch : list string)
    (opname p : string) (objs : list Py.value) (uids : list string)
    (g : GroupModel) (st : Store) :
  find (fun x => String.eqb (g_id x) gid) (groups st) = Some g ->
  Py.lower opname = "add"%string ->
  Py.lower p = "members"%string ->
  objs <> [] ->
  Forall2 Text.member_object objs uids ->
  exists st' l,
    ScimGroups.patch_group base
      (mkPatch sch [mkOp opname (Some p) (Py.VList objs)]) gid st
    = (st', inr (group_to_scim_group
                   (mkGroup (g_id g) (g_name g) l (g_created_at g) (g_updated_at g))
                   (Staged.members_of
                      (mkGroup (g_id g) (g_name g) l (g_created_at g) (g_updated_at g)) st)
                   base))
    /\ find (fun x => String.eqb (g_id x) gid) (groups st')
       = Some (mkGroup (g_id g) (g_name g) l (g_created_at g) (g_updated_at g))
    /\ NoDup l
    /\ (forall x, In x l <-> In x (g_user_ids g) \/ In x uids)
    /\ calls st' = calls st ++ [UpdateGroupById gid {["user_ids"%string := DIds l]}]
    /\ users st' = users st.
Proof.
  intros Hf Ho Hp Hne Hobjs.
  assert (Hop : ScimGroups.patch_group_op gid g (Staged.start g)
                  (mkOp opname (Some p) (Py.VList objs)) st
                = (st, inr (ScimGroups.mkPS ∅
                              (list_to_set uids ∪ list_to_set (g_user_ids g)) true))).
  { unfold ScimGroups.patch_group_op. cbn [op path value]. rewrite Ho.
    cbn [String.eqb Ascii.eqb Bool.eqb andb]. unfold path_is. rewrite Hp.
    assert (Ht : Py.truthy p = true) by (destruct p; [discriminate | reflexivity]).
    rewrite Ht. cbn [String.eqb Ascii.eqb Bool.eqb andb].
    destruct objs as [|o1 objs]; [congruence|]. cbn [Py.vtruthy Py.is_list negb orb].
    unfold mbind, handler_bind, Db.bind.
    rewrite (add_members_run _ _ uids _ _ Hobjs). reflexivity. }
  destruct (single_member_op base gid sch _ g _ st Hf Hop)
    as [st' [Hrun [Hfind [Hcalls Husers]]]].
  exists st', (elements (list_to_set uids ∪ list_to_set (g_user_ids g) : gset string)).
  split; [exact Hrun|]. split; [exact Hfind|].
  split; [apply NoDup_elements|].
  split; [|split; assumption].
  intros x. rewrite <- list_elem_of_In, elem_of_elements, elem_of_union,
    !elem_of_list_to_set, !list_elem_of_In. tauto.
Qed.

Lemma patch_add_members_is_union_witness :
  exists st' l,
    ScimGroups.patch_group Fixtures.base_url
      (mkPatch [PATCH_OP_URN]
         [mkOp "Add" (Some "Members"%string)
            (Py.VList [Py.VDict [("value"%string, Py.VStr "user-1")];
                       Py.VDict [("value"%string, Py.VStr "user-2")]])])
      "group-1" Fixtures.store0
    = (st', inr (group_to_scim_group
                   (mkGroup "group-1" "Group One" l (TsNumber 1670000000) (TsNumber 1670000000))
                   (Staged.members_of
                      (mkGroup "group-1" "Group One" l
                               (TsNumber 1670000000) (TsNumber 1670000000))
                      Fixtures.store0)
                   Fixtures.base_url))
    /\ NoDup l
    /\ (forall x, In x l <-> In x ["user-1"%string] \/ In x ["user-1"%string; "user-2"%string]).
Proof.
  destruct (patch_add_members_is_union Fixtures.base_url "group-1" [PATCH_OP_URN]
              "Add" "Members"
              [Py.VDict [("value"%string, Py.VStr "user-1")];
               Py.VDict [("value"%string, Py.VStr "user-2")]]
              ["user-1"%string; "user-2"%string]
              Fixtures.mock_group1 Fixtures.store0 eq_refl eq_refl eq_refl)
    as [st' [l [Hrun [_ [Hnd [Hin _]]]]]].
  - discriminate.
  - repeat constructor; eexists; split; reflexivity.
  - exists st', l. split; [exact Hrun|]. split; [exact Hnd | exact Hin].
Defined.

(** X19. PATCH replace members sets the membership to exactly what the
    request lists. A request whose single operation replaces the
    members of a group with a list of member objects leaves the group
    with an id list without repetition that holds exactly the ids
    listed, whatever the group held before; a value that is null, false,
    zero, an empty string or an empty list empties the group. The list
    is written in one store call. *)
Theorem patch_replace_members_sets_them (base gid : string) (sch : list string)
    (opname p : string) (v : Py.value) (uids : list string)
    (g : GroupModel) (st : Store) :
  find (fun x => String.eqb (g_id x) gid) (groups st) = Some g ->
  Py.lower opname = "replace"%string ->
  Py.lower p = "members"%string ->
  (Py.vtruthy v = false /\ uids = [])
  \/ (exists objs, v = Py.VList objs /\ Forall2 Text.member_object objs uids) ->
  exists st' l,
    ScimGroups.patch_group base (mkPatch sch [mkOp opname (Some p) v]) gid st
    = (st', inr (group_to_scim_group
                   (mkGroup (g_id g) (g_name g) l (g_created_at g) (g_updated_at g))
                   (Staged.members_of
                      (mkGroup (g_id g) (g_name g) l (g_created_at g) (g_updated_at g)) st)
                   base))
    /\ find (fun x => String.eqb (g_id x) gid) (groups st')
       = Some (mkGroup (g_id g) (g_name g) l (g_created_at g) (g_updated_at g))
    /\ NoDup l
    /\ (forall x, In x l <-> In x uids)
    /\ (uids = [] -> l = [])
    /\ calls st' = calls st ++ [UpdateGroupById gid {["user_ids"%string := DIds l]}]
    /\ users st' = users st.
Proof.
  intros Hf Ho Hp Hv.
  assert (Hop : ScimGroups.patch_group_op gid g (Staged.start g)
                  (mkOp opname (Some p) v) st
                = (st, inr (ScimGroups.mkPS ∅ (list_to_set uids) true))).
  { unfold ScimGroups.patch_group_op. cbn [op path value]. rewrite Ho.
    cbn [String.eqb Ascii.eqb Bool.eqb andb]. unfold path_is. rewrite Hp.
    assert (Ht : Py.truthy p = true) by (destruct p; [discriminate | reflexivity]).
    rewrite Ht. cbn [String.eqb Ascii.eqb Bool.eqb andb].
    destruct Hv as [[Hfalsy ->] | [objs [-> Hobjs]]].
    - rewrite Hfalsy. reflexivity.
    - unfold mbind, handler_bind, Db.bind.
      destruct (Py.vtruthy (Py.VList objs)) eqn:Htruthy.
      + rewrite (add_members_run _ _ uids _ _ Hobjs).
        rewrite (right_id_L ∅ (∪)). reflexivity.
      + destruct objs; [|discriminate]. inversion Hobjs. reflexivity. }
  destruct (single_member_op base gid sch _ g _ st Hf Hop)
    as [st' [Hrun [Hfind [Hcalls Husers]]]].
  exists st', (elements (list_to_set uids : gset string)).
  split; [exact Hrun|]. split; [exact Hfind|].
  split; [apply NoDup_elements|].
  split; [|split; [|split; assumption]].
  - intros x. rewrite <- !list_elem_of_In, elem_of_elements, elem_of_list_to_set.
    reflexivity.
  - intros ->. apply elements_empty.
Qed.

Lemma patch_replace_members_sets_them_witness :
  exists st' l,
    ScimGroups.patch_group Fixtures.base_url
      (mkPatch [PATCH_OP_URN] [mkOp "replace" (Some "members"%string) Py.VNone])
      "group-2" Fixtures.store0
    = (st', inr (group_to_scim_group
                   (mkGroup "group-2" "Group Two" l (TsNumber 1670000000) (TsNumber 1670000000))
                   (Staged.members_of
                      (mkGroup "group-2" "Group Two" l
                               (TsNumber 1670000000) (TsNumber 1670000000))
                      Fixtures.store0)
                   Fixtures.base_url))
    /\ l = [].
Proof.
  destruct (patch_replace_members_sets_them Fixtures.base_url "group-2" [PATCH_OP_URN]
              "replace" "members" Py.VNone [] Fixtures.mock_group2 Fixtures.store0
              eq_refl eq_refl eq_refl (or_introl (conj eq_refl eq_refl)))
    as [st' [l [Hrun [_ [_ [_ [Hnil _]]]]]]].
  exists st', l. split; [exact Hrun | exact (Hnil eq_refl)].
Defined.

(** X20. PATCH remove of a member the group holds takes that id out
    and keeps every other one. A request whose single operation is a
    remove with a path that starts with members[value eq and carries,
    between its first two double quotes, an id the group holds, leaves
    the group with an id list without repetition that holds exactly the
    other ids, written in one store call. *)
Theorem patch_remove_member_takes_it_out (base gid : string) (sch : list string)
    (opname p X : string) (v : Py.value) (g : GroupModel) (st : Store) :
  find (fun x => String.eqb (g_id x) gid) (groups st) = Some g ->
  Py.lower opname = "remove"%string ->
  Py.startswith "members[value eq" p = true ->
  ScimGroups.quoted_id p = Some X ->
  In X (g_user_ids g) ->
  exists st' l,
    ScimGroups.patch_group base (mkPatch sch [mkOp opname (Some p) v]) gid st
    = (st', inr (group_to_scim_group
                   (mkGroup (g_id g) (g_name g) l (g_created_at g) (g_updated_at g))
                   (Staged.members_of
                      (mkGroup (g_id g) (g_name g) l (g_created_at g) (g_updated_at g)) st)
                   base))
    /\ find (fun x => String.eqb (g_id x) gid) (groups st')
       = Some (mkGroup (g_id g) (g_name g) l (g_created_at g) (g_updated_at g))
    /\ NoDup l
    /\ (forall x, In x l <-> In x (g_user_ids g) /\ x <> X)
    /\ calls st' = calls st ++ [UpdateGroupById gid {["user_ids"%string := DIds l]}]
    /\ users st' = users st.
Proof.
  intros Hf Ho Hp Hq HX.
  assert (Hop : ScimGroups.patch_group_op gid g (Staged.start g)
                  (mkOp opname (Some p) v) st
                = (st, inr (ScimGroups.mkPS ∅
                              (list_to_set (g_user_ids g) ∖ {[X]}) true))).
  { unfold ScimGroups.patch_group_op. cbn [op path value]. rewrite Ho.
    cbn [String.eqb Ascii.eqb Bool.eqb andb].
    assert (Ht : Py.truthy p = true)
      by (apply (startswith_truthy "members[value eq" p); [discriminate | exact Hp]).
    rewrite Hp, Ht. cbn [andb]. rewrite Hq.
    unfold Staged.start. cbn [ScimGroups.current_user_ids ScimGroups.db_updates].
    rewrite bool_decide_eq_true_2; [reflexivity|].
    apply elem_of_list_to_set. apply list_elem_of_In. exact HX. }
  destruct (single_member_op base gid sch _ g _ st Hf Hop)
    as [st' [Hrun [Hfind [Hcalls Husers]]]].
  exists st', (elements (list_to_set (g_user_ids g) ∖ {[X]} : gset string)).
  split; [exact Hrun|]. split; [exact Hfind|].
  split; [apply NoDup_elements|].
  split; [|split; assumption].
  intros x. rewrite <- !list_elem_of_In, elem_of_elements, elem_of_difference,
    elem_of_list_to_set, elem_of_singleton. reflexivity.
Qed.

Lemma patch_remove_member_takes_it_out_witness :
  exists st' l,
    ScimGroups.patch_group Fixtures.base_url
      (mkPatch [PATCH_OP_URN]
         [mkOp "remove"
            (Some (String.append "members[value eq "
                     (String.append (Py.quoted "user-1") "]")))
            Py.VNone])
      "group-2" Fixtures.store0
    = (st', inr (group_to_scim_group
                   (mkGroup "group-2" "Group Two" l (TsNumber 1670000000) (TsNumber 1670000000))
                   (Staged.members_of
                      (mkGroup "group-2" "Group Two" l
                               (TsNumber 1670000000) (TsNumber 1670000000))
                      Fixtures.store0)
                   Fixtures.base_url))
    /\ (forall x, In x l <-> In x ["user-1"%string; "user-2"%string] /\ x <> "user-1"%string).
Proof.
  destruct (patch_remove_member_takes_it_out Fixtures.base_url "group-2" [PATCH_OP_URN]
              "remove"
              (String.append "members[value eq " (String.append (Py.quoted "user-1") "]"))
              "user-1" Py.VNone Fixtures.mock_group2 Fixtures.store0
              eq_refl eq_refl eq_refl eq_refl (or_introl eq_refl))
    as [st' [l [Hrun [_ [_ [Hin _]]]]]].
  exists st', l. split; [exact Hrun | exact Hin].
Defined.

(** ** Renaming a group *)

(** X21. PATCH replace displayName on a group, for a value that is a
    string, null, a boolean or an integer. The new name is the value as
    text: a string as it is, null as None, a boolean as True or False,
    an integer in decimal. A request whose single operation is such a
    replace does nothing and writes nothing when the new name is the
    current one; fails with Conflict, the store untouched, when another
    group holds the new name; and otherwise writes the name alone in one
    store call and answers with the renamed group, its members as
    before. *)
Theorem patch_rename_group (base gid : string) (sch : list string)
    (opname p : string) (v : Py.value) (g : GroupModel) (st : Store) :
  find (fun x => String.eqb (g_id x) gid) (groups st) = Some g ->
  Py.lower opname = "replace"%string ->
  Py.lower p = "displayname"%string ->
  Text.printed_plainly v ->
  let new_name :=
    match v with
    | Py.VStr s => s
    | Py.VNone => "None"%string
    | Py.VBool true => "True"%string
    | Py.VBool false => "False"%string
    | Py.VInt z => Py.str_of_Z z
    | _ => EmptyString
    end in
  let taken := existsb (fun h => (String.eqb (g_name h) new_name
                                  && negb (String.eqb (g_id h) gid))%bool) (groups st) in
  let request := mkPatch sch [mkOp opname (Some p) v] in
  (new_name = g_name g ->
   ScimGroups.patch_group base request gid st
   = (st, inr (group_to_scim_group g (Staged.members_of g st) base)))
  /\ (new_name <> g_name g -> taken = true ->
      ScimGroups.patch_group base request gid st = (st, inl SCIMConflictError))
  /\ (new_name <> g_name g -> taken = false ->
      let g' := mkGroup (g_id g) new_name (g_user_ids g) (g_created_at g) (g_updated_at g) in
      exists st',
        ScimGroups.patch_group base request gid st
        = (st', inr (group_to_scim_group g' (Staged.members_of g st) base))
        /\ find (fun x => String.eqb (g_id x) gid) (groups st') = Some g'
        /\ calls st' = calls st ++ [UpdateGroupById gid {["name"%string := DStr new_name]}]
        /\ users st' = users st).
Proof.
  intros Hf Ho Hp Hplain new_name taken request.
  assert (Hstr : Py.str v = new_name).
  { subst new_name. destruct v as [|[|]| | | |]; try reflexivity; destruct Hplain. }
  assert (Hop : ScimGroups.patch_group_op gid g (Staged.start g)
                  (mkOp opname (Some p) v) st
                = if negb (String.eqb new_name (g_name g))
                  then if taken then (st, inl SCIMConflictError)
                       else (st, inr (ScimGroups.mkPS (<["name"%string := DStr new_name]> ∅)
                                        (list_to_set (g_user_ids g)) false))
                  else (st, inr (Staged.start g))).
  { unfold ScimGroups.patch_group_op. cbn [op path value]. rewrite Ho.
    cbn [String.eqb Ascii.eqb Bool.eqb andb]. unfold path_is. rewrite Hp.
    assert (Ht : Py.truthy p = true) by (destruct p; [discriminate | reflexivity]).
    rewrite Ht. cbn [String.eqb Ascii.eqb Bool.eqb andb]. rewrite Hstr.
    destruct (negb (String.eqb new_name (g_name g))); [|reflexivity].
    unfold mbind, handler_bind, Db.bind, Groups.get_groups. fold taken.
    destruct taken; reflexivity. }
  clear Hstr.
  subst request. rewrite patch_group_cases, Hf. cbn [Operations for_each].
  unfold mbind, handler_bind, Db.bind. rewrite Hop.
  split; [|split].
  - intros Hsame. rewrite Hsame, String.eqb_refl. cbn [negb mret handler_ret Db.ret snd].
    unfold Staged.staged_fields, Staged.start.
    cbn [ScimGroups.members_changed ScimGroups.db_updates]. rewrite nonempty_empty.
    reflexivity.
  - intros Hdiff Htaken. apply String.eqb_neq in Hdiff. rewrite Hdiff, Htaken. reflexivity.
  - intros Hdiff Hfree.
    set (g' := mkGroup (g_id g) new_name (g_user_ids g) (g_created_at g) (g_updated_at g)).
    apply String.eqb_neq in Hdiff. rewrite Hdiff, Hfree.
    cbn [negb mret handler_ret Db.ret snd].
    unfold Staged.staged_fields. cbn [ScimGroups.members_changed ScimGroups.db_updates].
    assert (Hn : nonempty (<["name"%string := DStr new_name]> (∅ : gmap string dbval))
                 = true).
    { unfold nonempty. rewrite bool_decide_eq_false_2; [reflexivity | apply insert_non_empty]. }
    rewrite Hn.
    destruct (update_group_run gid (<["name"%string := DStr new_name]> ∅) g st Hf)
      as [st' [Hupd [Hcalls [Husers Hfind]]]].
    rewrite Hupd. cbn [fst]. exists st'.
    assert (Hg : Groups.apply_fields (<["name"%string := DStr new_name]> ∅) g = g').
    { unfold Groups.apply_fields. dict_lookups. reflexivity. }
    rewrite Hg in *. repeat split; assumption.
Qed.

Lemma patch_rename_group_witness :
  (exists st',
     ScimGroups.patch_group Fixtures.base_url
       (mkPatch [PATCH_OP_URN] [mkOp "replace" (Some "displayName"%string) Py.VNone])
       "group-1" Fixtures.store0
     = (st', inr (group_to_scim_group
                    (mkGroup "group-1" "None" ["user-1"%string]
                             (TsNumber 1670000000) (TsNumber 1670000000))
                    [Fixtures.mock_user1] Fixtures.base_url)))
  /\ ScimGroups.patch_group Fixtures.base_url
       (mkPatch [PATCH_OP_URN]
          [mkOp "replace" (Some "displayName"%string) (Py.VStr "Group Two")])
       "group-1" Fixtures.store0
     = (Fixtures.store0, inl SCIMConflictError).
Proof.
  split.
  - destruct (proj2 (proj2 (patch_rename_group Fixtures.base_url "group-1" [PATCH_OP_URN]
                              "replace" "displayName" Py.VNone Fixtures.mock_group1
                              Fixtures.store0 eq_refl eq_refl eq_refl I))
                ltac:(discriminate) eq_refl) as [st' [Hrun _]].
    exists st'. exact Hrun.
  - exact (proj1 (proj2 (patch_rename_group Fixtures.base_url "group-1" [PATCH_OP_URN]
                           "replace" "displayName" (Py.VStr "Group Two") Fixtures.mock_group1
                           Fixtures.store0 eq_refl eq_refl eq_refl I))
             ltac:(discriminate) eq_refl).
Defined.

(** ** PUT on a group *)

(** The dictionary a PUT on a group hands to the store. *)
Lemma group_put_dict (payload : SCIMGroup) :
  let d := delete "id"%string (ScimUtilsRest.scim_group_to_db_dict payload) in
  d !! "id"%string = None
  /\ d !! "name"%string = Some (DStr (displayName payload))
  /\ d !! "user_ids"%string
     = Some (DIds (map member_value (default [] (members payload))))
  /\ d !! "description"%string = Some (DStr EmptyString).
Proof.
  cbn zeta. unfold ScimUtilsRest.scim_group_to_db_dict.
  assert (Hm : match members payload with
               | Some (m :: ms) => map member_value (m :: ms)
               | _ => []
               end = map member_value (default [] (members payload)))
    by (destruct (members payload) as [[|m ms]|]; reflexivity).
  rewrite Hm.
  destruct (Py.truthy (group_id payload)), (Py.otruthy (group_externalId payload));
    dict_lookups; repeat split; reflexivity.
Qed.

(** What [replace_group] does, by cases on its checks. *)
Lemma replace_group_cases (base gid : string) (payload : SCIMGroup) (st : Store) :
  ScimGroupsRest.replace_group base payload gid st
  = if (Py.truthy (group_id payload) && negb (String.eqb (group_id payload) gid))%bool
    then (st, inl SCIMBadRequestError)
    else
      match find (fun x => String.eqb (g_id x) gid) (groups st) with
      | None => (st, inl SCIMNotFoundError)
      | Some g =>
          if (negb (String.eqb (displayName payload) (g_name g))
              && existsb (fun h => (String.eqb (g_name h) (displayName payload)
                                    && negb (String.eqb (g_id h) gid))%bool) (groups st))%bool
          then (st, inl SCIMConflictError)
          else
            let d := delete "id"%string (ScimUtilsRest.scim_group_to_db_dict payload) in
            (fst (Groups.update_group_by_id gid d st),
             inr (group_to_scim_group (Groups.apply_fields d g)
                    (Staged.members_of (Groups.apply_fields d g) st) base))
      end.
Proof.
  unfold ScimGroupsRest.replace_group.
  destruct (Py.truthy (group_id payload) && negb (String.eqb (group_id payload) gid))%bool;
    [reflexivity|].
  destruct (find (fun x => String.eqb (g_id x) gid) (groups st)) as [g|] eqn:Hf.
  - rewrite (bind_run _ _ st st (Some g))
      by (unfold Groups.get_group_by_id; rewrite Hf; reflexivity).
    cbn zeta.
    set (d := delete "id"%string (ScimUtilsRest.scim_group_to_db_dict payload)).
    destruct (update_group_run gid d g st Hf) as [st' [Hupd [_ [Husers _]]]].
    assert (Hrest : forall k : Handler unit, k st = (st, inr tt) ->
      (_ ← k;
       updated_group ← Groups.update_group_by_id gid d;
       updated_group ←
         match updated_group with
         | Some g => mret g
         | None =>
             refetched ← Groups.get_group_by_id gid;
             match refetched with
             | Some g => mret g
             | None => raise SCIMInternalServerError
             end
         end;
       member_user_models ← Users.get_users_by_user_ids (g_user_ids updated_group);
       mret (group_to_scim_group updated_group member_user_models base)) st
      = (fst (Groups.update_group_by_id gid d st),
         inr (group_to_scim_group (Groups.apply_fields d g)
                (Staged.members_of (Groups.apply_fields d g) st) base))).
    { intros k Hk. rewrite (bind_run _ _ st st tt Hk).
      rewrite (bind_run _ _ st st' _ Hupd). rewrite Hupd. cbn [fst].
      rewrite bind_ret_l.
      unfold mbind, handler_bind, Db.bind, mret, handler_ret, Db.ret,
        Users.get_users_by_user_ids, Staged.members_of.
      rewrite Husers. reflexivity. }
    destruct (negb (String.eqb (displayName payload) (g_name g))) eqn:Hchg; cbn [andb].
    + destruct (existsb (fun h => (String.eqb (g_name h) (displayName payload)
                                   && negb (String.eqb (g_id h) gid))%bool) (groups st))
        eqn:Hc.
      * apply bind_fail. unfold mbind, handler_bind, Db.bind, Groups.get_groups.
        rewrite Hc. reflexivity.
      * apply Hrest. unfold mbind, handler_bind, Db.bind, Groups.get_groups.
        rewrite Hc. reflexivity.
    + apply Hrest. reflexivity.
  - rewrite (bind_run _ _ st st None)
      by (unfold Groups.get_group_by_id; rewrite Hf; reflexivity).
    reflexivity.
Qed.

(** X22. A PUT on a group either fails and leaves the store exactly as
    it was, or writes to the store once. It fails with BadRequest when
    the payload carries an id other than the one in the path (before
    the group is looked up), with NotFound when the group is unknown,
    with Conflict when the new display name is held by another group.
    When it succeeds, the one write carries the display name, the member
    ids in the order of the payload (an absent member list gives the
    empty list), an empty description whatever the description was, and
    never an id; the users are untouched and the response is what a GET
    of the group returns on the store left behind. *)
Theorem group_put_outcome (base gid : string) (payload : SCIMGroup)
    (st st' : Store) (r : SCIMException + SCIMGroup) :
  ScimGroupsRest.replace_group base payload gid st = (st', r) ->
  match r with
  | inl e =>
      st' = st
      /\ (e = SCIMBadRequestError \/ e = SCIMNotFoundError \/ e = SCIMConflictError)
      /\ (group_id payload <> EmptyString -> group_id payload <> gid ->
          e = SCIMBadRequestError)
  | inr resp =>
      exists d,
        calls st' = calls st ++ [UpdateGroupById gid d]
        /\ d !! "id"%string = None
        /\ d !! "name"%string = Some (DStr (displayName payload))
        /\ d !! "user_ids"%string
           = Some (DIds (map member_value (default [] (members payload))))
        /\ d !! "description"%string = Some (DStr EmptyString)
        /\ users st' = users st
        /\ displayName resp = displayName payload
        /\ (map member_value <$> members resp)
           = Some (map member_value (default [] (members payload)))
        /\ ScimGroupsRest.get_group_by_id base gid None None st' = (st', inr resp)
  end.
Proof.
  rewrite replace_group_cases.
  assert (Hid : (Py.truthy (group_id payload) && negb (String.eqb (group_id payload) gid))%bool
                = false ->
                group_id payload <> EmptyString -> group_id payload <> gid -> False).
  { destruct (group_id payload) as [|c s]; [congruence|]. cbn [Py.truthy andb].
    destruct (String.eqb_spec (String c s) gid); [congruence | discriminate]. }
  destruct (Py.truthy (group_id payload) && negb (String.eqb (group_id payload) gid))%bool.
  { intros [= <- <-]. split; [reflexivity|]. split; [auto | reflexivity]. }
  specialize (Hid eq_refl).
  destruct (find (fun x => String.eqb (g_id x) gid) (groups st)) as [g|] eqn:Hf.
  - destruct (negb (String.eqb (displayName payload) (g_name g))
              && existsb _ (groups st))%bool.
    { intros [= <- <-]. split; [reflexivity|]. split; [auto|].
      intros H1 H2. destruct (Hid H1 H2). }
    cbn zeta. intros H.
    destruct (group_put_dict payload) as [Hd1 [Hd2 [Hd3 Hd4]]].
    set (d := delete "id"%string (ScimUtilsRest.scim_group_to_db_dict payload)) in *.
    destruct (update_group_run gid d g st Hf) as [st2 [Hupd [Hcalls [Husers Hfind]]]].
    rewrite Hupd in H. cbn [fst] in H. injection H as <- <-.
    exists d. repeat (split; [assumption|]).
    assert (Hg : Groups.apply_fields d g
                 = mkGroup (g_id g) (displayName payload)
                           (map member_value (default [] (members payload)))
                           (g_created_at g) (g_updated_at g)).
    { unfold Groups.apply_fields. rewrite Hd2, Hd3. reflexivity. }
    split; [rewrite Hg; reflexivity|].
    split.
    { rewrite Hg. unfold group_to_scim_group.
      cbn [members g_user_ids fmap option_fmap option_map].
      rewrite map_map. cbn [member_value]. rewrite map_id. reflexivity. }
    unfold ScimGroupsRest.get_group_by_id. cbn [Py.otruthy orb].
    rewrite (bind_run _ _ st2 st2 (Some (Groups.apply_fields d g)))
      by (unfold Groups.get_group_by_id; rewrite Hfind; reflexivity).
    unfold mbind, handler_bind, Db.bind, Users.get_users_by_user_ids, mret,
      handler_ret, Db.ret, Staged.members_of.
    rewrite Husers. reflexivity.
  - intros [= <- <-]. split; [reflexivity|]. split; [auto|].
    intros H1 H2. destruct (Hid H1 H2).
Qed.

Lemma group_put_outcome_witness :
  exists st' resp d,
    ScimGroupsRest.replace_group Fixtures.base_url Samples.payload_put_group "group-1"
      Fixtures.store0
    = (st', inr resp)
    /\ calls st' = calls Fixtures.store0 ++ [UpdateGroupById "group-1" d]
    /\ d !! "description"%string = Some (DStr EmptyString)
    /\ displayName resp = "Group One Updated"%string.
Proof.
  pose proof (group_put_outcome Fixtures.base_url "group-1" Samples.payload_put_group
                Fixtures.store0 _ _ (surjective_pairing _)) as H.
  destruct (snd (ScimGroupsRest.replace_group Fixtures.base_url Samples.payload_put_group
                   "group-1" Fixtures.store0)) as [e|resp] eqn:Hr.
  - exfalso. vm_compute in Hr. discriminate Hr.
  - destruct H as [d [Hcalls [_ [_ [_ [Hdesc [_ [Hname _]]]]]]]].
    eexists _, resp, d. split; [|split; [exact Hcalls | split; [exact Hdesc | exact Hname]]].
    rewrite <- Hr. apply surjective_pairing.
Defined.

(** X23. Reading a group and writing the representation back keeps
    the name and the members and resets the description. For a group
    found under the id in the path, a PUT of its GET representation
    (built with whatever users) always succeeds and issues one update
    call, whose dictionary carries the stored name, the stored member
    ids in their order, an empty description whatever the description
    was, and no id; the users are untouched and the answer is the
    representation a GET returns (name and members as before). *)
Theorem put_of_get_group (base gid : string) (g : GroupModel) (ms : list UserModel)
    (st : Store) :
  find (fun x => String.eqb (g_id x) gid) (groups st) = Some g ->
  exists st' d,
    ScimGroupsRest.replace_group base (group_to_scim_group g ms base) gid st
    = (st', inr (group_to_scim_group g (Staged.members_of g st) base))
    /\ calls st' = calls st ++ [UpdateGroupById gid d]
    /\ d !! "name"%string = Some (DStr (g_name g))
    /\ d !! "user_ids"%string = Some (DIds (g_user_ids g))
    /\ d !! "description"%string = Some (DStr EmptyString)
    /\ d !! "id"%string = None
    /\ users st' = users st
    /\ ScimGroupsRest.get_group_by_id base gid None None st'
       = (st', inr (group_to_scim_group g (Staged.members_of g st) base)).
Proof.
  intros Hf. destruct (find_by_key_In g_id gid (groups st) g Hf) as [_ Hgid].
  rewrite replace_group_cases.
  replace (group_id (group_to_scim_group g ms base)) with (g_id g) by reflexivity.
  replace (displayName (group_to_scim_group g ms base)) with (g_name g) by reflexivity.
  subst gid. rewrite Hf, !String.eqb_refl. cbn [negb andb]. rewrite Bool.andb_false_r.
  cbn zeta.
  destruct (group_put_dict (group_to_scim_group g ms base)) as [Hd1 [Hd2 [Hd3 Hd4]]].
  set (d := delete "id"%string
              (ScimUtilsRest.scim_group_to_db_dict (group_to_scim_group g ms base))) in *.
  destruct (update_group_run (g_id g) d g st Hf) as [st2 [Hupd [Hcalls [Husers Hfind]]]].
  rewrite Hupd. cbn [fst]. exists st2, d.
  assert (Hids : map member_value
                   (default [] (members (group_to_scim_group g ms base)))
                 = g_user_ids g).
  { unfold group_to_scim_group, default. cbn [members from_option id].
    rewrite map_map. cbn [member_value SCIMGroupMember_init]. apply map_id. }
  rewrite Hids in Hd3.
  assert (Hg : Groups.apply_fields d g = g).
  { unfold Groups.apply_fields. rewrite Hd2, Hd3. destruct g; reflexivity. }
  rewrite Hg in *.
  split; [reflexivity|]. split; [exact Hcalls|]. split; [exact Hd2|].
  split; [exact Hd3|]. split; [exact Hd4|]. split; [exact Hd1|]. split; [exact Husers|].
  unfold ScimGroupsRest.get_group_by_id. cbn [Py.otruthy orb].
  rewrite (bind_run _ _ st2 st2 (Some g))
    by (unfold Groups.get_group_by_id; rewrite Hfind; reflexivity).
  unfold mbind, handler_bind, Db.bind, Users.get_users_by_user_ids, mret,
    handler_ret, Db.ret, Staged.members_of.
  rewrite Husers. reflexivity.
Qed.

Lemma put_of_get_group_witness :
  exists st' d,
    ScimGroupsRest.replace_group Fixtures.base_url
      (group_to_scim_group Fixtures.mock_group2 [] Fixtures.base_url) "group-2"
      Fixtures.store0
    = (st', inr (group_to_scim_group Fixtures.mock_group2
                   (Staged.members_of Fixtures.mock_group2 Fixtures.store0)
                   Fixtures.base_url))
    /\ calls st' = calls Fixtures.store0 ++ [UpdateGroupById "group-2" d]
    /\ d !! "user_ids"%string = Some (DIds ["user-1"%string; "user-2"%string])
    /\ d !! "description"%string = Some (DStr EmptyString).
Proof.
  destruct (put_of_get_group Fixtures.base_url "group-2" Fixtures.mock_group2 []
              Fixtures.store0 eq_refl)
    as [st' [d [Hrun [Hcalls [_ [Hids [Hdesc _]]]]]]].
  exists st', d. repeat split; assumption.
Defined.

(** ** Group writes keep display names apart *)

(** Updating the one record under a key keeps an attribute free of
    repetitions when its new value is the old one or is held by no
    record. *)
Lemma update_keeps_apart {A} (key attr : A -> string) (f : A -> A) (k : string)
    (l : list A) (a : A) :
  NoDup (map key l) -> NoDup (map attr l) ->
  find (fun x => String.eqb (key x) k) l = Some a ->
  (attr (f a) = attr a \/ ~ In (attr (f a)) (map attr l)) ->
  NoDup (map attr (map (fun x => if String.eqb (key x) k then f x else x) l)).
Proof.
  induction l as [|b l IH]; intros Hid Hattr Hf Hnew; [constructor|].
  cbn [map] in *. apply NoDup_cons in Hid. destruct Hid as [Hbi Hid].
  apply NoDup_cons in Hattr. destruct Hattr as [Hba Hattr].
  rewrite list_elem_of_In in Hbi, Hba.
  cbn [find] in Hf. destruct (String.eqb_spec (key b) k) as [E|E].
  - injection Hf as <-.
    rewrite map_update_absent.
    + apply NoDup_cons. split; [|exact Hattr]. rewrite list_elem_of_In.
      destruct Hnew as [-> | Hfresh]; [exact Hba|].
      intros Hin. apply Hfresh. right. exact Hin.
    + intros x Hx Hk. apply Hbi. rewrite E, <- Hk. apply in_map. exact Hx.
  - apply NoDup_cons. split.
    + rewrite list_elem_of_In.
      intros Hin. apply in_map_iff in Hin. destruct Hin as [y [Hy Hyin]].
      apply in_map_iff in Hyin. destruct Hyin as [x [<- Hx]].
      destruct (String.eqb_spec (key x) k) as [Ex|Ex].
      * assert (Hxa : x = a).
        { destruct (find_by_key_In key k l a Hf) as [Ha Hak].
          apply (same_key_same_record key l); try assumption. congruence. }
        subst x. destruct Hnew as [Hsame | Hfresh].
        -- apply Hba. rewrite <- Hy, Hsame. apply in_map. exact Hx.
        -- apply Hfresh. left. symmetry. exact Hy.
      * apply Hba. rewrite <- Hy. apply in_map. exact Hx.
    + apply IH; try assumption.
      destruct Hnew as [Hsame | Hfresh]; [left; exact Hsame|].
      right. intros Hin. apply Hfresh. right. exact Hin.
Qed.

(** A name that passed the check of the group handlers is the group's
    own or is held by no group. *)
Lemma checked_name_is_free (gid new_name : string) (g : GroupModel) (l : list GroupModel) :
  NoDup (map g_id l) ->
  find (fun x => String.eqb (g_id x) gid) l = Some g ->
  existsb (fun h => (String.eqb (g_name h) new_name
                     && negb (String.eqb (g_id h) gid))%bool) l = false ->
  new_name = g_name g \/ ~ In new_name (map g_name l).
Proof.
  intros Hid Hf Hchk.
  destruct (in_dec string_dec new_name (map g_name l)) as [Hin|Hout]; [left | right; exact Hout].
  apply in_map_iff in Hin. destruct Hin as [h [Hh Hhin]].
  assert (Hfalse : (String.eqb (g_name h) new_name && negb (String.eqb (g_id h) gid))%bool
                   = false).
  { destruct (String.eqb (g_name h) new_name && negb (String.eqb (g_id h) gid))%bool eqn:E;
      [|reflexivity].
    assert (Hex : existsb (fun h => (String.eqb (g_name h) new_name
                                     && negb (String.eqb (g_id h) gid))%bool) l = true)
      by (apply existsb_exists; exists h; split; assumption).
    congruence. }
  rewrite Hh, String.eqb_refl in Hfalse. cbn [andb] in Hfalse.
  apply Bool.negb_false_iff, String.eqb_eq in Hfalse.
  destruct (find_by_key_In g_id gid l g Hf) as [Hgin Hgid].
  assert (h = g) by (apply (same_key_same_record g_id l); congruence).
  subst h. symmetry. exact Hh.
Qed.

(** What a loop state of [patch_group] stages under name, as a string. *)
Lemma group_op_stages_checked_name (gid : string) (g : GroupModel)
    (s s' : ScimGroups.PatchState) (o : SCIMPatchOp) (st : Store) :
  snd (ScimGroups.patch_group_op gid g s o st) = inr s' ->
  ScimGroups.db_updates s' = ScimGroups.db_updates s
  \/ exists n, ScimGroups.db_updates s' = <["name"%string := DStr n]> (ScimGroups.db_updates s)
               /\ existsb (fun h => (String.eqb (g_name h) n
                                     && negb (String.eqb (g_id h) gid))%bool) (groups st)
                  = false.
Proof.
  unfold ScimGroups.patch_group_op.
  destruct (String.eqb (Py.lower (op o)) "replace").
  { destruct (path_is "displayname" (path o)).
    - destruct (negb (String.eqb (Py.str (value o)) (g_name g))).
      + unfold mbind, handler_bind, Db.bind, Groups.get_groups.
        destruct (existsb _ (groups st)) eqn:Hchk; [discriminate|].
        intros [= <-]. right. exists (Py.str (value o)). split; [reflexivity | exact Hchk].
      + intros [= <-]. left. reflexivity.
    - destruct (path_is "members" (path o)); [|discriminate].
      unfold mbind, handler_bind, Db.bind.
      destruct (if Py.vtruthy (value o) then _ else _) as [st1 [e|ids]]; [discriminate|].
      intros [= <-]. left. reflexivity. }
  destruct (String.eqb (Py.lower (op o)) "add").
  { destruct (path_is "members" (path o)); [|discriminate].
    destruct (negb (Py.vtruthy (value o)) || negb (Py.is_list (value o)))%bool;
      [discriminate|].
    unfold mbind, handler_bind, Db.bind.
    destruct (ScimGroups.add_members _ _ _ st) as [st1 [e|ids]]; [discriminate|].
    intros [= <-]. left. reflexivity. }
  destruct (String.eqb (Py.lower (op o)) "remove"); [|discriminate].
  destruct (path o) as [p|]; [|discriminate].
  destruct (Py.truthy p && Py.startswith "members[value eq" p)%bool; [|discriminate].
  destruct (ScimGroups.quoted_id p) as [x|]; [|discriminate].
  destruct (bool_decide (x ∈ ScimGroups.current_user_ids s)); intros [= <-]; left; reflexivity.
Qed.

Lemma group_loop_stages_checked_name (gid : string) (g : GroupModel)
    (ops : list SCIMPatchOp) (s s' : ScimGroups.PatchState) (st : Store) :
  (forall v, ScimGroups.db_updates s !! "name"%string = Some v ->
             exists n, v = DStr n
                       /\ existsb (fun h => (String.eqb (g_name h) n
                                             && negb (String.eqb (g_id h) gid))%bool)
                            (groups st) = false) ->
  snd (for_each (ScimGroups.patch_group_op gid g) ops s st) = inr s' ->
  forall v, ScimGroups.db_updates s' !! "name"%string = Some v ->
            exists n, v = DStr n
                      /\ existsb (fun h => (String.eqb (g_name h) n
                                            && negb (String.eqb (g_id h) gid))%bool)
                           (groups st) = false.
Proof.
  revert s. induction ops as [|o ops IH]; intros s Hinv.
  - cbn [for_each]. intros [= <-]. exact Hinv.
  - cbn [for_each]. unfold mbind, handler_bind, Db.bind.
    pose proof (patch_group_op_reads_only gid g s o st) as Hst.
    pose proof (group_op_stages_checked_name gid g s) as Hop.
    destruct (ScimGroups.patch_group_op gid g s o st) as [st1 [e|s1]] eqn:E;
      cbn [fst snd] in *; [discriminate|]. subst st1.
    apply IH. intros v Hv.
    destruct (Hop s1 o st) as [Hsame | [n [Hn Hchk]]].
    + rewrite E. reflexivity.
    + rewrite Hsame in Hv. exact (Hinv v Hv).
    + rewrite Hn, lookup_insert_eq in Hv. injection Hv as <-. exists n. split; [reflexivity|].
      exact Hchk.
Qed.

Lemma groups_after_update (gid : string) (fields : gmap string dbval) (g : GroupModel)
    (st : Store) :
  find (fun x => String.eqb (g_id x) gid) (groups st) = Some g ->
  groups (fst (Groups.update_group_by_id gid fields st))
  = map (fun x => if String.eqb (g_id x) gid then Groups.apply_fields fields x else x)
        (groups st).
Proof.
  intros Hf. unfold Groups.update_group_by_id. rewrite Hf. reflexivity.
Qed.

Lemma group_ids_after_update (gid : string) (fields : gmap string dbval)
    (l : list GroupModel) :
  map g_id (map (fun x => if String.eqb (g_id x) gid then Groups.apply_fields fields x else x) l)
  = map g_id l.
Proof.
  rewrite map_map. apply map_ext. intros x.
  destruct (String.eqb (g_id x) gid); reflexivity.
Qed.

(** X24. PATCH and PUT on a group never make two groups share a display
    name: on a store whose groups have pairwise different ids and
    pairwise different names, whatever the request and whatever its
    outcome, the groups still have pairwise different names afterwards,
    and the ids are the same in the same order. *)
Theorem group_writes_keep_names_apart (base gid : string) (req : SCIMPatchRequest)
    (payload : SCIMGroup) (st : Store) :
  NoDup (map g_id (groups st)) ->
  NoDup (map g_name (groups st)) ->
  let after_patch := fst (ScimGroups.patch_group base req gid st) in
  let after_put := fst (ScimGroupsRest.replace_group base payload gid st) in
  NoDup (map g_name (groups after_patch))
  /\ map g_id (groups after_patch) = map g_id (groups st)
  /\ NoDup (map g_name (groups after_put))
  /\ map g_id (groups after_put) = map g_id (groups st).
Proof.
  intros Hid Hname. cbn zeta.
  assert (Hpatch : NoDup (map g_name (groups (fst (ScimGroups.patch_group base req gid st))))
                   /\ map g_id (groups (fst (ScimGroups.patch_group base req gid st)))
                      = map g_id (groups st)).
  { rewrite patch_group_cases.
    destruct (find (fun x => String.eqb (g_id x) gid) (groups st)) as [g|] eqn:Hf;
      [|split; [exact Hname | reflexivity]].
    destruct (snd (for_each (ScimGroups.patch_group_op gid g) (Operations req)
                     (Staged.start g) st)) as [e|s] eqn:Hloop;
      [split; [exact Hname | reflexivity]|].
    destruct (nonempty (Staged.staged_fields s)); [|split; [exact Hname | reflexivity]].
    cbn [fst]. rewrite (groups_after_update gid _ g st Hf).
    split; [|apply group_ids_after_update].
    apply (update_keeps_apart g_id g_name _ gid (groups st) g Hid Hname Hf).
    unfold Groups.apply_fields. cbn [g_name].
    assert (Hlk : Staged.staged_fields s !! "name"%string
                  = ScimGroups.db_updates s !! "name"%string).
    { unfold Staged.staged_fields. destruct (ScimGroups.members_changed s); [|reflexivity].
      apply lookup_insert_ne. discriminate. }
    rewrite Hlk.
    destruct (ScimGroups.db_updates s !! "name"%string) as [v|] eqn:Hv;
      [|left; reflexivity].
    destruct (group_loop_stages_checked_name gid g (Operations req) (Staged.start g) s st)
      with (v := v) as [n [-> Hchk]]; try assumption.
    { intros w Hw. cbn [Staged.start ScimGroups.db_updates] in Hw.
      rewrite lookup_empty in Hw. discriminate. }
    apply (checked_name_is_free gid n g (groups st) Hid Hf Hchk). }
  split; [exact (proj1 Hpatch)|]. split; [exact (proj2 Hpatch)|].
  rewrite replace_group_cases.
  destruct (Py.truthy (group_id payload) && negb (String.eqb (group_id payload) gid))%bool;
    [split; [exact Hname | reflexivity]|].
  destruct (find (fun x => String.eqb (g_id x) gid) (groups st)) as [g|] eqn:Hf;
    [|split; [exact Hname | reflexivity]].
  destruct (String.eqb_spec (displayName payload) (g_name g)) as [Esame|Ediff];
    cbn [negb andb].
  - cbn zeta. cbn [fst]. rewrite (groups_after_update gid _ g st Hf).
    split; [|apply group_ids_after_update].
    apply (update_keeps_apart g_id g_name _ gid (groups st) g Hid Hname Hf).
    destruct (group_put_dict payload) as [_ [Hd2 _]].
    unfold Groups.apply_fields. cbn [g_name]. rewrite Hd2. left. exact Esame.
  - destruct (existsb _ (groups st)) eqn:Hchk; [split; [exact Hname | reflexivity]|].
    cbn zeta. cbn [fst]. rewrite (groups_after_update gid _ g st Hf).
    split; [|apply group_ids_after_update].
    apply (update_keeps_apart g_id g_name _ gid (groups st) g Hid Hname Hf).
    destruct (group_put_dict payload) as [_ [Hd2 _]].
    unfold Groups.apply_fields. cbn [g_name]. rewrite Hd2.
    apply (checked_name_is_free gid _ g (groups st) Hid Hf Hchk).
Qed.

Lemma group_writes_keep_names_apart_witness :
  NoDup (map g_id (groups Fixtures.store0))
  /\ NoDup (map g_name (groups Fixtures.store0))
  /\ map g_name (groups (fst (ScimGroups.patch_group Fixtures.base_url
                                Fixtures.patch_rename_and_add "group-1" Fixtures.store0)))
     = ["Engineering"%string; "Group Two"%string]
  /\ NoDup (map g_name (groups (fst (ScimGroups.patch_group Fixtures.base_url
                                       Fixtures.patch_rename_and_add "group-1"
                                       Fixtures.store0))))
  /\ NoDup (map g_name (groups (fst (ScimGroupsRest.replace_group Fixtures.base_url
                                       Samples.payload_put_group "group-1"
                                       Fixtures.store0)))).
Proof.
  assert (Hid : NoDup (map g_id (groups Fixtures.store0))).
  { cbn. repeat (apply NoDup_cons; split; [rewrite list_elem_of_In; cbn; intuition discriminate|]).
    constructor. }
  assert (Hname : NoDup (map g_name (groups Fixtures.store0))).
  { cbn. repeat (apply NoDup_cons; split; [rewrite list_elem_of_In; cbn; intuition discriminate|]).
    constructor. }
  split; [exact Hid|]. split; [exact Hname|]. split; [vm_compute; reflexivity|].
  pose proof (group_writes_keep_names_apart Fixtures.base_url "group-1"
                Fixtures.patch_rename_and_add Samples.payload_put_group Fixtures.store0
                Hid Hname) as H.
  cbn zeta in H. split; [exact (proj1 H) | exact (proj1 (proj2 (proj2 H)))].
Defined.

(** ** POST of a group *)

Lemma existsb_name_In (n : string) (l : list GroupModel) :
  existsb (fun g => String.eqb (g_name g) n) l = true <-> In n (map g_name l).
Proof.
  rewrite existsb_exists, in_map_iff. split.
  - intros [g [Hin Heq]]. exists g. split; [apply String.eqb_eq; exact Heq | exact Hin].
  - intros [g [Heq Hin]]. exists g. split; [exact Hin | apply String.eqb_eq; exact Heq].
Qed.

(** X25. POST of a group, whatever the store does on insertion, never
    answers with a representation. The request is refused with
    BadRequest exactly when the display name is empty, and with Conflict
    exactly when the display name is not empty and is the name of a
    stored group; in both cases, and when no user has the role admin,
    the store is left as it was and the insertion is never attempted.
    When the insertion is attempted (for the first admin of the store,
    with the display name and an empty description) and returns a group,
    the request fails with an uncaught exception (500 without a SCIM
    type) while building the body of the answer, after the group was
    inserted; when the insertion returns nothing or raises, the request
    fails with InternalServerError. *)
Theorem create_group_outcome
    (insert_new_group : string -> string -> string -> Handler (option GroupModel))
    (base : string) (payload : SCIMGroup) (st st' : Store)
    (r : SCIMException + SCIMGroup * string) :
  ScimGroupsRest.create_group insert_new_group base payload st = (st', r) ->
  let admins := List.filter (fun u => String.eqb (u_role u) "admin") (users st) in
  exists e,
    r = inl e
    /\ (e = SCIMBadRequestError <-> displayName payload = EmptyString)
    /\ (e = SCIMConflictError <->
        displayName payload <> EmptyString
        /\ In (displayName payload) (map g_name (groups st)))
    /\ (e = SCIMBadRequestError \/ e = SCIMConflictError \/ admins = [] -> st' = st)
    /\ (uncaught e = false ->
        e = SCIMBadRequestError \/ e = SCIMConflictError \/ e = SCIMInternalServerError)
    /\ (uncaught e = true <->
        displayName payload <> EmptyString
        /\ ~ In (displayName payload) (map g_name (groups st))
        /\ exists owner rest st1 g0,
             admins = owner :: rest
             /\ insert_new_group (u_id owner) (displayName payload) EmptyString st
                = (st1, inr (Some g0))).
Proof.
  intros H admins. unfold ScimGroupsRest.create_group in H. revert H.
  destruct (displayName payload) as [|c s] eqn:Hname; cbn [Py.truthy negb].
  { intros [= <- <-]. eexists. split; [reflexivity|].
    repeat split; try reflexivity; try discriminate; auto.
    - intros [H _]. congruence.
    - intros [H _]. congruence. }
  unfold mbind at 1. unfold handler_bind, Db.bind, Groups.get_groups.
  destruct (existsb (fun g => String.eqb (g_name g) (String c s)) (groups st)) eqn:Hex.
  { intros [= <- <-]. apply existsb_name_In in Hex. eexists. split; [reflexivity|].
    repeat split; try reflexivity; try discriminate; auto.
    intros [_ [Hfree _]]. contradiction. }
  assert (Hfree : ~ In (String c s) (map g_name (groups st))).
  { intros Hin. apply existsb_name_In in Hin. congruence. }
  unfold mbind at 1. unfold handler_bind, Db.bind, Users.get_users. fold admins.
  destruct admins as [|owner rest] eqn:Hadmin.
  { intros [= <- <-]. eexists. split; [reflexivity|].
    repeat split; try reflexivity; try discriminate; auto.
    - intros [_ Hin]. contradiction.
    - intros [_ [_ [o [r0 [s1 [g0 [Habs _]]]]]]]. discriminate. }
  assert (Hd : forall k v,
             delete "id"%string (ScimUtilsRest.scim_group_to_db_dict payload) !! k = Some v ->
             k <> "id"%string ->
             ScimUtilsRest.scim_group_to_db_dict payload !! k = Some v).
  { intros k v Hk Hne. rewrite lookup_delete_ne in Hk by congruence. exact Hk. }
  destruct (group_put_dict payload) as [_ [Hd2 [_ Hd4]]].
  rewrite (Hd _ _ Hd2) by discriminate. rewrite (Hd _ _ Hd4) by discriminate.
  rewrite Hname.
  match goal with
  | |- context [rethrow ?m _] => set (attempt := m)
  end.
  destruct (insert_new_group (u_id owner) (String c s) EmptyString st)
    as [st1 [e|[g0|]]] eqn:Hins.
  - assert (Hm : attempt st = (st1, inl e)).
    { subst attempt. unfold mbind, handler_bind, Db.bind. rewrite Hins. reflexivity. }
    unfold mbind, handler_bind, Db.bind, rethrow. rewrite Hm.
    intros [= <- <-]. eexists. split; [reflexivity|].
    repeat split; try discriminate; auto.
    + intros [_ Hin]. contradiction.
    + intros [H|[H|H]]; discriminate.
    + intros [_ [_ [o [r0 [s1 [g1 [Heq Habs]]]]]]]. injection Heq as <- <-.
      rewrite Hins in Habs. discriminate.
  - assert (Hm : exists st2 g2, attempt st = (st2, inr g2)).
    { subst attempt. unfold mbind at 1. unfold handler_bind, Db.bind. rewrite Hins.
      destruct (ScimUtilsRest.scim_group_to_db_dict payload !! "user_ids"%string)
        as [[|[|i ids]]|]; try (eexists _, _; reflexivity).
      unfold mbind, handler_bind, Db.bind.
      destruct (Groups.update_group_by_id (g_id g0) _ st1) as [st2 [e|[g|]]] eqn:Hupd.
      - unfold Groups.update_group_by_id in Hupd.
        destruct (find _ (groups st1)); discriminate.
      - eexists _, _; reflexivity.
      - eexists _, _; reflexivity. }
    destruct Hm as [st2 [g2 Hm]].
    unfold mbind, handler_bind, Db.bind, rethrow. rewrite Hm.
    cbn [Users.get_users_by_user_ids model_dump raise].
    intros [= <- <-]. eexists. split; [reflexivity|].
    repeat split; try discriminate; auto.
    + intros [_ Hin]. contradiction.
    + intros [H|[H|H]]; discriminate.
    + exists owner, rest, st1, g0. split; [reflexivity | exact Hins].
  - assert (Hm : attempt st = (st1, inl SCIMInternalServerError)).
    { subst attempt. unfold mbind, handler_bind, Db.bind. rewrite Hins. reflexivity. }
    unfold mbind, handler_bind, Db.bind, rethrow. rewrite Hm.
    intros [= <- <-]. eexists. split; [reflexivity|].
    repeat split; try discriminate; auto.
    + intros [_ Hin]. contradiction.
    + intros [H|[H|H]]; discriminate.
    + intros [_ [_ [o [r0 [s1 [g1 [Heq Habs]]]]]]]. injection Heq as <- <-.
      rewrite Hins in Habs. discriminate.
Qed.

Lemma create_group_outcome_witness :
  ScimGroupsRest.create_group Samples.insert_refused Fixtures.base_url
    Samples.payload_group_conflict Fixtures.store0
  = (Fixtures.store0, inl SCIMConflictError)
  /\ exists e, @inl SCIMException (SCIMGroup * string) SCIMConflictError = inl e
               /\ (e = SCIMConflictError <->
                   displayName Samples.payload_group_conflict <> EmptyString
                   /\ In (displayName Samples.payload_group_conflict)
                        (map g_name (groups Fixtures.store0))).
Proof.
  assert (H : ScimGroupsRest.create_group Samples.insert_refused Fixtures.base_url
                Samples.payload_group_conflict Fixtures.store0
              = (Fixtures.store0, inl SCIMConflictError))
    by (vm_compute; reflexivity).
  split; [exact H|].
  destruct (create_group_outcome _ _ _ _ _ _ H) as [e [He [_ [Hc _]]]].
  exists e. split; [exact He | exact Hc].
Defined.

(** ** The bearer-token check *)

Lemma partition_found (sep : ascii) (b a : string) :
  Text.free_of sep b ->
  ScimAuth.partition sep (String.append b (String sep a)) = (b, String sep EmptyString, a).
Proof.
  induction b as [|c b IH]; intros Hfree.
  - change (String.append EmptyString (String sep a)) with (String sep a).
    cbn [ScimAuth.partition]. rewrite Ascii.eqb_refl. reflexivity.
  - rewrite append_cons. cbn [ScimAuth.partition].
    destruct (Ascii.eqb_spec c sep) as [E|_].
    + exfalso. apply (Hfree c); [left; reflexivity | exact E].
    + rewrite IH; [reflexivity|]. intros d Hd. apply Hfree. right. exact Hd.
Qed.

Lemma partition_inv (sep : ascii) (s b f a : string) :
  ScimAuth.partition sep s = (b, f, a) ->
  Text.free_of sep b
  /\ ((f = EmptyString /\ a = EmptyString /\ s = b)
      \/ (f = String sep EmptyString /\ s = String.append b (String sep a))).
Proof.
  revert b f a. induction s as [|c s IH]; intros b f a.
  - cbn [ScimAuth.partition]. intros [= <- <- <-]. split; [intros c []|]. left. auto.
  - cbn [ScimAuth.partition]. destruct (Ascii.eqb_spec c sep) as [->|Hne].
    + intros [= <- <- <-]. split; [intros c []|]. right. split; reflexivity.
    + destruct (ScimAuth.partition sep s) as [[b' f'] a'].
      intros [= <- <- <-]. destruct (IH b' f' a' eq_refl) as [Hfree Hshape].
      split.
      * intros d [<-|Hd]; [exact Hne | exact (Hfree d Hd)].
      * destruct Hshape as [[-> [-> ->]] | [-> ->]].
        -- left. auto.
        -- right. split; [reflexivity | rewrite append_cons; reflexivity].
Qed.

(** X26. Who passes the bearer-token check. A request is let through
    exactly when SCIM is enabled, the configured token is a non-empty
    string, and the Authorization header is a scheme that spells bearer
    in any letter case, one space, and the configured token, character
    for character (the token may itself hold spaces; a second space
    after the scheme belongs to the credentials). The check never
    answers with anything but the grant or an error status, and with
    SCIM disabled the status is 403 whatever the header. *)
Theorem bearer_check_grants (cfg : ScimAuth.Config) (authorization : option string) :
  (ScimAuth.verify_scim_request cfg authorization = inr true
   <-> ScimAuth.ENABLE_SCIM cfg = true
       /\ exists scheme token,
            authorization = Some (String.append scheme (String " " token))
            /\ Text.free_of " " scheme
            /\ Py.lower scheme = "bearer"%string
            /\ token <> EmptyString
            /\ ScimAuth.SCIM_TOKEN cfg = Py.VStr token)
  /\ ScimAuth.verify_scim_request cfg authorization <> inr false
  /\ (ScimAuth.ENABLE_SCIM cfg = false ->
      ScimAuth.verify_scim_request cfg authorization = inl 403).
Proof.
  unfold ScimAuth.verify_scim_request.
  destruct (ScimAuth.ENABLE_SCIM cfg); cbn [negb].
  2: { split; [|split; [discriminate | reflexivity]].
       split; [discriminate | intros [H _]; discriminate]. }
  destruct authorization as [h|].
  2: { split; [|split; [discriminate | discriminate]].
       split; [discriminate | intros [_ [s [t [H _]]]]; discriminate]. }
  destruct (Py.truthy h) eqn:Hh; cbn [negb].
  2: { split; [|split; [discriminate | discriminate]].
       split; [discriminate|]. intros [_ [s [t [[= ->] _]]]].
       destruct s; discriminate. }
  destruct (ScimAuth.partition " " h) as [[scheme found] credentials] eqn:Hpart.
  destruct (partition_inv _ _ _ _ _ Hpart) as [Hfree Hshape].
  assert (Hback : forall s t, h = String.append s (String " " t) -> Text.free_of " " s ->
                              s = scheme /\ t = credentials).
  { intros s t -> Hs. rewrite (partition_found " " s t Hs) in Hpart.
    injection Hpart as <- _ <-. split; reflexivity. }
  destruct (String.eqb_spec (Py.lower scheme) "bearer") as [Hsch|Hsch]; cbn [negb orb].
  2: { split; [|split; [discriminate | discriminate]].
       split; [discriminate|]. intros [_ [s [t [[= Hs] [Hf [Hl _]]]]]].
       destruct (Hback s t Hs Hf) as [-> _]. contradiction. }
  destruct (Py.truthy credentials) eqn:Hcred; cbn [negb].
  2: { split; [|split; [discriminate | discriminate]].
       split; [discriminate|]. intros [_ [s [t [[= Hs] [Hf [_ [Hne _]]]]]]].
       destruct (Hback s t Hs Hf) as [_ ->]. destruct credentials; [congruence | discriminate]. }
  assert (Hh_eq : h = String.append scheme (String " " credentials)).
  { destruct Hshape as [[_ [-> _]] | [_ ->]]; [discriminate | reflexivity]. }
  destruct (ScimAuth.SCIM_TOKEN cfg) as [| | |tok| |] eqn:Htok;
    try (split; [|split; [discriminate | discriminate]];
         split; [discriminate | intros [_ [s [t [_ [_ [_ [_ H]]]]]]]; discriminate]).
  destruct (Py.truthy tok) eqn:Htt; cbn [negb].
  2: { split; [|split; [discriminate | discriminate]].
       split; [discriminate|]. intros [_ [s [t [_ [_ [_ [Hne [= ->]]]]]]]].
       destruct t; [congruence | discriminate]. }
  destruct (String.eqb_spec tok credentials) as [E|E].
  - split; [|split; [discriminate | discriminate]].
    split; [|reflexivity]. intros _. split; [reflexivity|].
    exists scheme, credentials. subst tok.
    repeat split; try assumption; try reflexivity.
    + rewrite Hh_eq. reflexivity.
    + destruct credentials; [discriminate | discriminate].
  - split; [|split; [discriminate | discriminate]].
    split; [discriminate|]. intros [_ [s [t [[= Hs] [Hf [_ [_ [= ->]]]]]]]].
    destruct (Hback s t Hs Hf) as [_ ->]. contradiction.
Qed.

Lemma str_of_Z_nonempty (z : Z) : Py.str_of_Z z <> EmptyString.
Proof.
  unfold Py.str_of_Z. destruct z as [|q|q]; cbn.
  - discriminate.
  - pose proof (Unsigned.to_uint_nonnil q) as H.
    destruct (Pos.to_uint q); try congruence; cbn; discriminate.
  - discriminate.
Qed.

(** X27. The earlier check of [routers/scim.py] against the current
    one. With a configured token that is a non-empty string the two give
    the same answer on every header. With a token that is null, a
    boolean or an integer they part: the earlier check compares the
    credentials with the token printed as text (None, True, False, the
    decimal digits), so it lets through a bearer header that carries
    that text, where the current check answers 500. *)
Theorem earlier_check_accepts_printed_token (cfg : ScimAuth.Config) (scheme : string) :
  ScimAuth.ENABLE_SCIM cfg = true ->
  Text.free_of " " scheme ->
  Py.lower scheme = "bearer"%string ->
  (forall token, ScimAuth.SCIM_TOKEN cfg = Py.VStr token -> token <> EmptyString ->
     forall authorization,
       ScimAuth.verify_scim_token cfg authorization
       = ScimAuth.verify_scim_request cfg authorization)
  /\ (forall printed,
        match ScimAuth.SCIM_TOKEN cfg with
        | Py.VNone => printed = "None"%string
        | Py.VBool true => printed = "True"%string
        | Py.VBool false => printed = "False"%string
        | Py.VInt z => printed = Py.str_of_Z z
        | _ => False
        end ->
        let header := String.append scheme (String " " printed) in
        ScimAuth.verify_scim_token cfg (Some header) = inr true
        /\ ScimAuth.verify_scim_request cfg (Some header) = inl 500).
Proof.
  intros Hen Hfree Hlow. split.
  - intros token Htok Hne authorization.
    unfold ScimAuth.verify_scim_token, ScimAuth.verify_scim_request.
    rewrite Htok. cbn [Py.str].
    destruct token as [|c t]; [congruence|]. cbn [Py.truthy negb]. reflexivity.
  - intros printed Hprinted header.
    assert (Hstr : Py.str (ScimAuth.SCIM_TOKEN cfg) = printed
                   /\ printed <> EmptyString
                   /\ Py.is_str (ScimAuth.SCIM_TOKEN cfg) = false).
    { destruct (ScimAuth.SCIM_TOKEN cfg) as [|[|]|z| | |]; try contradiction;
        subst printed; (split; [reflexivity|]); (split; [|reflexivity]);
        try discriminate.
      apply str_of_Z_nonempty. }
    destruct Hstr as [Hstr [Hne Hnot]].
    unfold ScimAuth.verify_scim_token, ScimAuth.verify_scim_request. rewrite Hen.
    cbn [negb].
    assert (Hh : Py.truthy header = true).
    { subst header. destruct scheme; reflexivity. }
    rewrite Hh. cbn [negb]. subst header.
    rewrite (partition_found " " scheme _ Hfree), Hlow, String.eqb_refl.
    cbn [String.eqb Ascii.eqb Bool.eqb negb orb].
    assert (Hc : Py.truthy printed = true).
    { destruct printed; [congruence | reflexivity]. }
    rewrite Hc, Hstr. cbn [negb].
    split; [rewrite String.eqb_refl; reflexivity|].
    destruct (ScimAuth.SCIM_TOKEN cfg); try reflexivity. discriminate.
Qed.

Lemma earlier_check_accepts_printed_token_witness :
  ScimAuth.verify_scim_token Samples.config_without_token (Some "Bearer None"%string)
  = inr true
  /\ ScimAuth.verify_scim_request Samples.config_without_token (Some "Bearer None"%string)
     = inl 500.
Proof.
  assert (Hfree : Text.free_of " " "Bearer")
    by (intros c Hc; cbn in Hc;
        repeat (destruct Hc as [<-|Hc]; [discriminate|]); destruct Hc).
  exact (proj2 (earlier_check_accepts_printed_token Samples.config_without_token "Bearer"
                  eq_refl Hfree eq_refl) "None"%string eq_refl).
Defined.

(** ** Resource types *)

(** X28. The resource-type list and the lookup by name agree. A lookup
    succeeds exactly for a name that spells, in any letter case, the
    name of a listed resource type, and answers with that listed entry;
    every other name is NotFound. The list holds two entries and counts
    them in totalResults and itemsPerPage. *)
Theorem resource_type_lookup_agrees_with_list (base type_name : string) :
  let listed := ScimResourceTypes.types_Resources (ScimResourceTypes.get_resource_types base) in
  match ScimResourceTypes.get_resource_type_by_name base type_name with
  | inr t => In t listed /\ Py.lower type_name = Py.lower (ScimResourceTypes.type_name t)
  | inl e =>
      e = SCIMNotFoundError
      /\ forall t, In t listed -> Py.lower type_name <> Py.lower (ScimResourceTypes.type_name t)
  end
  /\ ScimResourceTypes.types_totalResults (ScimResourceTypes.get_resource_types base)
     = Z.of_nat (length listed)
  /\ ScimResourceTypes.types_itemsPerPage (ScimResourceTypes.get_resource_types base)
     = Z.of_nat (length listed)
  /\ length listed = 2%nat.
Proof.
  cbn zeta. split; [|repeat split].
  unfold ScimResourceTypes.get_resource_type_by_name.
  destruct (String.eqb_spec (Py.lower type_name) "user") as [Eu|Eu].
  - split; [left; reflexivity | exact Eu].
  - destruct (String.eqb_spec (Py.lower type_name) "group") as [Eg|Eg].
    + split; [right; left; reflexivity | exact Eg].
    + split; [reflexivity|]. intros t [<-|[<-|[]]]; assumption.
Qed.

(** ** The schema list and the schema lookups *)

Section SchemaList.

Import ScimSchemas.

Variable scim_attributes_of : ModelCls -> list SCIMSchemaAttribute.

(** X29. The schema list is the two lookups, one after the other. On
    any state of the caches, a list request answers with the User schema
    and the Group schema that the two lookups by id would return, in
    that order and counted as two, and leaves the caches as the two
    lookups would leave them. Each of the two carries the location of
    the caller: the text of the caller's base URL, /Schemas/ and the
    schema's URN, with the scheme http when the base URL starts with
    http: and https otherwise. *)
Theorem schema_list_is_two_lookups (base : string) (c : Caches) :
  exists c1 c2 u g,
    get_schema_by_id scim_attributes_of base USER_SCHEMA_URN c = (c1, inr u)
    /\ get_schema_by_id scim_attributes_of base GROUP_SCHEMA_URN c1 = (c2, inr g)
    /\ get_schemas scim_attributes_of base c
       = (c2, inr (mkSchemaList [LIST_RESPONSE_URN] 2 1 2 [u; g]))
    /\ url (schema_location (schema_meta u))
       = String.append base
           (String.append "/Schemas/" "urn:ietf:params:scim:schemas:core:2.0:User")
    /\ url (schema_location (schema_meta g))
       = String.append base
           (String.append "/Schemas/" "urn:ietf:params:scim:schemas:core:2.0:Group")
    /\ scheme (schema_location (schema_meta u))
       = (if Py.startswith "http:" base then "http"%string else "https"%string)
    /\ scheme (schema_location (schema_meta g))
       = (if Py.startswith "http:" base then "http"%string else "https"%string).
Proof.
  unfold get_schema_by_id, get_schemas.
  change (String.eqb USER_SCHEMA_URN USER_SCHEMA_URN) with true.
  change (String.eqb GROUP_SCHEMA_URN USER_SCHEMA_URN) with false.
  change (String.eqb GROUP_SCHEMA_URN GROUP_SCHEMA_URN) with true.
  cbv iota.
  destruct c as [[cu|] [cg|] log]; cbn [_USER_SCIM_SCHEMA_CACHE _GROUP_SCIM_SCHEMA_CACHE
                                        derivations];
    eexists _, _, _, _; (split; [reflexivity|]); (split; [reflexivity|]);
    (split; [reflexivity|]);
    cbn [set_location schema_meta schema_location];
    unfold schema_location_of, make_url;
    destruct (Py.startswith "http:" base); repeat split; reflexivity.
Qed.

End SchemaList.

(** ** The earlier mapper and the current one *)

(** X30. The earlier wire-to-record mapping of [models/scim.py] and
    the current one of [utils/scim_utils.py], on the same payload (one
    without displayName and externalId). They stage the same e-mail,
    role and id. They stage the same name whenever the payload has a
    formatted name or a given name. They part when it has neither: with
    a family name alone the earlier mapping stages the family name and
    the current one the userName; with no name at all the earlier
    mapping stages the formatted field as it came (null or empty) and
    the current one the userName. *)
Theorem earlier_mapper_vs_current (u : LegacyModels.SCIMUser) :
  let earlier := LegacyModels.from_scim_user u in
  let current := scim_user_to_db_dict (Text.as_current u) in
  let nm := LegacyModels.name u in
  earlier !! "email"%string = Py.VStr <$> current !! "email"%string
  /\ earlier !! "role"%string = Py.VStr <$> current !! "role"%string
  /\ earlier !! "id"%string = Py.VStr <$> current !! "id"%string
  /\ ((Py.otruthy (formatted nm) || Py.otruthy (givenName nm))%bool = true ->
      earlier !! "name"%string = Py.VStr <$> current !! "name"%string)
  /\ ((Py.otruthy (formatted nm) || Py.otruthy (givenName nm))%bool = false ->
      current !! "name"%string = Some (LegacyModels.userName u)
      /\ earlier !! "name"%string
         = Some (if Py.otruthy (familyName nm)
                 then Py.VStr (default EmptyString (familyName nm))
                 else match formatted nm with
                      | Some f => Py.VStr f
                      | None => Py.VNone
                      end)).
Proof.
  destruct u as [i un [f fam giv] act].
  unfold LegacyModels.from_scim_user, scim_user_to_db_dict, resolve_name, Text.as_current.
  cbn [LegacyModels.id LegacyModels.userName LegacyModels.name LegacyModels.active
       user_id userName user_name user_displayName user_externalId active
       formatted familyName givenName has_name_field get_name_field Py.otruthy].
  destruct f as [[|cf f]|], giv as [[|cg giv]|], fam as [[|cm fam]|], (Py.truthy i);
    cbn [Py.truthy Py.otruthy negb andb orb default from_option id];
    dict_lookups; cbn [fmap option_fmap option_map default from_option id];
    repeat split; intros; try discriminate; try reflexivity.
Qed.
